(** * zabbix_screen: reconciliation of Zabbix screens

    A shallow embedding of [plugins/modules/zabbix_screen.py] (class [Screen]
    and [main]) together with a model of the part of the Zabbix API the
    module talks to, and the properties of the layout computation, the
    item placement, the diff check and the absent path. *)

From Stdlib Require Import ZArith List String Ascii Bool Lia DecimalString.
From Stdlib Require Import Sorted Permutation DecimalPos.
Import ListNotations.

Local Open Scope string_scope.
Local Open Scope list_scope.
Local Open Scope Z_scope.

(** ** Python values *)

(** Object identifiers are JSON strings in the Zabbix API. *)
Definition ident := string.

(** [len(l)], a Python int. *)
Definition len {A : Type} (l : list A) : Z := Z.of_nat (List.length l).

(** [enumerate(l)], counting from [i]. *)
Fixpoint enumerate_from {A : Type} (i : Z) (l : list A) : list (Z * A) :=
  match l with
  | [] => []
  | x :: t => (i, x) :: enumerate_from (i + 1) t
  end.

Definition enumerate {A : Type} (l : list A) : list (Z * A) := enumerate_from 0 l.

(** [if screen_id:] on an identifier that may be [None]: [None] and the
    empty string are false; a true one is handed on. *)
Definition truthy (o : option ident) : option ident :=
  match o with
  | Some s => if String.eqb s "" then None else Some s
  | None => None
  end.

(** [l1 != l2] on lists of identifiers. *)
Definition ids_eqb (l1 l2 : list ident) : bool :=
  if list_eq_dec string_dec l1 l2 then true else false.

(** [x in l] for strings. *)
Definition mem (x : string) (l : list string) : bool := existsb (String.eqb x) l.

(** [sorted(l, key=...)] is stable; insertion from the right keeps the order
    of elements with equal keys. *)
Section Sorted.
Context {A : Type} (key : A -> string).

Fixpoint insert_by_key (x : A) (l : list A) : list A :=
  match l with
  | [] => [x]
  | y :: t => if String.leb (key x) (key y) then x :: y :: t
              else y :: insert_by_key x t
  end.

Definition sorted (l : list A) : list A := fold_right insert_by_key [] l.
End Sorted.

(** ** The remote Zabbix server *)

Module Zabbix.

Record hostgroup := { groupid : ident; hostgroup_name : string }.

(** A host, with the ids of its groups (what [selectGroups: groupid]
    returns) and whether it is monitored. *)
Record host := {
  hostid : ident;
  host_name : string;
  groups : list ident;
  monitored : bool
}.

Record graph := { graphid : ident; graph_name : string; graph_hostid : ident }.

Record screen := { screenid : ident; screen_name : string; hsize : Z; vsize : Z }.

(** The fields [create_screen_items] sends for one screen item. *)
Record item_data := {
  d_screenid : ident;
  resourcetype : Z;
  resourceid : ident;
  width : Z;
  height : Z;
  x : Z;
  y : Z;
  colspan : Z;
  rowspan : Z;
  elements : Z;
  valign : Z;
  halign : Z;
  style : Z;
  dynamic : Z;
  sort_triggers : Z
}.

Record screenitem := { screenitemid : ident; data : item_data }.

Record server := {
  api_version : string;
  hostgroups : list hostgroup;
  hosts : list host;
  graphs : list graph;
  screens : list screen;
  screenitems : list screenitem;
  next_id : N
}.

(** *** Matching

    The API's [filter] option keeps the objects whose property equals one
    of the given values.  Its [search] option is a case-insensitive
    substring search (SQL [LIKE "%pattern%"]); the module's documentation
    of [graph_names] ("Case insensitive") relies on it. *)

Definition lower (c : ascii) : ascii :=
  let n := nat_of_ascii c in
  if (Nat.leb 65 n && Nat.leb n 90)%bool then ascii_of_nat (n + 32) else c.

Fixpoint lowercase (s : string) : string :=
  match s with
  | EmptyString => EmptyString
  | String c t => String (lower c) (lowercase t)
  end.

Fixpoint contains (pattern s : string) : bool :=
  (String.prefix pattern s
   || match s with
      | EmptyString => false
      | String _ t => contains pattern t
      end)%bool.

Definition search (pattern s : string) : bool :=
  contains (lowercase pattern) (lowercase s).

(** *** Reads *)

(** [hostgroup.get] with [filter: {name: names}]. *)
Definition hostgroup_get (r : server) (names : list string) : list hostgroup :=
  filter (fun g => mem (hostgroup_name g) names) (hostgroups r).

(** [host.get] with [groupids] and [monitored_hosts: 1]: the monitored
    hosts that belong to one of the groups at least. *)
Definition host_get (r : server) (groupids : list ident) : list host :=
  filter (fun h => (monitored h && existsb (fun g => mem g (groups h)) groupids)%bool)
         (hosts r).

(** [screen.get] with [search: {name: pattern}]. *)
Definition screen_get (r : server) (pattern : string) : list screen :=
  filter (fun s => search pattern (screen_name s)) (screens r).

(** [graph.get] with [search: {name: pattern}] and [hostids]. *)
Definition graph_get (r : server) (pattern : string) (host_id : ident) : list graph :=
  filter (fun g => (search pattern (graph_name g) && String.eqb (graph_hostid g) host_id)%bool)
         (graphs r).

(** [screenitem.get] with [screenids]. *)
Definition screenitem_get (r : server) (screen_id : ident) : list screenitem :=
  filter (fun i => String.eqb (d_screenid (data i)) screen_id) (screenitems r).

(** *** Writes *)

Definition fresh (r : server) : ident := NilEmpty.string_of_uint (N.to_uint (next_id r)).

Definition screen_create (r : server) (name : string) (h v : Z) : server * ident :=
  ({| api_version := api_version r; hostgroups := hostgroups r; hosts := hosts r;
      graphs := graphs r;
      screens := screens r ++ [{| screenid := fresh r; screen_name := name;
                                  hsize := h; vsize := v |}];
      screenitems := screenitems r; next_id := N.succ (next_id r) |},
   fresh r).

Definition screen_update (r : server) (id : ident) (h v : Z) : server :=
  {| api_version := api_version r; hostgroups := hostgroups r; hosts := hosts r;
     graphs := graphs r;
     screens := map (fun s => if String.eqb (screenid s) id
                              then {| screenid := id; screen_name := screen_name s;
                                      hsize := h; vsize := v |}
                              else s) (screens r);
     screenitems := screenitems r; next_id := next_id r |}.

(** Deleting a screen deletes its items with it. *)
Definition screen_delete (r : server) (ids : list ident) : server :=
  {| api_version := api_version r; hostgroups := hostgroups r; hosts := hosts r;
     graphs := graphs r;
     screens := filter (fun s => negb (mem (screenid s) ids)) (screens r);
     screenitems := filter (fun i => negb (mem (d_screenid (data i)) ids)) (screenitems r);
     next_id := next_id r |}.

Definition screenitem_create (r : server) (d : item_data) : server :=
  {| api_version := api_version r; hostgroups := hostgroups r; hosts := hosts r;
     graphs := graphs r; screens := screens r;
     screenitems := screenitems r ++ [{| screenitemid := fresh r; data := d |}];
     next_id := N.succ (next_id r) |}.

Definition screenitem_delete (r : server) (ids : list ident) : server :=
  {| api_version := api_version r; hostgroups := hostgroups r; hosts := hosts r;
     graphs := graphs r; screens := screens r;
     screenitems := filter (fun i => negb (mem (screenitemid i) ids)) (screenitems r);
     next_id := next_id r |}.

(** *** The calls a run issues *)

Inductive call :=
| ApiinfoVersion
| HostgroupGet (names : list string)
| HostGet (groupids : list ident)
| ScreenGet (pattern : string)
| GraphGet (pattern : string) (host_id : ident)
| ScreenitemGet (screen_id : ident)
| ScreenCreate (name : string) (h v : Z)
| ScreenUpdate (screen_id : ident) (h v : Z)
| ScreenDelete (ids : list ident)
| ScreenitemCreate (d : item_data)
| ScreenitemDelete (ids : list ident).

Definition is_write (c : call) : bool :=
  match c with
  | ScreenCreate _ _ _ | ScreenUpdate _ _ _ | ScreenDelete _
  | ScreenitemCreate _ | ScreenitemDelete _ => true
  | _ => false
  end.

Definition is_screen_call (c : call) : bool :=
  match c with
  | ScreenGet _ | ScreenitemGet _ => true
  | _ => is_write c
  end.

End Zabbix.

Import Zabbix.

(** ** Runs of the module *)

(** What [fail_json] reports: a fixed text, or a text formatted with a list
    of strings. *)
Inductive message :=
| Msg (text : string)
| MsgList (text : string) (args : list string).

Inductive exn := ZeroDivisionError | TypeError | IndexError.

(** How a piece of the module ends: it returns, the module fails
    ([fail_json]), the module exits ([exit_json]), or an exception escapes. *)
Inductive outcome (A : Type) :=
| Ret (a : A)
| FailJson (msg : message)
| ExitJson (changed : bool) (result : option string)
| Raise (e : exn).

Arguments Ret {A} a.
Arguments FailJson {A} msg.
Arguments ExitJson {A} changed result.
Arguments Raise {A} e.

(** The state of a run: the server, and the calls issued so far, oldest
    first. *)
Record world := { remote : server; calls : list call }.

Definition M (A : Type) : Type := world -> outcome A * world.

Definition ret {A : Type} (a : A) : M A := fun w => (Ret a, w).

Definition bind {A B : Type} (m : M A) (k : A -> M B) : M B :=
  fun w =>
    match m w with
    | (Ret a, w') => k a w'
    | (FailJson msg, w') => (FailJson msg, w')
    | (ExitJson c r, w') => (ExitJson c r, w')
    | (Raise e, w') => (Raise e, w')
    end.

Notation "x <- c ;; k" := (bind c (fun x => k))
  (at level 61, c at next level, right associativity).
Notation "' pat <- c ;; k" := (bind c (fun x => match x with pat => k end))
  (at level 61, pat pattern, c at next level, right associativity).
Notation "c ;; k" := (bind c (fun _ => k))
  (at level 61, right associativity).

Definition fail_json {A : Type} (msg : message) : M A := fun w => (FailJson msg, w).
Definition exit_json {A : Type} (changed : bool) (result : option string) : M A :=
  fun w => (ExitJson changed result, w).
Definition raise {A : Type} (e : exn) : M A := fun w => (Raise e, w).

(** [for x in l: body], threading the variables the body assigns. *)
Fixpoint for_fold {A S : Type} (l : list A) (acc : S) (body : S -> A -> M S) : M S :=
  match l with
  | [] => ret acc
  | x :: t => acc' <- body acc x ;; for_fold t acc' body
  end.

Definition for_each {A : Type} (l : list A) (body : A -> M unit) : M unit :=
  for_fold l tt (fun _ x => body x).

(** [a // b] and [a % b]: Python rounds to the floor as [Z.div] does, and
    raises on a zero divisor. *)
Definition floordiv (a b : Z) : M Z :=
  if b =? 0 then raise ZeroDivisionError else ret (a / b).

Definition modulo (a b : Z) : M Z :=
  if b =? 0 then raise ZeroDivisionError else ret (a mod b).

(** A call that reads the server.  The server of the model answers every
    call, so the handlers of the module for a failed call are never entered
    and are left out. *)
Definition zapi_read {A : Type} (c : call) (f : server -> A) : M A :=
  fun w => (Ret (f (remote w)), {| remote := remote w; calls := calls w ++ [c] |}).

(** A call that changes the server. *)
Definition zapi_write {A : Type} (c : call) (f : server -> server * A) : M A :=
  fun w => let '(r, a) := f (remote w) in
           (Ret a, {| remote := r; calls := calls w ++ [c] |}).

(** ** Module parameters *)

Inductive state := absent | present.

(** One entry of the [screens] option, as the argument spec declares it:
    [graph_names], [graph_width] and [graph_height] default to [None];
    [host_group] is required when [state] is [present]. *)
Module Params.
Record t := {
  screen_name : string;
  host_group : option (list string);
  state : state;
  graph_names : option (list string);
  graph_width : option Z;
  graph_height : option Z;
  graphs_in_row : Z;
  sort : bool
}.
End Params.

(** ** Helpers of the collection that are not part of this module *)

(** Modelled from the spec: [LooseVersion] of [module_utils.version], which
    the gate of section 4.2 uses to compare the reported API version against a
    fixed threshold.  A version is read as the sequence of its decimal
    numbers, and two versions compare as Python lists do. *)
Definition digit (c : ascii) : option N :=
  let n := nat_of_ascii c in
  if (Nat.leb 48 n && Nat.leb n 57)%bool then Some (N.of_nat (n - 48)) else None.

(** Modelled from the spec: the numbers of a version, left to right; [cur] is
    the number being read. *)
Fixpoint components (s : string) (cur : option N) : list N :=
  match s with
  | EmptyString => match cur with Some n => [n] | None => [] end
  | String c t =>
      match digit c with
      | Some d =>
          components t (Some (10 * match cur with Some n => n | None => 0 end + d)%N)
      | None =>
          match cur with
          | Some n => n :: components t None
          | None => components t None
          end
      end
  end.

(** Modelled from the spec: [LooseVersion(s)], the version to compare. *)
Definition LooseVersion (s : string) : list N := components s None.

(** Modelled from the spec: [a >= b] on versions, "at or above". *)
Fixpoint version_ge (a b : list N) : bool :=
  match a, b with
  | _, [] => true
  | [], _ :: _ => false
  | m :: a', n :: b' =>
      if (m <? n)%N then false else if (n <? m)%N then true else version_ge a' b'
  end.

(** Modelled from the spec: [ScreenItem.create] and [ScreenItem.delete] of
    [module_utils.wrappers], the operations [screenItem.create(fields)] and
    [screenItem.delete([id])] of section 6. *)
Definition ScreenItem_create (d : item_data) : M unit :=
  zapi_write (ScreenitemCreate d) (fun r => (screenitem_create r d, tt)).

(** Modelled from the spec: [ScreenItem.delete], the operation
    [screenItem.delete([id])] of section 6. *)
Definition ScreenItem_delete (ids : list ident) : M unit :=
  zapi_write (ScreenitemDelete ids) (fun r => (screenitem_delete r ids, tt)).

(** Modelled from the spec: the constructor of [ZabbixBase]
    ([module_utils.base]) asks the server for the version of its API. *)
Definition zbx_api_version : M string := zapi_read ApiinfoVersion api_version.

(** ** class Screen *)

Section Screen.

(** [self._module.check_mode] *)
Variable check_mode : bool.

(** get list of group ids by list of group names *)
Definition get_host_group_ids (group_names : option (list string)) : M (list ident) :=
  match group_names with
  | None | Some [] => fail_json (Msg "group_name is required")
  | Some names =>
      hostGroup_list <- zapi_read (HostgroupGet names) (fun r => hostgroup_get r names) ;;
      match hostGroup_list with
      | [] => fail_json (MsgList "Host group not found: " names)
      | _ => ret (map groupid hostGroup_list)
      end
  end.

(** Check if all search group ids are in hosts group ids *)
Definition in_all_groups (group_ids : list ident) (h : host) : bool :=
  forallb (fun g => mem g (groups h)) group_ids.

(** get monitored host_ids by host_group_ids (the hosts belonging to all
    given groups) *)
Definition get_host_ids_by_group_ids (group_ids : list ident) (sort : bool)
  : M (list ident) :=
  host_list <- zapi_read (HostGet group_ids) (fun r => host_get r group_ids) ;;
  match host_list with
  | [] => fail_json (MsgList "No hosts in the all group(s) with ids " group_ids)
  | _ =>
      let host_list := if sort then sorted host_name host_list else host_list in
      ret (map hostid (filter (in_all_groups group_ids) host_list))
  end.

(** get screen *)
Definition get_screen_id (screen_name : string) : M (option ident) :=
  if String.eqb screen_name "" then fail_json (Msg "screen_name is required")
  else
    screen_id_list <- zapi_read (ScreenGet screen_name)
                                (fun r => screen_get r screen_name) ;;
    match screen_id_list with
    | s :: _ => ret (Some (screenid s))
    | [] => ret None
    end.

(** create screen *)
Definition create_screen (screen_name : string) (h_size v_size : Z) : M ident :=
  if check_mode then exit_json true None
  else zapi_write (ScreenCreate screen_name h_size v_size)
                  (fun r => screen_create r screen_name h_size v_size).

(** update screen *)
Definition update_screen (screen_id : ident) (screen_name : string) (h_size v_size : Z)
  : M unit :=
  if check_mode then exit_json true None
  else zapi_write (ScreenUpdate screen_id h_size v_size)
                  (fun r => (screen_update r screen_id h_size v_size, tt)).

(** delete screen *)
Definition delete_screen (screen_id : ident) (screen_name : string) : M unit :=
  if check_mode then exit_json true None
  else zapi_write (ScreenDelete [screen_id])
                  (fun r => (screen_delete r [screen_id], tt)).

(** getGraphs: iterating [None] raises. *)
Definition get_graphs_by_host_id (graph_name_list : option (list string)) (host_id : ident)
  : M (list ident) :=
  match graph_name_list with
  | None => raise TypeError
  | Some names =>
      for_fold names [] (fun graph_ids graph_name =>
        graphs_list <- zapi_read (GraphGet graph_name host_id)
                                 (fun r => graph_get r graph_name host_id) ;;
        let graph_id_list :=
          if 0 <? len graphs_list then map graphid graphs_list else [] in
        ret (if 0 <? len graph_id_list then graph_ids ++ graph_id_list else graph_ids))
  end.

(** get graph ids *)
Definition get_graph_ids (hosts : list ident) (graph_name_list : option (list string))
  : M (list ident * Z) :=
  for_fold hosts ([], 1) (fun '(graph_id_lists, vsize) host =>
    graph_id_list <- get_graphs_by_host_id graph_name_list host ;;
    let size := len graph_id_list in
    if 0 <? size
    then ret (graph_id_lists ++ graph_id_list, if vsize <? size then size else vsize)
    else ret (graph_id_lists, vsize)).

(** get screen items *)
Definition get_screen_items (screen_id : ident) : M (list screenitem) :=
  zapi_read (ScreenitemGet screen_id) (fun r => screenitem_get r screen_id).

(** delete screen items *)
Definition delete_screen_items (screen_id : ident) (screen_item_id_list : list ident)
  : M bool :=
  if len screen_item_id_list =? 0 then ret true
  else
    screen_item_list <- get_screen_items screen_id ;;
    if 0 <? len screen_item_list then
      (if check_mode then exit_json true None else ret tt) ;;
      ScreenItem_delete screen_item_id_list ;;
      ret true
    else ret false.

(** get screen's hsize and vsize *)
Definition get_hsize_vsize (hosts : list ident) (v_size graphs_in_row : Z) : M (Z * Z) :=
  let h_size := len hosts in
  (* when there is only one host, put all graphs in a row *)
  if h_size =? 1 then
    let h_size := if v_size <=? graphs_in_row then v_size else graphs_in_row in
    q <- floordiv (v_size - 1) h_size ;;
    ret (h_size, q + 1)
  (* when len(hosts) is more then graphs_in_row *)
  else if len hosts >? graphs_in_row then
    q <- floordiv (len hosts) graphs_in_row ;;
    ret (graphs_in_row, (q + 1) * v_size)
  else ret (h_size, v_size).

(** [if x is None or x < 0: x = d] *)
Definition or_default (x : option Z) (d : Z) : Z :=
  match x with
  | None => d
  | Some n => if n <? 0 then d else n
  end.

(** The dictionary [create_screen_items] passes to [ScreenItem.create]. *)
Definition item (screen_id graph_id : ident) (width height x y : Z) : item_data :=
  {| d_screenid := screen_id; resourcetype := 0; resourceid := graph_id;
     width := width; height := height; x := x; y := y; colspan := 1; rowspan := 1;
     elements := 0; valign := 0; halign := 0; style := 0; dynamic := 0;
     sort_triggers := 0 |}.

(** create screen_items; graph ids are strings, never [None]. *)
Definition create_screen_items (screen_id : ident) (hosts : list ident)
    (graph_name_list : option (list string)) (width height : option Z)
    (h_size graphs_in_row : Z) : M unit :=
  let width :=
    if len hosts <? 4 then or_default width 500 else or_default width 200 in
  let height := or_default height 100 in
  (* when there're only one host, only one row is not good. *)
  if len hosts =? 1 then
    match hosts with
    | [] => raise IndexError
    | host0 :: _ =>
        graph_id_list <- get_graphs_by_host_id graph_name_list host0 ;;
        for_each (enumerate graph_id_list) (fun '(i, graph_id) =>
          x <- modulo i h_size ;;
          y <- floordiv i h_size ;;
          ScreenItem_create (item screen_id graph_id width height x y))
    end
  else
    for_each (enumerate hosts) (fun '(i, host) =>
      graph_id_list <- get_graphs_by_host_id graph_name_list host ;;
      for_each (enumerate graph_id_list) (fun '(j, graph_id) =>
        x <- modulo i graphs_in_row ;;
        q <- floordiv i graphs_in_row ;;
        ScreenItem_create
          (item screen_id graph_id width height x (len graph_id_list * q + j)))).

(** ** main *)

(** The names of the screens created, changed and deleted so far. *)
Definition report : Type := list string * list string * list string.

(** Lines 424-427: the hosts of the groups. *)
Definition resolve_hosts (host_group : option (list string)) (sort : bool)
  : M (list ident) :=
  host_group_ids <- get_host_group_ids host_group ;;
  hosts <- get_host_ids_by_group_ids host_group_ids sort ;;
  match hosts with
  | [] => fail_json (MsgList "No hosts found belongin to all given groups: "
                             (match host_group with Some l => l | None => [] end))
  | _ => ret hosts
  end.

(** Lines 419-432: the hosts, their graphs and the size of the screen. *)
Definition resolve (zabbix_screen : Params.t)
  : M (list ident * list ident * Z * Z) :=
  let host_group := Params.host_group zabbix_screen in
  let graph_names := Params.graph_names zabbix_screen in
  let graphs_in_row := Params.graphs_in_row zabbix_screen in
  hosts <- resolve_hosts host_group (Params.sort zabbix_screen) ;;
  ' (graph_ids, v_size) <- get_graph_ids hosts graph_names ;;
  ' (h_size, v_size) <- get_hsize_vsize hosts v_size graphs_in_row ;;
  ret (hosts, graph_ids, h_size, v_size).

(** Lines 434-454: create the screen, or update it when its items changed. *)
Definition reconcile (zabbix_screen : Params.t) (screen_id : option ident)
    (hosts graph_ids : list ident) (h_size v_size : Z) (acc : report) : M report :=
  let '(created_screens, changed_screens, deleted_screens) := acc in
  let screen_name := Params.screen_name zabbix_screen in
  let graph_names := Params.graph_names zabbix_screen in
  let graphs_in_row := Params.graphs_in_row zabbix_screen in
  let graph_width := Params.graph_width zabbix_screen in
  let graph_height := Params.graph_height zabbix_screen in
  match truthy screen_id with
  | None =>
      (* create screen *)
      screen_id <- create_screen screen_name h_size v_size ;;
      create_screen_items screen_id hosts graph_names graph_width graph_height
                          h_size graphs_in_row ;;
      ret (created_screens ++ [screen_name], changed_screens, deleted_screens)
  | Some screen_id =>
      screen_item_list <- get_screen_items screen_id ;;
      let screen_item_id_list := map screenitemid screen_item_list in
      let resource_id_list := map (fun i => resourceid (data i)) screen_item_list in
      (* when the screen items changed, then update *)
      if negb (ids_eqb graph_ids resource_id_list) then
        deleted <- delete_screen_items screen_id screen_item_id_list ;;
        if deleted : bool then
          update_screen screen_id screen_name h_size v_size ;;
          create_screen_items screen_id hosts graph_names graph_width graph_height
                              h_size graphs_in_row ;;
          ret (created_screens, changed_screens ++ [screen_name], deleted_screens)
        else ret acc
      else ret acc
  end.

(** The body of the loop over [screens]. *)
Definition process_screen (acc : report) (zabbix_screen : Params.t) : M report :=
  let '(created_screens, changed_screens, deleted_screens) := acc in
  let screen_name := Params.screen_name zabbix_screen in
  screen_id <- get_screen_id screen_name ;;
  match Params.state zabbix_screen with
  | absent =>
      match truthy screen_id with
      | Some screen_id =>
          screen_item_list <- get_screen_items screen_id ;;
          let screen_item_id_list := map screenitemid screen_item_list in
          delete_screen_items screen_id screen_item_id_list ;;
          delete_screen screen_id screen_name ;;
          ret (created_screens, changed_screens, deleted_screens ++ [screen_name])
      | None => ret acc
      end
  | present =>
      ' (hosts, graph_ids, h_size, v_size) <- resolve zabbix_screen ;;
      reconcile zabbix_screen screen_id hosts graph_ids h_size v_size acc
  end.

Definition removed_message : message :=
  Msg ("Zabbix 5.4 removed the Screens feature see ("
       ++ "https://www.zabbix.com/documentation/current/en/manual/api/changes_5.2_-_5.4"
       ++ ").")%string.

Definition join (l : list string) : string := String.concat "," l.

Definition main (screens : list Params.t) : M unit :=
  version <- zbx_api_version ;;
  if version_ge (LooseVersion version) (LooseVersion "5.4")
  then fail_json removed_message
  else
    ' (created_screens, changed_screens, deleted_screens) <-
        for_fold screens ([], [], []) process_screen ;;
    match created_screens, changed_screens, deleted_screens with
    | _ :: _, _ :: _, _ =>
        exit_json true
          (Some ("Successfully created screen(s): " ++ join created_screens
                 ++ ", and updated screen(s): " ++ join changed_screens)%string)
    | _ :: _, [], _ =>
        exit_json true
          (Some ("Successfully created screen(s): " ++ join created_screens)%string)
    | [], _ :: _, _ =>
        exit_json true
          (Some ("Successfully updated screen(s): " ++ join changed_screens)%string)
    | [], [], _ :: _ =>
        exit_json true
          (Some ("Successfully deleted screen(s): " ++ join deleted_screens)%string)
    | [], [], [] => exit_json false None
    end.

End Screen.

(** ** The words of the specification *)

(** [ceil(a / b)] on integers. *)
Definition ceil_div (a b : Z) : Z := - ((- a) / b).

(** The layout for one host: [columns = min(maxGraphsPerHost, graphsPerRow)],
    [rows = ceil(maxGraphsPerHost / columns)]. *)
Definition single_host_layout (max_graphs graphs_per_row : Z) : Z * Z :=
  let columns := Z.min max_graphs graphs_per_row in
  (columns, ceil_div max_graphs columns).

(** The layout for more hosts than fit a row: [columns = graphsPerRow],
    [rows = ceil(hostCount / graphsPerRow) * maxGraphsPerHost]. *)
Definition many_hosts_layout (host_count max_graphs graphs_per_row : Z) : Z * Z :=
  (graphs_per_row, ceil_div host_count graphs_per_row * max_graphs).

(** The cell size: the default unless a non-negative value is given. *)
Definition cell_width (host_count : Z) (graph_width : option Z) : Z :=
  match graph_width with
  | Some w => if 0 <=? w then w else if host_count <? 4 then 500 else 200
  | None => if host_count <? 4 then 500 else 200
  end.

Definition cell_height (graph_height : option Z) : Z :=
  match graph_height with
  | Some h => if 0 <=? h then h else 100
  | None => 100
  end.

(** The graphs of a host that the names resolve to, in the order of the
    names. *)
Definition resolved_graphs (r : server) (names : list string) (host_id : ident)
  : list ident :=
  flat_map (fun n => map graphid (graph_get r n host_id)) names.

(** Placement on one host: the i-th graph at [(i mod columns, i div columns)]. *)
Definition single_host_items (screen_id : ident) (w h columns : Z)
    (graph_ids : list ident) : list item_data :=
  map (fun '(i, g) => item screen_id g w h (i mod columns) (i / columns))
      (enumerate graph_ids).

(** Placement on several hosts: the j-th graph of host i at
    [(i mod graphsPerRow, graphCountForHost * (i div graphsPerRow) + j)]. *)
Definition host_items (screen_id : ident) (w h graphs_per_row i : Z)
    (graph_ids : list ident) : list item_data :=
  map (fun '(j, g) =>
         item screen_id g w h (i mod graphs_per_row)
              (len graph_ids * (i / graphs_per_row) + j))
      (enumerate graph_ids).

Definition multi_host_items (r : server) (screen_id : ident) (w h graphs_per_row : Z)
    (names : list string) (hosts : list ident) : list item_data :=
  flat_map (fun '(i, host) =>
              host_items screen_id w h graphs_per_row i (resolved_graphs r names host))
           (enumerate hosts).

(** The items a run asked the server to create, oldest first. *)
Definition created_items (l : list call) : list item_data :=
  flat_map (fun c => match c with ScreenitemCreate d => [d] | _ => [] end) l.

(** A host that is monitored and belongs to every one of the groups. *)
Definition belongs_to_all (r : server) (group_ids : list ident) (host_id : ident) : Prop :=
  exists h, In h (hosts r) /\ hostid h = host_id /\ monitored h = true
            /\ forall g, In g group_ids -> In g (groups h).

(** The world after the reads [l]. *)
Definition log (w : world) (l : list call) : world :=
  {| remote := remote w; calls := calls w ++ l |}.

(** The [vsize] that [get_graph_ids] computes: the largest number of graphs
    of a host, and [v] at least. *)
Fixpoint max_graphs (r : server) (names : list string) (hosts : list ident) (v : Z) : Z :=
  match hosts with
  | [] => v
  | host :: t => max_graphs r names t (Z.max v (len (resolved_graphs r names host)))
  end.

(** The reads [get_graph_ids] issues. *)
Definition graph_calls (names : list string) (hosts : list ident) : list call :=
  flat_map (fun host => map (fun n => GraphGet n host) names) hosts.

(** A property of calls that every read has. *)
Definition admits_reads (P : call -> Prop) : Prop :=
  forall c, is_write c = false -> P c.

(** The world after the creation of the items [ds], one call each. *)
Definition create_all (ds : list item_data) (w : world) : world :=
  fold_left (fun w d => {| remote := screenitem_create (remote w) d;
                           calls := calls w ++ [ScreenitemCreate d] |}) ds w.

(** The resource, the position and the span of an item. *)
Definition cell_of (d : item_data) : ident * Z * Z * Z * Z :=
  (resourceid d, x d, y d, colspan d, rowspan d).

(** One host: the i-th graph goes to [(i mod columns, i div columns)] and
    spans one cell. *)
Definition single_host_cells (columns : Z) (graph_ids : list ident)
  : list (ident * Z * Z * Z * Z) :=
  map (fun '(i, g) => (g, i mod columns, i / columns, 1, 1)) (enumerate graph_ids).

(** Several hosts: the j-th graph of host i goes to
    [(i mod graphsPerRow, graphCountForHost * (i div graphsPerRow) + j)]; a
    host without graphs adds nothing but counts in [i]. *)
Definition multi_host_cells (r : server) (graphs_per_row : Z) (names : list string)
    (hosts : list ident) : list (ident * Z * Z * Z * Z) :=
  flat_map (fun '(i, host) =>
              let graph_ids := resolved_graphs r names host in
              map (fun '(j, g) =>
                     (g, i mod graphs_per_row,
                      len graph_ids * (i / graphs_per_row) + j, 1, 1))
                  (enumerate graph_ids))
           (enumerate hosts).

(** What a run starting in [w] asks of the server: it adds the calls [t],
    every one of which satisfies [P], and if none of them writes, the server
    is as it was. *)
Definition emits {A : Type} (P : call -> Prop) (m : M A) (w : world) : Prop :=
  exists t, calls (snd (m w)) = calls w ++ t
            /\ Forall P t
            /\ (Forall (fun c => is_write c = false) t -> remote (snd (m w)) = remote w).

(** Every screen created or updated has a positive width and height. *)
Definition positive_size (c : call) : Prop :=
  match c with
  | ScreenCreate _ h v | ScreenUpdate _ h v => 1 <= h /\ 1 <= v
  | _ => True
  end.

(** Every item created has the given cell size. *)
Definition cell_size (w h : Z) (c : call) : Prop :=
  match c with
  | ScreenitemCreate d => width d = w /\ height d = h
  | _ => True
  end.

(** ** An example server

    Two groups; three monitored hosts, one of them in one group only, and a
    host that is not monitored; three screens, one of which shows the graphs
    of the hosts of both groups. *)

Definition example_item (id screen_id graph_id : ident) (x y : Z) : screenitem :=
  {| screenitemid := id; data := item screen_id graph_id 500 100 x y |}.

Definition example_server : server :=
  {| api_version := "5.2.6";
     hostgroups := [ {| groupid := "2"; hostgroup_name := "G1" |};
                     {| groupid := "4"; hostgroup_name := "G2" |} ];
     hosts := [ {| hostid := "10"; host_name := "web2"; groups := ["2"; "4"];
                   monitored := true |};
                {| hostid := "11"; host_name := "web1"; groups := ["2"];
                   monitored := true |};
                {| hostid := "12"; host_name := "db1"; groups := ["2"; "4"];
                   monitored := false |};
                {| hostid := "13"; host_name := "app1"; groups := ["4"; "2"];
                   monitored := true |} ];
     graphs := [ {| graphid := "100"; graph_name := "CPU load"; graph_hostid := "10" |};
                 {| graphid := "101"; graph_name := "Memory usage"; graph_hostid := "10" |};
                 {| graphid := "102"; graph_name := "CPU load"; graph_hostid := "13" |} ];
     screens := [ {| screenid := "7"; screen_name := "ExampleScreen10";
                     hsize := 1; vsize := 1 |};
                  {| screenid := "8"; screen_name := "ExampleScreen1";
                     hsize := 1; vsize := 1 |};
                  {| screenid := "9"; screen_name := "Dash"; hsize := 2; vsize := 2 |} ];
     screenitems := [ example_item "40" "7" "100" 0 0;
                      example_item "50" "9" "102" 0 0;
                      example_item "51" "9" "100" 1 0;
                      example_item "52" "9" "101" 1 1 ];
     next_id := 200 |}.

Definition example_world : world := {| remote := example_server; calls := [] |}.

(** The same server after an upgrade to Zabbix 6.0. *)
Definition upgraded_world : world :=
  {| remote := {| api_version := "6.0.0"; hostgroups := hostgroups example_server;
                  hosts := hosts example_server; graphs := graphs example_server;
                  screens := screens example_server;
                  screenitems := screenitems example_server;
                  next_id := next_id example_server |};
     calls := [] |}.

Definition example_params (name : string) (st : state) (graphs_in_row : Z) : Params.t :=
  {| Params.screen_name := name; Params.host_group := Some ["G1"; "G2"];
     Params.state := st; Params.graph_names := Some ["cpu"; "mem"];
     Params.graph_width := None; Params.graph_height := None;
     Params.graphs_in_row := graphs_in_row; Params.sort := true |}.

(** A spec for the name ExampleScreen1 whose graph names match no graph. *)
Definition disk_params : Params.t :=
  {| Params.screen_name := "ExampleScreen1"; Params.host_group := Some ["G1"; "G2"];
     Params.state := present; Params.graph_names := Some ["disk"];
     Params.graph_width := None; Params.graph_height := None;
     Params.graphs_in_row := 3; Params.sort := true |}.

(** ** Further notions *)

(** A monitored host that belongs to every listed group: each name of the
    list names a group of the server, and the host is in every group of
    that name. *)
Definition in_every_listed_group (r : server) (names : list string) (host_id : ident)
  : Prop :=
  exists h, In h (hosts r) /\ hostid h = host_id /\ monitored h = true
            /\ forall n, In n names ->
                 (exists g, In g (hostgroups r) /\ hostgroup_name g = n)
                 /\ forall g, In g (hostgroups r) -> hostgroup_name g = n ->
                              In (groupid g) (groups h).

(** Calls that leave the server as it is. *)
Definition reads_only (t : list call) : Prop := Forall (fun c => is_write c = false) t.

(** The number of screens a report names. *)
Definition reported (acc : report) : nat :=
  let '(created_screens, changed_screens, deleted_screens) := acc in
  (List.length created_screens + List.length changed_screens
   + List.length deleted_screens)%nat.

(** A cell inside a screen of the given number of columns and rows. *)
Definition in_grid (columns rows : Z) (d : item_data) : Prop :=
  0 <= x d < columns /\ 0 <= y d < rows.

(** A call that creates no item but for the screen [screen_id]. *)
Definition owned_by (screen_id : ident) (c : call) : Prop :=
  match c with
  | ScreenitemCreate d => d_screenid d = screen_id
  | _ => True
  end.

(** Hosts in ascending order of their names. *)
Definition by_name (a b : host) : Prop := String.leb (host_name a) (host_name b) = true.

(** A piece of the module that does not end in [exit_json]. *)
Definition never_exits {A : Type} (m : M A) : Prop :=
  forall w c r w', m w <> (ExitJson c r, w').

(** Two servers with the same groups, hosts and graphs. *)
Definition same_inventory (r r' : server) : Prop :=
  hostgroups r = hostgroups r' /\ hosts r = hosts r' /\ graphs r = graphs r'.

(** A piece of the module whose result depends on the groups, hosts and
    graphs of the server only, and which leaves them as they are. *)
Definition inventory_only {A : Type} (m : M A) : Prop :=
  forall w w',
    same_inventory (remote w) (remote w') ->
    fst (m w) = fst (m w')
    /\ same_inventory (remote (snd (m w))) (remote (snd (m w'))).

(** The server [r'] is [r] with the items [ds] added, in this order. *)
Definition grows_by (ds : list item_data) (r r' : server) : Prop :=
  same_inventory r r'
  /\ screens r' = screens r
  /\ map data (screenitems r') = map data (screenitems r) ++ ds.

(** The resource ids of the items of a screen, in the order of the server. *)
Definition resources_of (r : server) (screen_id : ident) : list ident :=
  map (fun i => resourceid (data i)) (screenitem_get r screen_id).

(** The cell of the screen an item is put in. *)
Definition position (d : item_data) : Z * Z := (x d, y d).

(** A graph of the host [host_id] whose name contains [name], whatever the
    case of the letters. *)
Definition matches (r : server) (name : string) (host_id : ident) (g : ident) : Prop :=
  exists gr, In gr (graphs r) /\ graphid gr = g /\ graph_hostid gr = host_id
             /\ search name (graph_name gr) = true.

(** ** Arithmetic of the layout *)

Lemma ceil_div_pos (a b : Z) : 0 < b -> ceil_div a b = (a - 1) / b + 1.
Proof.
  intros Hb. unfold ceil_div.
  pose proof (Z.div_mod (a - 1) b ltac:(lia)) as Hdm.
  pose proof (Z.mod_pos_bound (a - 1) b Hb) as Hr.
  assert (Hq : (- a) / b = - ((a - 1) / b) - 1).
  { symmetry. apply Z.div_unique with (r := b - 1 - (a - 1) mod b); [lia | nia]. }
  lia.
Qed.

Lemma ceil_div_not_multiple (a b : Z) :
  0 < b -> a mod b <> 0 -> ceil_div a b = a / b + 1.
Proof.
  intros Hb Hm. unfold ceil_div.
  pose proof (Z.div_mod a b ltac:(lia)) as Hdm.
  pose proof (Z.mod_pos_bound a b Hb) as Hr.
  assert (Hq : (- a) / b = - (a / b) - 1).
  { symmetry. apply Z.div_unique with (r := b - a mod b); [lia | nia]. }
  lia.
Qed.

Lemma ceil_div_multiple (a b : Z) :
  0 < b -> a mod b = 0 -> ceil_div a b = a / b.
Proof.
  intros Hb Hm. unfold ceil_div.
  pose proof (Z.div_mod a b ltac:(lia)) as Hdm.
  assert (Hq : (- a) / b = - (a / b)).
  { symmetry. apply Z.div_unique with (r := 0); [lia | nia]. }
  lia.
Qed.

Lemma ceil_div_self (a : Z) : 0 < a -> ceil_div a a = 1.
Proof.
  intros Ha. rewrite ceil_div_pos by lia.
  rewrite Z.div_small by lia. reflexivity.
Qed.

Lemma len_nonneg {A : Type} (l : list A) : 0 <= len l.
Proof. unfold len. lia. Qed.

Lemma len_app {A : Type} (l1 l2 : list A) : len (l1 ++ l2) = len l1 + len l2.
Proof. unfold len. rewrite length_app. lia. Qed.

Lemma len_zero {A : Type} (l : list A) : len l = 0 -> l = [].
Proof. destruct l; [reflexivity | unfold len; simpl; lia]. Qed.

(** ** The layout computed by [get_hsize_vsize] *)

Lemma get_hsize_vsize_single (hosts : list ident) (v g : Z) (w : world) :
  len hosts = 1 -> 1 <= v -> 1 <= g ->
  get_hsize_vsize hosts v g w = (Ret (single_host_layout v g), w).
Proof.
  intros Hlen Hv Hg. unfold get_hsize_vsize, single_host_layout.
  rewrite Hlen. simpl (1 =? 1).  cbv iota.
  assert (Hmin : (if v <=? g then v else g) = Z.min v g).
  { destruct (Z.leb_spec v g); lia. }
  rewrite Hmin. unfold bind, floordiv.
  destruct (Z.eqb_spec (Z.min v g) 0) as [H0 | H0]; [lia |].
  unfold ret. rewrite ceil_div_pos by lia. reflexivity.
Qed.

Lemma get_hsize_vsize_many (hosts : list ident) (v g : Z) (w : world) :
  1 <= g -> g < len hosts ->
  get_hsize_vsize hosts v g w = (Ret (g, (len hosts / g + 1) * v), w).
Proof.
  intros Hg Hlen. unfold get_hsize_vsize.
  destruct (Z.eqb_spec (len hosts) 1) as [H1 | H1]; [lia |].
  destruct (Z.gtb_spec (len hosts) g) as [Hgt | Hgt]; [| lia].
  unfold bind, floordiv.
  destruct (Z.eqb_spec g 0) as [H0 | H0]; [lia |]. reflexivity.
Qed.

Lemma get_hsize_vsize_few (hosts : list ident) (v g : Z) (w : world) :
  len hosts <> 1 -> len hosts <= g ->
  get_hsize_vsize hosts v g w = (Ret (len hosts, v), w).
Proof.
  intros H1 Hle. unfold get_hsize_vsize.
  destruct (Z.eqb_spec (len hosts) 1) as [E | E]; [lia |].
  destruct (Z.gtb_spec (len hosts) g) as [Hgt | Hgt]; [lia | reflexivity].
Qed.

(** With a positive [graphs_in_row] and at least one host, the size is
    computed and both of its dimensions are positive. *)
Lemma get_hsize_vsize_positive (hosts : list ident) (v g : Z) (w : world) :
  hosts <> [] -> 1 <= v -> 1 <= g ->
  exists h' v', get_hsize_vsize hosts v g w = (Ret (h', v'), w) /\ 1 <= h' /\ 1 <= v'.
Proof.
  intros Hne Hv Hg.
  assert (Hpos : 1 <= len hosts).
  { destruct hosts; [congruence | unfold len; simpl; lia]. }
  destruct (Z.eq_dec (len hosts) 1) as [H1 | H1].
  - exists (Z.min v g), (ceil_div v (Z.min v g)).
    rewrite get_hsize_vsize_single by assumption. split; [reflexivity |].
    split; [lia |]. rewrite ceil_div_pos by lia.
    pose proof (Z.div_pos (v - 1) (Z.min v g) ltac:(lia) ltac:(lia)). lia.
  - destruct (Z_lt_le_dec g (len hosts)) as [Hlt | Hle].
    + exists g, ((len hosts / g + 1) * v).
      rewrite get_hsize_vsize_many by assumption. split; [reflexivity |].
      split; [lia |].
      pose proof (Z.div_pos (len hosts) g ltac:(lia) ltac:(lia)). nia.
    + exists (len hosts), v.
      rewrite get_hsize_vsize_few by assumption. auto.
Qed.

(** ** Runs that only read *)

Lemma log_nil (w : world) : log w [] = w.
Proof. destruct w as [r c]. unfold log. simpl. rewrite app_nil_r. reflexivity. Qed.

Lemma log_log (w : world) (l1 l2 : list call) : log (log w l1) l2 = log w (l1 ++ l2).
Proof. unfold log. simpl. rewrite app_assoc. reflexivity. Qed.

Lemma for_fold_nil {A S : Type} (acc : S) (body : S -> A -> M S) :
  for_fold [] acc body = ret acc.
Proof. reflexivity. Qed.

Lemma for_fold_cons {A S : Type} (x : A) (t : list A) (acc : S) (body : S -> A -> M S) :
  for_fold (x :: t) acc body = (acc' <- body acc x ;; for_fold t acc' body).
Proof. reflexivity. Qed.

Lemma bind_run {A B : Type} (m : M A) (k : A -> M B) (w : world) :
  bind m k w = match m w with
               | (Ret a, w') => k a w'
               | (FailJson msg, w') => (FailJson msg, w')
               | (ExitJson c r, w') => (ExitJson c r, w')
               | (Raise e, w') => (Raise e, w')
               end.
Proof. reflexivity. Qed.

Lemma bind_Ret {A B : Type} (m : M A) (k : A -> M B) (w w' : world) (a : A) :
  m w = (Ret a, w') -> bind m k w = k a w'.
Proof. intros H. unfold bind. rewrite H. reflexivity. Qed.

Lemma bind_FailJson {A B : Type} (m : M A) (k : A -> M B) (w w' : world) (msg : message) :
  m w = (FailJson msg, w') -> bind m k w = (FailJson msg, w').
Proof. intros H. unfold bind. rewrite H. reflexivity. Qed.

Lemma bind_ExitJson {A B : Type} (m : M A) (k : A -> M B) (w w' : world)
    (c : bool) (r : option string) :
  m w = (ExitJson c r, w') -> bind m k w = (ExitJson c r, w').
Proof. intros H. unfold bind. rewrite H. reflexivity. Qed.

Lemma bind_Raise {A B : Type} (m : M A) (k : A -> M B) (w w' : world) (e : exn) :
  m w = (Raise e, w') -> bind m k w = (Raise e, w').
Proof. intros H. unfold bind. rewrite H. reflexivity. Qed.

Lemma remote_log (w : world) (l : list call) : remote (log w l) = remote w.
Proof. reflexivity. Qed.

Lemma calls_log (w : world) (l : list call) : calls (log w l) = calls w ++ l.
Proof. reflexivity. Qed.

Lemma zapi_read_run {A : Type} (c : call) (f : server -> A) (w : world) :
  zapi_read c f w = (Ret (f (remote w)), log w [c]).
Proof. reflexivity. Qed.

Lemma map_graphid_guard (l : list graph) :
  (if 0 <? len l then map graphid l else []) = map graphid l.
Proof. destruct l; reflexivity. Qed.

Lemma extend_guard (acc l : list ident) :
  (if 0 <? len l then acc ++ l else acc) = acc ++ l.
Proof. destruct l; [simpl; rewrite app_nil_r |]; reflexivity. Qed.

Lemma get_graphs_loop_run (names : list string) (host_id : ident) :
  forall (acc : list ident) (w : world),
    for_fold names acc (fun graph_ids graph_name =>
      graphs_list <- zapi_read (GraphGet graph_name host_id)
                               (fun r => graph_get r graph_name host_id) ;;
      let graph_id_list :=
        if 0 <? len graphs_list then map graphid graphs_list else [] in
      ret (if 0 <? len graph_id_list then graph_ids ++ graph_id_list else graph_ids)) w
    = (Ret (acc ++ resolved_graphs (remote w) names host_id),
       log w (map (fun n => GraphGet n host_id) names)).
Proof.
  induction names as [| n names IH]; intros acc w.
  - simpl. unfold ret, resolved_graphs. simpl. rewrite app_nil_r, log_nil. reflexivity.
  - rewrite for_fold_cons.
    erewrite bind_Ret by (erewrite bind_Ret by apply zapi_read_run; reflexivity).
    cbv zeta. rewrite map_graphid_guard, extend_guard.
    rewrite IH. simpl remote. rewrite log_log.
    unfold resolved_graphs. simpl. rewrite app_assoc. reflexivity.
Qed.

(** [get_graphs_by_host_id] returns the resolved graphs of the host and asks
    the server once per name. *)
Lemma get_graphs_by_host_id_run (names : list string) (host_id : ident) (w : world) :
  get_graphs_by_host_id (Some names) host_id w
  = (Ret (resolved_graphs (remote w) names host_id),
     log w (map (fun n => GraphGet n host_id) names)).
Proof. unfold get_graphs_by_host_id. rewrite get_graphs_loop_run. reflexivity. Qed.

Lemma max_graphs_ge (r : server) (names : list string) (hosts : list ident) :
  forall v, v <= max_graphs r names hosts v.
Proof.
  induction hosts as [| host t IH]; intros v; simpl; [lia |].
  specialize (IH (Z.max v (len (resolved_graphs r names host)))). lia.
Qed.

Lemma get_graph_ids_loop_run (names : list string) (hosts : list ident) :
  forall (ids : list ident) (v : Z) (w : world),
    1 <= v ->
    for_fold hosts (ids, v) (fun '(graph_id_lists, vsize) host =>
      graph_id_list <- get_graphs_by_host_id (Some names) host ;;
      let size := len graph_id_list in
      if 0 <? size
      then ret (graph_id_lists ++ graph_id_list, if vsize <? size then size else vsize)
      else ret (graph_id_lists, vsize)) w
    = (Ret (ids ++ flat_map (resolved_graphs (remote w) names) hosts,
            max_graphs (remote w) names hosts v),
       log w (graph_calls names hosts)).
Proof.
  induction hosts as [| host t IH]; intros ids v w Hv.
  - simpl. unfold ret. rewrite app_nil_r, log_nil. reflexivity.
  - rewrite for_fold_cons.
    set (l := resolved_graphs (remote w) names host).
    assert (Hstep :
      (if 0 <? len l
       then ret (ids ++ l, if v <? len l then len l else v)
       else ret (ids, v)) (log w (map (fun n => GraphGet n host) names))
      = (Ret (ids ++ l, Z.max v (len l)), log w (map (fun n => GraphGet n host) names))).
    { pose proof (len_nonneg l) as Hl.
      destruct (Z.ltb_spec 0 (len l)) as [Hpos | Hzero]; unfold ret.
      - destruct (Z.ltb_spec v (len l)); do 3 f_equal; lia.
      - assert (l = []) as -> by (apply len_zero; lia).
        rewrite app_nil_r. do 3 f_equal. unfold len. simpl. lia. }
    erewrite bind_Ret
      by (erewrite bind_Ret by apply get_graphs_by_host_id_run; exact Hstep).
    rewrite IH by lia. simpl remote. rewrite log_log.
    unfold graph_calls. simpl. fold l. rewrite app_assoc. reflexivity.
Qed.

Lemma get_graph_ids_run (names : list string) (hosts : list ident) (w : world) :
  get_graph_ids hosts (Some names) w
  = (Ret (flat_map (resolved_graphs (remote w) names) hosts,
          max_graphs (remote w) names hosts 1),
     log w (graph_calls names hosts)).
Proof. unfold get_graph_ids. rewrite get_graph_ids_loop_run by lia. reflexivity. Qed.

(** ** Calls of a run *)

Lemma emits_ret {A : Type} (P : call -> Prop) (a : A) (w : world) : emits P (ret a) w.
Proof. exists []. simpl. rewrite app_nil_r. auto. Qed.

Lemma emits_fail_json {A : Type} (P : call -> Prop) (msg : message) (w : world) :
  emits P (@fail_json A msg) w.
Proof. exists []. simpl. rewrite app_nil_r. auto. Qed.

Lemma emits_exit_json {A : Type} (P : call -> Prop) (c : bool) (r : option string)
    (w : world) :
  emits P (@exit_json A c r) w.
Proof. exists []. simpl. rewrite app_nil_r. auto. Qed.

Lemma emits_raise {A : Type} (P : call -> Prop) (e : exn) (w : world) :
  emits P (@raise A e) w.
Proof. exists []. simpl. rewrite app_nil_r. auto. Qed.

Lemma emits_read {A : Type} (P : call -> Prop) (c : call) (f : server -> A) (w : world) :
  P c -> emits P (zapi_read c f) w.
Proof. intros Hc. exists [c]. simpl. auto. Qed.

Lemma emits_write {A : Type} (P : call -> Prop) (c : call) (f : server -> server * A)
    (w : world) :
  is_write c = true -> P c -> emits P (zapi_write c f) w.
Proof.
  intros Hw Hc. exists [c]. unfold zapi_write. destruct (f (remote w)) as [r a]. simpl.
  repeat split; auto. intros Hall. inversion Hall; subst. congruence.
Qed.

Lemma emits_bind {A B : Type} (P : call -> Prop) (m : M A) (k : A -> M B) (w : world) :
  emits P m w ->
  (forall a w', m w = (Ret a, w') -> emits P (k a) w') ->
  emits P (bind m k) w.
Proof.
  intros (t1 & Hc1 & HP1 & Hr1) Hk. unfold emits.
  destruct (m w) as [[a | msg | c r | e] w'] eqn:Hm; simpl in Hc1, Hr1.
  - destruct (Hk a w' eq_refl) as (t2 & Hc2 & HP2 & Hr2).
    exists (t1 ++ t2). rewrite (bind_Ret _ _ _ _ _ Hm).
    rewrite Hc2, Hc1, app_assoc. split; [reflexivity |].
    split; [apply Forall_app; auto |].
    intros Hall. apply Forall_app in Hall. destruct Hall as [H1 H2].
    rewrite Hr2, Hr1; auto.
  - exists t1. rewrite (bind_FailJson _ _ _ _ _ Hm). auto.
  - exists t1. rewrite (bind_ExitJson _ _ _ _ _ _ Hm). auto.
  - exists t1. rewrite (bind_Raise _ _ _ _ _ Hm). auto.
Qed.

Lemma emits_for_fold {A S : Type} (P : call -> Prop) (body : S -> A -> M S)
    (l : list A) :
  (forall acc x w, emits P (body acc x) w) ->
  forall acc w, emits P (for_fold l acc body) w.
Proof.
  intros Hbody. induction l as [| x t IH]; intros acc w.
  - apply emits_ret.
  - rewrite for_fold_cons. apply emits_bind; [apply Hbody | intros; apply IH].
Qed.

Lemma emits_weaken {A : Type} (P Q : call -> Prop) (m : M A) (w : world) :
  (forall c, P c -> Q c) -> emits P m w -> emits Q m w.
Proof.
  intros HPQ (t & Hc & HP & Hr). exists t. repeat split; auto.
  eapply Forall_impl; eauto.
Qed.

(** Membership survives sorting. *)
Lemma In_insert_by_key {A : Type} (key : A -> string) (x y : A) (l : list A) :
  In y (insert_by_key key x l) <-> y = x \/ In y l.
Proof.
  induction l as [| z t IH]; simpl.
  - intuition.
  - destruct (String.leb (key x) (key z)); simpl; [intuition |].
    rewrite IH. intuition.
Qed.

Lemma In_sorted {A : Type} (key : A -> string) (y : A) (l : list A) :
  In y (sorted key l) <-> In y l.
Proof.
  induction l as [| x t IH]; simpl; [tauto |].
  rewrite In_insert_by_key, IH. intuition.
Qed.

Lemma mem_In (x : string) (l : list string) : mem x l = true <-> In x l.
Proof.
  unfold mem. rewrite existsb_exists. split.
  - intros (y & Hy & Heq). apply String.eqb_eq in Heq. subst. assumption.
  - intros H. exists x. split; [assumption | apply String.eqb_refl].
Qed.

Lemma in_all_groups_spec (group_ids : list ident) (h : host) :
  in_all_groups group_ids h = true <-> forall g, In g group_ids -> In g (groups h).
Proof.
  unfold in_all_groups. rewrite forallb_forall.
  split; intros H g Hg; [apply mem_In | apply mem_In]; auto.
Qed.

(** ** Hosts of all the groups *)

Lemma host_get_spec (r : server) (group_ids : list ident) (h : host) :
  In h (host_get r group_ids) <->
  In h (hosts r) /\ monitored h = true /\ exists g, In g group_ids /\ In g (groups h).
Proof.
  unfold host_get. rewrite filter_In, andb_true_iff, existsb_exists.
  split.
  - intros (Hin & Hmon & g & Hg & Hmem). apply mem_In in Hmem. eauto 6.
  - intros (Hin & Hmon & g & Hg & Hmem). apply mem_In in Hmem. eauto 6.
Qed.

Lemma filtered_hosts_spec (r : server) (group_ids : list ident) (sort : bool) (id : ident) :
  group_ids <> [] ->
  In id (map hostid
           (filter (in_all_groups group_ids)
                   (if sort then sorted host_name (host_get r group_ids)
                    else host_get r group_ids)))
  <-> belongs_to_all r group_ids id.
Proof.
  intros Hne. rewrite in_map_iff. unfold belongs_to_all. split.
  - intros (h & Hid & Hin). apply filter_In in Hin. destruct Hin as [Hin Hall].
    assert (Hget : In h (host_get r group_ids)).
    { destruct sort; [apply In_sorted in Hin |]; assumption. }
    apply host_get_spec in Hget. destruct Hget as (Hh & Hmon & _).
    exists h. repeat split; auto. apply in_all_groups_spec. assumption.
  - intros (h & Hh & Hid & Hmon & Hall). exists h. split; [assumption |].
    apply filter_In. split; [| apply in_all_groups_spec; assumption].
    assert (Hget : In h (host_get r group_ids)).
    { apply host_get_spec. repeat split; auto.
      destruct group_ids as [| g t]; [congruence |].
      exists g. split; [left; reflexivity | apply Hall; left; reflexivity]. }
    destruct sort; [apply In_sorted |]; assumption.
Qed.

Lemma hostgroup_get_nil (r : server) : hostgroup_get r [] = [].
Proof.
  unfold hostgroup_get. induction (hostgroups r) as [| g t IH]; simpl; auto.
Qed.

Lemma get_host_group_ids_run (names : list string) (w : world) :
  map groupid (hostgroup_get (remote w) names) <> [] ->
  get_host_group_ids (Some names) w
  = (Ret (map groupid (hostgroup_get (remote w) names)), log w [HostgroupGet names]).
Proof.
  intros Hne.
  assert (Hnames : names <> []).
  { intros ->. apply Hne. rewrite hostgroup_get_nil. reflexivity. }
  unfold get_host_group_ids. destruct names as [| n names]; [congruence |].
  rewrite bind_run, zapi_read_run.
  destruct (hostgroup_get (remote w) (n :: names)); [simpl in Hne; congruence |].
  reflexivity.
Qed.

Lemma get_host_ids_by_group_ids_run (group_ids : list ident) (sort : bool) (w : world) :
  get_host_ids_by_group_ids group_ids sort w
  = match host_get (remote w) group_ids with
    | [] => (FailJson (MsgList "No hosts in the all group(s) with ids " group_ids),
             log w [HostGet group_ids])
    | _ :: _ =>
        (Ret (map hostid
                (filter (in_all_groups group_ids)
                        (if sort then sorted host_name (host_get (remote w) group_ids)
                         else host_get (remote w) group_ids))),
         log w [HostGet group_ids])
    end.
Proof.
  unfold get_host_ids_by_group_ids. rewrite bind_run, zapi_read_run.
  destruct (host_get (remote w) group_ids); reflexivity.
Qed.

(** What [resolve_hosts] does once the names resolve to a group at least. *)
Lemma resolve_hosts_run (names : list string) (sort : bool) (w : world) :
  let group_ids := map groupid (hostgroup_get (remote w) names) in
  let host_list := host_get (remote w) group_ids in
  let host_ids :=
    map hostid (filter (in_all_groups group_ids)
                       (if sort then sorted host_name host_list else host_list)) in
  let w' := log w [HostgroupGet names; HostGet group_ids] in
  group_ids <> [] ->
  resolve_hosts (Some names) sort w
  = match host_list, host_ids with
    | [], _ => (FailJson (MsgList "No hosts in the all group(s) with ids " group_ids), w')
    | _ :: _, [] =>
        (FailJson (MsgList "No hosts found belongin to all given groups: " names), w')
    | _ :: _, _ :: _ => (Ret host_ids, w')
    end.
Proof.
  intros group_ids host_list host_ids w' Hne. subst host_list host_ids w'.
  unfold resolve_hosts.
  rewrite bind_run, get_host_group_ids_run by exact Hne. fold group_ids.
  rewrite bind_run, get_host_ids_by_group_ids_run. rewrite log_log, remote_log.
  simpl app.
  destruct (host_get (remote w) group_ids) as [| h0 hl]; [reflexivity |].
  destruct (map hostid
              (filter (in_all_groups group_ids)
                      (if sort then sorted host_name (h0 :: hl) else h0 :: hl)));
    reflexivity.
Qed.

(** The hosts that [resolve_hosts] hands on are exactly the monitored hosts
    that belong to every group the listed names resolve to: either the run
    goes on with that set, which is not empty, or no host belongs to all
    these groups and the run fails fatally. *)
Lemma resolve_hosts_of_resolved_groups (names : list string) (sort : bool) (w : world) :
  map groupid (hostgroup_get (remote w) names) <> [] ->
  (exists hosts,
      fst (resolve_hosts (Some names) sort w) = Ret hosts
      /\ hosts <> []
      /\ forall id, In id hosts
                    <-> belongs_to_all (remote w)
                          (map groupid (hostgroup_get (remote w) names)) id)
  \/ (exists msg,
         fst (resolve_hosts (Some names) sort w) = FailJson msg
         /\ forall id, ~ belongs_to_all (remote w)
                          (map groupid (hostgroup_get (remote w) names)) id).
Proof.
  intros Hne.
  pose proof (resolve_hosts_run names sort w Hne) as Hrun. cbv zeta in Hrun.
  pose proof (fun id => filtered_hosts_spec (remote w) _ sort id Hne) as Hspec.
  set (group_ids := map groupid (hostgroup_get (remote w) names)) in *.
  destruct (host_get (remote w) group_ids) as [| h0 hl] eqn:Hhl.
  - right. eexists. rewrite Hrun. split; [reflexivity |].
    intros id Hid. apply Hspec in Hid. destruct sort; exact Hid.
  - destruct (map hostid
                (filter (in_all_groups group_ids)
                        (if sort then sorted host_name (h0 :: hl) else h0 :: hl)))
      as [| i0 il] eqn:Hids.
    + right. eexists. rewrite Hrun. split; [reflexivity |].
      intros id Hid. apply Hspec in Hid. exact Hid.
    + left. eexists. rewrite Hrun. split; [reflexivity |].
      split; [discriminate | exact Hspec].
Qed.

Lemma hostgroup_get_spec (r : server) (names : list string) (g : hostgroup) :
  In g (hostgroup_get r names) <-> In g (hostgroups r) /\ In (hostgroup_name g) names.
Proof.
  unfold hostgroup_get. rewrite filter_In. split.
  - intros (Hin & Hmem). apply mem_In in Hmem. auto.
  - intros (Hin & Hmem). apply mem_In in Hmem. auto.
Qed.

(** When every listed name names a group, the groups the names resolve to
    are the listed groups. *)
Lemma listed_groups_resolved (r : server) (names : list string) (id : ident) :
  (forall n, In n names -> exists g, In g (hostgroups r) /\ hostgroup_name g = n) ->
  belongs_to_all r (map groupid (hostgroup_get r names)) id
  <-> in_every_listed_group r names id.
Proof.
  intros Hall. unfold belongs_to_all, in_every_listed_group. split.
  - intros (h & Hh & Hid & Hmon & Hin). exists h. repeat split; auto.
    intros g Hg Hn. apply Hin. apply in_map. apply hostgroup_get_spec.
    split; [assumption | rewrite Hn; assumption].
  - intros (h & Hh & Hid & Hmon & Hin). exists h. repeat split; auto.
    intros gid Hgid. apply in_map_iff in Hgid. destruct Hgid as (g & <- & Hg).
    apply hostgroup_get_spec in Hg. destruct Hg as (Hg & Hn).
    destruct (Hin _ Hn) as (_ & Hgroups). apply Hgroups; [assumption | reflexivity].
Qed.

(** C3. On the present path, when every listed name names a host group of
    the server, the hosts that [resolve_hosts] (lines 424-427 of [main],
    through [get_host_group_ids] and [get_host_ids_by_group_ids]) hands on
    are exactly the monitored hosts that belong to every listed group:
    either the run goes on with that set, which is not empty, or no host
    belongs to all the listed groups and the run fails fatally. *)
Theorem resolve_hosts_intersection (names : list string) (sort : bool) (w : world) :
  names <> [] ->
  (forall n, In n names ->
             exists g, In g (hostgroups (remote w)) /\ hostgroup_name g = n) ->
  (exists hosts,
      fst (resolve_hosts (Some names) sort w) = Ret hosts
      /\ hosts <> []
      /\ forall id, In id hosts <-> in_every_listed_group (remote w) names id)
  \/ (exists msg,
         fst (resolve_hosts (Some names) sort w) = FailJson msg
         /\ forall id, ~ in_every_listed_group (remote w) names id).
Proof.
  intros Hne Hall.
  assert (Hids : map groupid (hostgroup_get (remote w) names) <> []).
  { destruct names as [| n t]; [congruence |].
    destruct (Hall n (or_introl eq_refl)) as (g & Hg & Hn).
    assert (Hin : In g (hostgroup_get (remote w) (n :: t))).
    { apply hostgroup_get_spec. split; [assumption | left; auto]. }
    destruct (hostgroup_get (remote w) (n :: t)); [contradiction | discriminate]. }
  destruct (resolve_hosts_of_resolved_groups names sort w Hids)
    as [(hs & Hrun & Hsome & Hiff) | (msg & Hrun & Hnone)].
  - left. exists hs. split; [assumption |]. split; [assumption |].
    intros id. rewrite Hiff. apply listed_groups_resolved. assumption.
  - right. exists msg. split; [assumption |].
    intros id Hid. apply (Hnone id). apply listed_groups_resolved; assumption.
Qed.

Lemma resolve_hosts_intersection_witness :
  (exists hosts,
      fst (resolve_hosts (Some ["G1"; "G2"]) true example_world) = Ret hosts
      /\ hosts <> []
      /\ forall id, In id hosts <-> in_every_listed_group example_server ["G1"; "G2"] id)
  \/ (exists msg,
         fst (resolve_hosts (Some ["G1"; "G2"]) true example_world) = FailJson msg
         /\ forall id, ~ in_every_listed_group example_server ["G1"; "G2"] id).
Proof.
  apply (resolve_hosts_intersection ["G1"; "G2"] true example_world).
  - discriminate.
  - intros n [<- | [<- | []]].
    + exists {| groupid := "2"; hostgroup_name := "G1" |}. simpl. auto.
    + exists {| groupid := "4"; hostgroup_name := "G2" |}. simpl. auto.
Defined.

(** A listed name that names no group is dropped: with G1 and a G9 that
    does not exist, the run goes on with the three monitored hosts of G1,
    although no host belongs to every listed group. *)
Lemma resolve_hosts_ignores_unknown_group :
  fst (resolve_hosts (Some ["G1"; "G9"]) true example_world) = Ret ["13"; "11"; "10"]
  /\ ~ (exists id, in_every_listed_group example_server ["G1"; "G9"] id).
Proof.
  split; [reflexivity |].
  intros (id & h & _ & _ & _ & Hall).
  destruct (Hall "G9") as ((g & Hg & Hn) & _); [right; left; reflexivity |].
  simpl in Hg. destruct Hg as [<- | [<- | []]]; discriminate.
Qed.

(** On the example server the hosts of both groups are app1 and web2, in
    the order of their names; web1 is in one group only and db1 is not
    monitored. *)
Example resolve_hosts_example :
  fst (resolve_hosts (Some ["G1"; "G2"]) true example_world) = Ret ["13"; "10"].
Proof. reflexivity. Qed.

(** ** The lookup of the screen *)

Lemma get_screen_id_run (name : string) (w : world) :
  name <> "" ->
  get_screen_id name w
  = (Ret (option_map screenid (hd_error (screen_get (remote w) name))),
     log w [ScreenGet name]).
Proof.
  intros Hname. unfold get_screen_id.
  destruct (String.eqb_spec name "") as [E | _]; [congruence |].
  rewrite bind_run, zapi_read_run.
  destruct (screen_get (remote w) name); reflexivity.
Qed.

Lemma get_screen_id_inv (name : string) (w w' : world) (o : option ident) :
  get_screen_id name w = (Ret o, w') ->
  name <> "" /\ w' = log w [ScreenGet name]
  /\ o = option_map screenid (hd_error (screen_get (remote w) name)).
Proof.
  intros Hrun.
  destruct (String.eqb_spec name "") as [E | Hname].
  - unfold get_screen_id in Hrun. subst name. simpl in Hrun. discriminate.
  - rewrite get_screen_id_run in Hrun by assumption.
    inversion Hrun; subst. auto.
Qed.

(** C4. The lookup is the API's [search], a case-insensitive substring
    search, and takes the first hit: asked for "ExampleScreen1" on the
    example server, [get_screen_id] returns the id of "ExampleScreen10",
    although a screen named "ExampleScreen1" exists. *)
Theorem get_screen_id_first_substring_hit :
  fst (get_screen_id "ExampleScreen1" example_world) = Ret (Some "7")
  /\ map screen_name (filter (fun s => String.eqb (screenid s) "7")
                             (screens example_server)) = ["ExampleScreen10"]
  /\ map screenid (filter (fun s => String.eqb (screen_name s) "ExampleScreen1")
                          (screens example_server)) = ["8"].
Proof. repeat split. Qed.

(** ** The size of the screen *)

Lemma get_hsize_vsize_off_multiple (hosts : list ident) (v g : Z) (w : world) :
  1 <= g -> g < len hosts -> len hosts mod g <> 0 ->
  get_hsize_vsize hosts v g w = (Ret (many_hosts_layout (len hosts) v g), w).
Proof.
  intros Hg Hlen Hmod. rewrite get_hsize_vsize_many by assumption.
  unfold many_hosts_layout. rewrite ceil_div_not_multiple by lia. reflexivity.
Qed.

Lemma get_hsize_vsize_on_multiple (hosts : list ident) (v g : Z) (w : world) :
  1 <= g -> g < len hosts -> len hosts mod g = 0 ->
  get_hsize_vsize hosts v g w = (Ret (g, (ceil_div (len hosts) g + 1) * v), w).
Proof.
  intros Hg Hlen Hmod. rewrite get_hsize_vsize_many by assumption.
  rewrite ceil_div_multiple by lia. reflexivity.
Qed.

(** C1. Six hosts with two graphs each, three graphs in a row:
    [get_hsize_vsize] answers three columns and (6 // 3 + 1) * 2 = 6 rows,
    where [ceil(6 / 3) * 2] is 4. *)
Theorem get_hsize_vsize_six_hosts (w : world) :
  get_hsize_vsize ["1"; "2"; "3"; "4"; "5"; "6"] 2 3 w = (Ret (3, 6), w)
  /\ many_hosts_layout 6 2 3 = (3, 4).
Proof. split; reflexivity. Qed.

(** C5. One host and [graphs_in_row >= 1]: with [v] the [vsize] that
    [get_graph_ids] returns (the number of graphs of the host, and 1 at
    least), the screen gets [min(v, graphs_in_row)] columns and
    [ceil(v / columns)] rows; when [v <= graphs_in_row] that is [v] columns
    and one row. *)
Theorem get_hsize_vsize_one_host (host : ident) (names : list string) (g : Z)
    (w : world) :
  1 <= g ->
  exists graph_ids v w',
    get_graph_ids [host] (Some names) w = (Ret (graph_ids, v), w')
    /\ v = Z.max 1 (len graph_ids)
    /\ get_hsize_vsize [host] v g w' = (Ret (single_host_layout v g), w')
    /\ (v <= g -> single_host_layout v g = (v, 1)).
Proof.
  intros Hg. rewrite get_graph_ids_run. do 3 eexists. split; [reflexivity |].
  simpl flat_map. rewrite app_nil_r. simpl max_graphs.
  set (v := Z.max 1 (len (resolved_graphs (remote w) names host))).
  split; [reflexivity |]. split.
  - apply get_hsize_vsize_single; [reflexivity | lia | lia].
  - intros Hle. unfold single_host_layout. rewrite Z.min_l by lia.
    rewrite ceil_div_self by lia. reflexivity.
Qed.

Lemma get_hsize_vsize_one_host_witness :
  exists graph_ids v w',
    get_graph_ids ["10"] (Some ["cpu"; "mem"]) example_world = (Ret (graph_ids, v), w')
    /\ v = Z.max 1 (len graph_ids)
    /\ get_hsize_vsize ["10"] v 3 w' = (Ret (single_host_layout v 3), w')
    /\ (v <= 3 -> single_host_layout v 3 = (v, 1)).
Proof.
  apply (get_hsize_vsize_one_host "10" ["cpu"; "mem"] 3 example_world). lia.
Defined.

(** With [graphs_in_row = -1] and a host without graphs the rows are not
    [ceil(1 / -1)]. *)
Lemma get_hsize_vsize_one_host_negative_row :
  fst (get_hsize_vsize ["11"] 1 (-1) example_world) <> Ret (single_host_layout 1 (-1)).
Proof. vm_compute. discriminate. Qed.

(** With [graphs_in_row = 0] no size is computed at all. *)
Lemma get_hsize_vsize_zero_row (hosts : list ident) (v : Z) (w : world) :
  hosts <> [] -> 1 <= v -> get_hsize_vsize hosts v 0 w = (Raise ZeroDivisionError, w).
Proof.
  intros Hne Hv. unfold get_hsize_vsize.
  assert (Hpos : 1 <= len hosts).
  { destruct hosts; [congruence | unfold len; simpl; lia]. }
  destruct (Z.eqb_spec (len hosts) 1) as [H1 | H1].
  - destruct (Z.leb_spec v 0); [lia | reflexivity].
  - destruct (Z.gtb_spec (len hosts) 0); [reflexivity | lia].
Qed.

(** ** The calls of each method *)

Create HintDb emits discriminated.

#[local] Hint Resolve emits_ret emits_fail_json emits_exit_json emits_raise : emits.

Ltac emits_read_step :=
  apply emits_read; match goal with H : admits_reads _ |- _ => apply H; reflexivity end.

Lemma emits_get_host_group_ids (P : call -> Prop) (group_names : option (list string))
    (w : world) :
  admits_reads P -> emits P (get_host_group_ids group_names) w.
Proof.
  intros HP. unfold get_host_group_ids.
  destruct group_names as [[| n names] |]; auto with emits.
  apply emits_bind; [emits_read_step |].
  intros [| g l] w' _; auto with emits.
Qed.

Lemma emits_get_host_ids_by_group_ids (P : call -> Prop) (group_ids : list ident)
    (sort : bool) (w : world) :
  admits_reads P -> emits P (get_host_ids_by_group_ids group_ids sort) w.
Proof.
  intros HP. unfold get_host_ids_by_group_ids.
  apply emits_bind; [emits_read_step |].
  intros [| h l] w' _; auto with emits.
Qed.

Lemma emits_resolve_hosts (P : call -> Prop) (host_group : option (list string))
    (sort : bool) (w : world) :
  admits_reads P -> emits P (resolve_hosts host_group sort) w.
Proof.
  intros HP. unfold resolve_hosts.
  apply emits_bind; [apply emits_get_host_group_ids; assumption |].
  intros group_ids w1 _.
  apply emits_bind; [apply emits_get_host_ids_by_group_ids; assumption |].
  intros [| h l] w2 _; auto with emits.
Qed.

Lemma emits_get_screen_id (P : call -> Prop) (name : string) (w : world) :
  admits_reads P -> emits P (get_screen_id name) w.
Proof.
  intros HP. unfold get_screen_id.
  destruct (String.eqb name ""); auto with emits.
  apply emits_bind; [emits_read_step |].
  intros [| s l] w' _; auto with emits.
Qed.

Lemma emits_get_screen_items (P : call -> Prop) (screen_id : ident) (w : world) :
  admits_reads P -> emits P (get_screen_items screen_id) w.
Proof. intros HP. unfold get_screen_items. emits_read_step. Qed.

Lemma emits_get_graphs_by_host_id (P : call -> Prop)
    (graph_name_list : option (list string)) (host_id : ident) (w : world) :
  admits_reads P -> emits P (get_graphs_by_host_id graph_name_list host_id) w.
Proof.
  intros HP. unfold get_graphs_by_host_id.
  destruct graph_name_list as [names |]; auto with emits.
  apply emits_for_fold. intros acc n w0.
  apply emits_bind; [emits_read_step |]. intros; auto with emits.
Qed.

Lemma emits_get_graph_ids (P : call -> Prop) (hosts : list ident)
    (graph_name_list : option (list string)) (w : world) :
  admits_reads P -> emits P (get_graph_ids hosts graph_name_list) w.
Proof.
  intros HP. unfold get_graph_ids.
  apply emits_for_fold. intros [ids v] host w0.
  apply emits_bind; [apply emits_get_graphs_by_host_id; assumption |].
  intros l w1 _. cbv zeta. destruct (0 <? len l); auto with emits.
Qed.

Lemma emits_floordiv (P : call -> Prop) (a b : Z) (w : world) : emits P (floordiv a b) w.
Proof. unfold floordiv. destruct (b =? 0); auto with emits. Qed.

Lemma emits_modulo (P : call -> Prop) (a b : Z) (w : world) : emits P (modulo a b) w.
Proof. unfold modulo. destruct (b =? 0); auto with emits. Qed.

Lemma emits_get_hsize_vsize (P : call -> Prop) (hosts : list ident) (v g : Z) (w : world) :
  emits P (get_hsize_vsize hosts v g) w.
Proof.
  unfold get_hsize_vsize.
  destruct (len hosts =? 1).
  - apply emits_bind; [apply emits_floordiv | intros; auto with emits].
  - destruct (len hosts >? g); auto with emits.
    apply emits_bind; [apply emits_floordiv | intros; auto with emits].
Qed.

Lemma emits_delete_screen_items (P : call -> Prop) (check_mode : bool)
    (screen_id : ident) (ids : list ident) (w : world) :
  admits_reads P -> P (ScreenitemDelete ids) ->
  emits P (delete_screen_items check_mode screen_id ids) w.
Proof.
  intros HP Hdel. unfold delete_screen_items.
  destruct (len ids =? 0); auto with emits.
  apply emits_bind; [apply emits_get_screen_items; assumption |].
  intros l w1 _. destruct (0 <? len l); auto with emits.
  apply emits_bind; [destruct check_mode; auto with emits |].
  intros _ w2 _. apply emits_bind; [| intros; auto with emits].
  unfold ScreenItem_delete. apply emits_write; [reflexivity | assumption].
Qed.

Lemma emits_create_screen (P : call -> Prop) (check_mode : bool) (name : string)
    (h v : Z) (w : world) :
  P (ScreenCreate name h v) -> emits P (create_screen check_mode name h v) w.
Proof.
  intros Hc. unfold create_screen. destruct check_mode; auto with emits.
  apply emits_write; [reflexivity | assumption].
Qed.

Lemma emits_update_screen (P : call -> Prop) (check_mode : bool) (screen_id : ident)
    (name : string) (h v : Z) (w : world) :
  P (ScreenUpdate screen_id h v) ->
  emits P (update_screen check_mode screen_id name h v) w.
Proof.
  intros Hc. unfold update_screen. destruct check_mode; auto with emits.
  apply emits_write; [reflexivity | assumption].
Qed.

Lemma emits_delete_screen (P : call -> Prop) (check_mode : bool) (screen_id : ident)
    (name : string) (w : world) :
  P (ScreenDelete [screen_id]) -> emits P (delete_screen check_mode screen_id name) w.
Proof.
  intros Hc. unfold delete_screen. destruct check_mode; auto with emits.
  apply emits_write; [reflexivity | assumption].
Qed.

Lemma emits_for_each {A : Type} (P : call -> Prop) (body : A -> M unit) (l : list A) :
  (forall x w, emits P (body x) w) -> forall w, emits P (for_each l body) w.
Proof.
  intros Hbody w. unfold for_each. apply emits_for_fold. intros; apply Hbody.
Qed.

(** Every item [create_screen_items] creates is an [item] of the screen with
    the width and the height the method settles first. *)
Lemma emits_create_screen_items (P : call -> Prop) (screen_id : ident)
    (hosts : list ident) (graph_name_list : option (list string))
    (width height : option Z) (h_size graphs_in_row : Z) (w : world) :
  admits_reads P ->
  (forall g x y,
      P (ScreenitemCreate
           (item screen_id g
                 (if len hosts <? 4 then or_default width 500 else or_default width 200)
                 (or_default height 100) x y))) ->
  emits P (create_screen_items screen_id hosts graph_name_list width height h_size
                               graphs_in_row) w.
Proof.
  intros HP Hitem. unfold create_screen_items. cbv zeta.
  destruct (len hosts =? 1).
  - destruct hosts as [| host0 t]; auto with emits.
    apply emits_bind; [apply emits_get_graphs_by_host_id; assumption |].
    intros l w1 _. apply emits_for_each. intros [i g] w2.
    apply emits_bind; [apply emits_modulo |]. intros x w3 _.
    apply emits_bind; [apply emits_floordiv |]. intros y w4 _.
    unfold ScreenItem_create. apply emits_write; [reflexivity | apply Hitem].
  - apply emits_for_each. intros [i host] w1.
    apply emits_bind; [apply emits_get_graphs_by_host_id; assumption |].
    intros l w2 _. apply emits_for_each. intros [j g] w3.
    apply emits_bind; [apply emits_modulo |]. intros x w4 _.
    apply emits_bind; [apply emits_floordiv |]. intros q w5 _.
    unfold ScreenItem_create. apply emits_write; [reflexivity | apply Hitem].
Qed.

(** ** The compatibility gate *)

(** C8. [main] asks the server for its API version first; when the version
    is 5.4 or above, the run fails at once with the message that Zabbix 5.4
    removed the screens, and no other call is issued: no screen is read or
    written. *)
Theorem main_fails_from_5_4 (check_mode : bool) (screens : list Params.t) (w : world) :
  version_ge (LooseVersion (api_version (remote w))) (LooseVersion "5.4") = true ->
  main check_mode screens w = (FailJson removed_message, log w [ApiinfoVersion])
  /\ Forall (fun c => is_screen_call c = false) [ApiinfoVersion].
Proof.
  intros Hge. split; [| repeat constructor].
  unfold main, zbx_api_version. rewrite bind_run, zapi_read_run, Hge. reflexivity.
Qed.

Lemma main_fails_from_5_4_witness :
  main false [example_params "Dash" present 3] upgraded_world
  = (FailJson removed_message, log upgraded_world [ApiinfoVersion])
  /\ Forall (fun c => is_screen_call c = false) [ApiinfoVersion].
Proof.
  apply (main_fails_from_5_4 false [example_params "Dash" present 3] upgraded_world).
  reflexivity.
Defined.

(** Below the threshold the gate lets the run through. *)
Lemma main_below_5_4 (check_mode : bool) (w : world) :
  version_ge (LooseVersion (api_version (remote w))) (LooseVersion "5.4") = false ->
  main check_mode [] w = (ExitJson false None, log w [ApiinfoVersion]).
Proof.
  intros Hlt. unfold main, zbx_api_version. rewrite bind_run, zapi_read_run, Hlt.
  reflexivity.
Qed.

(** ** The cell size *)

Lemma or_default_width (host_count : Z) (graph_width : option Z) :
  (if host_count <? 4 then or_default graph_width 500 else or_default graph_width 200)
  = cell_width host_count graph_width.
Proof.
  unfold or_default, cell_width. destruct graph_width as [n |]; [| reflexivity].
  destruct (Z.ltb_spec n 0), (Z.leb_spec 0 n); try lia; destruct (host_count <? 4);
    reflexivity.
Qed.

Lemma or_default_height (graph_height : option Z) :
  or_default graph_height 100 = cell_height graph_height.
Proof.
  unfold or_default, cell_height. destruct graph_height as [n |]; [| reflexivity].
  destruct (Z.ltb_spec n 0), (Z.leb_spec 0 n); try lia; reflexivity.
Qed.

Lemma cell_size_created (wd ht : Z) (t : list call) :
  Forall (cell_size wd ht) t ->
  Forall (fun d => width d = wd /\ height d = ht) (created_items t).
Proof.
  induction 1 as [| c t Hc _ IH]; simpl; [constructor |].
  destruct c; simpl; auto.
Qed.

(** C9. Every screen item that [create_screen_items] creates has the cell
    width [cell_width] (the given width when it is not negative, otherwise 500
    for fewer than four hosts and 200 for more) and the cell height
    [cell_height] (the given height when it is not negative, otherwise 100). *)
Theorem created_items_cell_size (screen_id : ident) (hosts : list ident)
    (graph_name_list : option (list string)) (graph_width graph_height : option Z)
    (h_size graphs_in_row : Z) (w : world) :
  exists t,
    calls (snd (create_screen_items screen_id hosts graph_name_list graph_width
                                    graph_height h_size graphs_in_row w))
    = calls w ++ t
    /\ Forall (fun d => width d = cell_width (len hosts) graph_width
                        /\ height d = cell_height graph_height)
              (created_items t).
Proof.
  destruct (emits_create_screen_items
              (cell_size (cell_width (len hosts) graph_width) (cell_height graph_height))
              screen_id hosts graph_name_list graph_width graph_height h_size
              graphs_in_row w) as (t & Hcalls & Hall & _).
  - intros c Hread. destruct c; simpl in *; auto; discriminate.
  - intros g x y. simpl. rewrite or_default_width, or_default_height. auto.
  - exists t. split; [assumption | apply cell_size_created; assumption].
Qed.

(** The defaults, case by case. *)
Lemma cell_size_cases (host_count n : Z) :
  cell_width host_count None = (if host_count <? 4 then 500 else 200)
  /\ (n < 0 -> cell_width host_count (Some n) = if host_count <? 4 then 500 else 200)
  /\ (0 <= n -> cell_width host_count (Some n) = n)
  /\ cell_height None = 100
  /\ (n < 0 -> cell_height (Some n) = 100)
  /\ (0 <= n -> cell_height (Some n) = n).
Proof.
  unfold cell_width, cell_height.
  repeat split; intros; destruct (Z.leb_spec 0 n); try lia; reflexivity.
Qed.

(** ** The absent path *)

Lemma truthy_Some (o : option ident) (sid : ident) :
  truthy o = Some sid -> o = Some sid /\ sid <> "".
Proof.
  unfold truthy. destruct o as [s |]; [| discriminate].
  destruct (String.eqb_spec s ""); [discriminate |].
  intros H. inversion H. subst. auto.
Qed.

Lemma screenitem_get_after_delete (r : server) (screen_id : ident) :
  screenitem_get (screen_delete r [screen_id]) screen_id = [].
Proof.
  unfold screenitem_get, screen_delete. simpl.
  induction (screenitems r) as [| i t IH]; simpl; [reflexivity |].
  destruct (String.eqb_spec (d_screenid (data i)) screen_id) as [E | E]; simpl.
  - exact IH.
  - destruct (String.eqb_spec (d_screenid (data i)) screen_id); [congruence | exact IH].
Qed.

Lemma screen_gone_after_delete (r : server) (screen_id : ident) :
  ~ In screen_id (map screenid (screens (screen_delete r [screen_id]))).
Proof.
  unfold screen_delete. simpl. rewrite in_map_iff.
  intros (s & Hid & Hin). apply filter_In in Hin. destruct Hin as [_ Hkeep].
  subst. simpl in Hkeep. rewrite String.eqb_refl in Hkeep. discriminate.
Qed.

Lemma delete_screen_items_nil (check_mode : bool) (screen_id : ident) (w : world) :
  delete_screen_items check_mode screen_id [] w = (Ret true, w).
Proof. reflexivity. Qed.

Lemma delete_screen_items_run (screen_id : ident) (w : world) :
  let items := screenitem_get (remote w) screen_id in
  let ids := map screenitemid items in
  delete_screen_items false screen_id ids w
  = match items with
    | [] => (Ret true, w)
    | _ :: _ =>
        (Ret true,
         {| remote := screenitem_delete (remote w) ids;
            calls := calls w ++ [ScreenitemGet screen_id; ScreenitemDelete ids] |})
    end.
Proof.
  cbv zeta. destruct (screenitem_get (remote w) screen_id) as [| i t] eqn:Hitems.
  - reflexivity.
  - unfold delete_screen_items.
    assert (Hlen : (len (map screenitemid (i :: t)) =? 0) = false).
    { apply Z.eqb_neq. unfold len. simpl. lia. }
    rewrite Hlen. unfold get_screen_items. rewrite bind_run, zapi_read_run, Hitems.
    assert (Hpos : (0 <? len (i :: t)) = true).
    { apply Z.ltb_lt. unfold len. simpl. lia. }
    rewrite Hpos. unfold ScreenItem_delete, zapi_write, bind, ret. simpl.
    rewrite <- app_assoc. reflexivity.
Qed.

(** The absent path of [main], after the lookup.  Deleting an empty list of
    items returns success and asks nothing of the server.  When the lookup
    finds no screen, the screen is left out of the report and nothing but
    the lookup was asked.  When it finds one (and the run is not a dry run),
    the items of the screen are read and deleted, then the screen is
    deleted: in the end the server holds neither the screen nor any item of
    it, and the name is reported as deleted. *)
Lemma absent_path_after_lookup (check_mode : bool) (p : Params.t)
    (created changed deleted : list string) (w w1 : world) (o : option ident) :
  Params.state p = absent ->
  get_screen_id (Params.screen_name p) w = (Ret o, w1) ->
  (forall screen_id, delete_screen_items check_mode screen_id [] w = (Ret true, w))
  /\ match truthy o with
     | None =>
         process_screen check_mode (created, changed, deleted) p w
         = (Ret (created, changed, deleted), log w [ScreenGet (Params.screen_name p)])
     | Some screen_id =>
         let ids := map screenitemid (screenitem_get (remote w) screen_id) in
         exists w2,
           process_screen false (created, changed, deleted) p w
           = (Ret (created, changed, deleted ++ [Params.screen_name p]), w2)
           /\ calls w2
              = calls w
                ++ [ScreenGet (Params.screen_name p); ScreenitemGet screen_id]
                ++ match ids with
                   | [] => []
                   | _ :: _ => [ScreenitemGet screen_id; ScreenitemDelete ids]
                   end
                ++ [ScreenDelete [screen_id]]
           /\ screenitem_get (remote w2) screen_id = []
           /\ ~ In screen_id (map screenid (screens (remote w2)))
     end.
Proof.
  intros Habs Hlookup. split; [intros; reflexivity |].
  pose proof (get_screen_id_inv _ _ _ _ Hlookup) as (Hname & Hw1 & Ho).
  destruct (truthy o) as [screen_id |] eqn:Htruthy.
  - cbv zeta. unfold process_screen.
    rewrite bind_run, Hlookup, Habs, Htruthy.
    unfold get_screen_items at 1. rewrite bind_run, zapi_read_run.
    subst w1. rewrite !log_log, !remote_log. simpl app.
    rewrite bind_run.
    pose proof (delete_screen_items_run screen_id
                  (log w [ScreenGet (Params.screen_name p); ScreenitemGet screen_id]))
      as Hdel.
    cbv zeta in Hdel. rewrite remote_log in Hdel. rewrite Hdel. clear Hdel.
    destruct (screenitem_get (remote w) screen_id) as [| i t] eqn:Hitems.
    + eexists. split; [reflexivity |]. simpl.
      split; [rewrite <- ?app_assoc; reflexivity |].
      split; [apply screenitem_get_after_delete | apply screen_gone_after_delete].
    + eexists. split; [reflexivity |]. simpl.
      split; [rewrite <- ?app_assoc; reflexivity |].
      split; [apply screenitem_get_after_delete | apply screen_gone_after_delete].
  - unfold process_screen. rewrite bind_run, Hlookup, Habs, Htruthy.
    subst w1. reflexivity.
Qed.

Example absent_path_after_lookup_example :
  (forall screen_id,
      delete_screen_items false screen_id [] example_world = (Ret true, example_world))
  /\ exists w2,
       process_screen false ([], [], []) (example_params "Dash" absent 3) example_world
       = (Ret ([], [], ["Dash"]), w2)
       /\ calls w2
          = [ScreenGet "Dash"; ScreenitemGet "9"; ScreenitemGet "9";
             ScreenitemDelete ["50"; "51"; "52"]; ScreenDelete ["9"]]
       /\ screenitem_get (remote w2) "9" = []
       /\ ~ In "9" (map screenid (screens (remote w2))).
Proof.
  exact (absent_path_after_lookup false (example_params "Dash" absent 3) [] [] []
           example_world (log example_world [ScreenGet "Dash"]) (Some "9")
           eq_refl eq_refl).
Qed.

(** A screen that the lookup does not find is left alone. *)
Example absent_path_missing_screen :
  process_screen false ([], [], []) (example_params "Gone" absent 3) example_world
  = (Ret ([], [], []), log example_world [ScreenGet "Gone"]).
Proof. reflexivity. Qed.

(** A dry run of the absent path exits with [changed] before any write. *)
Example absent_path_check_mode :
  process_screen true ([], [], []) (example_params "Dash" absent 3) example_world
  = (ExitJson true None,
     log example_world [ScreenGet "Dash"; ScreenitemGet "9"; ScreenitemGet "9"]).
Proof. reflexivity. Qed.

(** C7. The screen that the absent path deletes is the one the lookup
    returns, and the lookup is a substring search.  No screen of the example
    server is named Das, yet [state=absent] for Das reads and deletes the
    three items of the screen Dash, deletes Dash and reports Das as deleted:
    not the no-op a missing screen calls for.  And [state=absent] for
    ExampleScreen1 deletes the item and the screen of ExampleScreen10 (id 7),
    while the screen named ExampleScreen1 (id 8) stays on the server. *)
Theorem absent_path_deletes_another_screen :
  ~ In "Das" (map screen_name (screens example_server))
  /\ fst (process_screen false ([], [], []) (example_params "Das" absent 3) example_world)
     = Ret ([], [], ["Das"])
  /\ calls (snd (process_screen false ([], [], []) (example_params "Das" absent 3)
                                example_world))
     = [ScreenGet "Das"; ScreenitemGet "9"; ScreenitemGet "9";
        ScreenitemDelete ["50"; "51"; "52"]; ScreenDelete ["9"]]
  /\ calls (snd (process_screen false ([], [], [])
                                (example_params "ExampleScreen1" absent 3) example_world))
     = [ScreenGet "ExampleScreen1"; ScreenitemGet "7"; ScreenitemGet "7";
        ScreenitemDelete ["40"]; ScreenDelete ["7"]]
  /\ map screen_name
         (screens (remote (snd (process_screen false ([], [], [])
                                               (example_params "ExampleScreen1" absent 3)
                                               example_world))))
     = ["ExampleScreen1"; "Dash"].
Proof.
  split; [simpl; intros [H | [H | [H | []]]]; discriminate |].
  repeat split; reflexivity.
Qed.

(** ** The diff check *)

Lemma emits_resolve (P : call -> Prop) (p : Params.t) (w : world) :
  admits_reads P -> emits P (resolve p) w.
Proof.
  intros HP. unfold resolve. cbv zeta.
  apply emits_bind; [apply emits_resolve_hosts; assumption |].
  intros hosts w1 _.
  apply emits_bind; [apply emits_get_graph_ids; assumption |].
  intros [graph_ids v] w2 _.
  apply emits_bind; [apply emits_get_hsize_vsize |].
  intros [h v'] w3 _. apply emits_ret.
Qed.

Lemma emits_log {A : Type} (m : M A) (w : world) :
  emits (fun c => is_write c = false) m w ->
  exists t, snd (m w) = log w t /\ Forall (fun c => is_write c = false) t.
Proof.
  intros (t & Hcalls & Hall & Hremote). exists t. split; [| assumption].
  specialize (Hremote Hall). destruct (snd (m w)) as [r c]. simpl in *.
  subst. reflexivity.
Qed.

Lemma ids_eqb_refl (l : list ident) : ids_eqb l l = true.
Proof. unfold ids_eqb. destruct (list_eq_dec string_dec l l); congruence. Qed.

Lemma ids_eqb_eq (l1 l2 : list ident) : ids_eqb l1 l2 = true <-> l1 = l2.
Proof.
  unfold ids_eqb. destruct (list_eq_dec string_dec l1 l2); split; congruence.
Qed.

(** After the lookup and [resolve]: when the lookup found a screen and the
    graph ids that [resolve] returned are, in order, the resource ids of the
    items of that screen, [main] issues no write for the screen: all it
    asked of the server are reads, the server is as it was, and the screen
    enters none of the lists of created, changed or deleted screens. *)
Lemma unchanged_after_resolve (check_mode : bool) (p : Params.t)
    (created changed deleted : list string) (w w1 w2 : world) (o : option ident)
    (screen_id : ident) (hosts graph_ids : list ident) (h_size v_size : Z) :
  Params.state p = present ->
  get_screen_id (Params.screen_name p) w = (Ret o, w1) ->
  truthy o = Some screen_id ->
  resolve p w1 = (Ret (hosts, graph_ids, h_size, v_size), w2) ->
  graph_ids = map (fun i => resourceid (data i)) (screenitem_get (remote w2) screen_id) ->
  exists t,
    process_screen check_mode (created, changed, deleted) p w
    = (Ret (created, changed, deleted), log w t)
    /\ Forall (fun c => is_write c = false) t.
Proof.
  intros Hstate Hlookup Htruthy Hresolve Hids.
  pose proof (get_screen_id_inv _ _ _ _ Hlookup) as (_ & Hw1 & _).
  destruct (emits_log (resolve p) w1) as (t2 & Hw2 & Hreads).
  { apply emits_resolve. intros c Hc. exact Hc. }
  rewrite Hresolve in Hw2. simpl in Hw2.
  exists ([ScreenGet (Params.screen_name p)] ++ t2 ++ [ScreenitemGet screen_id]).
  split.
  - unfold process_screen. rewrite bind_run, Hlookup, Hstate.
    rewrite bind_run, Hresolve. unfold reconcile. rewrite Htruthy.
    unfold get_screen_items. rewrite bind_run, zapi_read_run. cbv zeta.
    rewrite <- Hids, ids_eqb_refl. simpl negb. cbv iota.
    subst w2 w1. rewrite !log_log. reflexivity.
  - apply Forall_app. split; [repeat constructor |].
    apply Forall_app. split; [assumption | repeat constructor].
Qed.

Example unchanged_after_resolve_example :
  exists t,
    process_screen false ([], [], []) (example_params "Dash" present 7) example_world
    = (Ret ([], [], []), log example_world t)
    /\ Forall (fun c => is_write c = false) t.
Proof.
  exact (unchanged_after_resolve false (example_params "Dash" present 7) [] [] []
           example_world
           (log example_world [ScreenGet "Dash"])
           (snd (resolve (example_params "Dash" present 7)
                         (log example_world [ScreenGet "Dash"])))
           (Some "9") "9" ["13"; "10"] ["102"; "100"; "101"] 2 2
           eq_refl eq_refl eq_refl eq_refl eq_refl).
Qed.

(** A change of the cell size and of [graphs_in_row] alone is not seen. *)
Example unchanged_when_only_layout_changes :
  process_screen false ([], [], [])
    {| Params.screen_name := "Dash"; Params.host_group := Some ["G1"; "G2"];
       Params.state := present; Params.graph_names := Some ["cpu"; "mem"];
       Params.graph_width := Some 300; Params.graph_height := Some 50;
       Params.graphs_in_row := 1; Params.sort := true |}
    example_world
  = (Ret ([], [], []),
     log example_world
         [ScreenGet "Dash"; HostgroupGet ["G1"; "G2"]; HostGet ["2"; "4"];
          GraphGet "cpu" "13"; GraphGet "mem" "13"; GraphGet "cpu" "10";
          GraphGet "mem" "10"; ScreenitemGet "9"]).
Proof. reflexivity. Qed.

(** The whole run then reports no change. *)
Example main_reports_unchanged :
  main false [example_params "Dash" present 3] example_world
  = (ExitJson false None,
     log example_world
         [ApiinfoVersion; ScreenGet "Dash"; HostgroupGet ["G1"; "G2"];
          HostGet ["2"; "4"]; GraphGet "cpu" "13"; GraphGet "mem" "13";
          GraphGet "cpu" "10"; GraphGet "mem" "10"; ScreenitemGet "9"]).
Proof. reflexivity. Qed.

(** ** Positive dimensions *)

Lemma resolve_hosts_nonempty (host_group : option (list string)) (sort : bool)
    (w w' : world) (hosts : list ident) :
  resolve_hosts host_group sort w = (Ret hosts, w') -> hosts <> [].
Proof.
  unfold resolve_hosts. rewrite bind_run.
  destruct (get_host_group_ids host_group w) as [[ids | ? | ? ? | ?] w1];
    try discriminate.
  rewrite bind_run.
  destruct (get_host_ids_by_group_ids ids sort w1) as [[l | ? | ? ? | ?] w2];
    try discriminate.
  destruct l; [discriminate |]. unfold ret. intros H. inversion H. discriminate.
Qed.

Lemma get_graph_ids_positive (hosts : list ident) (graph_name_list : option (list string))
    (w w' : world) (graph_ids : list ident) (v : Z) :
  get_graph_ids hosts graph_name_list w = (Ret (graph_ids, v), w') -> 1 <= v.
Proof.
  destruct graph_name_list as [names |].
  - rewrite get_graph_ids_run. intros H. inversion H. apply max_graphs_ge.
  - destruct hosts as [| host t]; unfold get_graph_ids.
    + simpl. unfold ret. intros H. inversion H. lia.
    + rewrite for_fold_cons, bind_run, bind_run. simpl. discriminate.
Qed.

Lemma resolve_sizes (p : Params.t) (w w' : world) (hosts graph_ids : list ident)
    (h_size v_size : Z) :
  1 <= Params.graphs_in_row p ->
  resolve p w = (Ret (hosts, graph_ids, h_size, v_size), w') ->
  1 <= h_size /\ 1 <= v_size.
Proof.
  intros Hg. unfold resolve. cbv zeta. rewrite bind_run.
  destruct (resolve_hosts (Params.host_group p) (Params.sort p) w)
    as [[hs | ? | ? ? | ?] w1] eqn:Hhosts; try discriminate.
  apply resolve_hosts_nonempty in Hhosts.
  rewrite bind_run.
  destruct (get_graph_ids hs (Params.graph_names p) w1)
    as [[[ids v] | ? | ? ? | ?] w2] eqn:Hgraphs; try discriminate.
  apply get_graph_ids_positive in Hgraphs.
  destruct (get_hsize_vsize_positive hs v (Params.graphs_in_row p) w2 Hhosts Hgraphs Hg)
    as (h' & v' & Hsize & Hh & Hv).
  rewrite bind_run, Hsize. unfold ret. intros H. inversion H. subst. auto.
Qed.

Lemma positive_size_admits_reads : admits_reads positive_size.
Proof. intros c Hc. destruct c; simpl in *; auto; discriminate. Qed.

Lemma emits_reconcile (check_mode : bool) (p : Params.t) (o : option ident)
    (hosts graph_ids : list ident) (h_size v_size : Z) (acc : report) (w : world) :
  1 <= h_size -> 1 <= v_size ->
  emits positive_size (reconcile check_mode p o hosts graph_ids h_size v_size acc) w.
Proof.
  intros Hh Hv. pose proof positive_size_admits_reads as HP.
  unfold reconcile. destruct acc as [[created changed] deleted]. cbv zeta.
  destruct (truthy o) as [screen_id |].
  - apply emits_bind; [apply emits_get_screen_items; assumption |].
    intros items w1 _.
    destruct (negb _); [| apply emits_ret].
    apply emits_bind; [apply emits_delete_screen_items; simpl; auto |].
    intros [|] w2 _; [| apply emits_ret].
    apply emits_bind; [apply emits_update_screen; simpl; auto |].
    intros _ w3 _.
    apply emits_bind; [| intros; apply emits_ret].
    apply emits_create_screen_items; [assumption | intros; exact I].
  - apply emits_bind; [apply emits_create_screen; simpl; auto |].
    intros screen_id w1 _.
    apply emits_bind; [| intros; apply emits_ret].
    apply emits_create_screen_items; [assumption | intros; exact I].
Qed.

Lemma emits_process_screen (check_mode : bool) (p : Params.t) (acc : report) (w : world) :
  1 <= Params.graphs_in_row p ->
  emits positive_size (process_screen check_mode acc p) w.
Proof.
  intros Hg. pose proof positive_size_admits_reads as HP.
  unfold process_screen. destruct acc as [[created changed] deleted]. cbv zeta.
  apply emits_bind; [apply emits_get_screen_id; assumption |].
  intros o w1 _. destruct (Params.state p).
  - destruct (truthy o) as [screen_id |]; [| apply emits_ret].
    apply emits_bind; [apply emits_get_screen_items; assumption |].
    intros items w2 _.
    apply emits_bind; [apply emits_delete_screen_items; simpl; auto |].
    intros _ w3 _.
    apply emits_bind; [apply emits_delete_screen; exact I |].
    intros; apply emits_ret.
  - apply emits_bind; [apply emits_resolve; assumption |].
    intros [[[hosts graph_ids] h_size] v_size] w2 Hresolve.
    apply resolve_sizes in Hresolve; [| assumption].
    apply emits_reconcile; tauto.
Qed.

Lemma emits_for_fold_in {A S : Type} (P : call -> Prop) (body : S -> A -> M S)
    (l : list A) :
  (forall acc x w, In x l -> emits P (body acc x) w) ->
  forall acc w, emits P (for_fold l acc body) w.
Proof.
  induction l as [| x t IH]; intros Hbody acc w.
  - apply emits_ret.
  - rewrite for_fold_cons. apply emits_bind; [apply Hbody; left; reflexivity |].
    intros acc' w' _. apply IH. intros; apply Hbody; right; assumption.
Qed.

Lemma emits_main (check_mode : bool) (screens : list Params.t) (w : world) :
  Forall (fun p => 1 <= Params.graphs_in_row p) screens ->
  emits positive_size (main check_mode screens) w.
Proof.
  intros Hall. unfold main.
  apply emits_bind; [apply emits_read; exact I |].
  intros version w1 _. destruct (version_ge _ _); [apply emits_fail_json |].
  apply emits_bind.
  - apply emits_for_fold_in. intros acc p w2 Hin.
    apply emits_process_screen. rewrite Forall_forall in Hall. auto.
  - intros [[created changed] deleted] w2 _.
    destruct created, changed, deleted; apply emits_exit_json.
Qed.

Lemma max_graphs_none (r : server) (names : list string) (hs : list ident) (v : Z) :
  0 <= v -> flat_map (resolved_graphs r names) hs = [] -> max_graphs r names hs v = v.
Proof.
  intros Hv. induction hs as [| host t IH]; simpl; [reflexivity |].
  intros Hnil. apply app_eq_nil in Hnil. destruct Hnil as [Hhost Ht].
  rewrite Hhost. change (len []) with 0. rewrite Z.max_l by lia. auto.
Qed.

(** C10. [get_graph_ids] returns a [vsize] of 1 at least whatever the hosts
    and the graph names are, and of 1 when no graph resolves;
    [get_hsize_vsize] computes from at least one
    host, a positive [vsize] and a positive [graphs_in_row] a size whose two
    dimensions are positive; and in a run of [main] in which every screen
    has a positive [graphs_in_row], every screen that is created or updated
    gets positive dimensions. *)
Theorem dimensions_are_positive (check_mode : bool) (screens : list Params.t) (w : world) :
  Forall (fun p => 1 <= Params.graphs_in_row p) screens ->
  (forall hosts names w0,
      exists graph_ids v w',
        get_graph_ids hosts (Some names) w0 = (Ret (graph_ids, v), w')
        /\ 1 <= v /\ (graph_ids = [] -> v = 1))
  /\ (forall p hosts v w0,
         In p screens -> hosts <> [] -> 1 <= v ->
         exists h' v',
           get_hsize_vsize hosts v (Params.graphs_in_row p) w0 = (Ret (h', v'), w0)
           /\ 1 <= h' /\ 1 <= v')
  /\ exists t,
       calls (snd (main check_mode screens w)) = calls w ++ t
       /\ Forall positive_size t.
Proof.
  intros Hall. split; [| split].
  - intros hosts names w0. rewrite get_graph_ids_run.
    do 3 eexists. split; [reflexivity |].
    split; [apply max_graphs_ge | apply max_graphs_none; lia].
  - intros p hosts v w0 Hin Hne Hv. apply get_hsize_vsize_positive; auto.
    rewrite Forall_forall in Hall. auto.
  - destruct (emits_main check_mode screens w Hall) as (t & Hcalls & HP & _).
    exists t. auto.
Qed.

Lemma dimensions_are_positive_witness :
  (forall hosts names w0,
      exists graph_ids v w',
        get_graph_ids hosts (Some names) w0 = (Ret (graph_ids, v), w')
        /\ 1 <= v /\ (graph_ids = [] -> v = 1))
  /\ (forall p hosts v w0,
         In p [example_params "New" present 3] -> hosts <> [] -> 1 <= v ->
         exists h' v',
           get_hsize_vsize hosts v (Params.graphs_in_row p) w0 = (Ret (h', v'), w0)
           /\ 1 <= h' /\ 1 <= v')
  /\ exists t,
       calls (snd (main false [example_params "New" present 3] example_world))
       = calls example_world ++ t
       /\ Forall positive_size t.
Proof.
  apply (dimensions_are_positive false [example_params "New" present 3] example_world).
  repeat constructor. simpl. lia.
Defined.

(** With two hosts and [graphs_in_row = -2] the screen is created two
    columns wide in the negative and no row high. *)
Lemma zero_rows_with_negative_graphs_in_row :
  ~ Forall positive_size
      (calls (snd (main false [example_params "New" present (-2)] example_world))).
Proof.
  intros Hall. rewrite Forall_forall in Hall.
  assert (Hin : In (ScreenCreate "New" (-2) 0)
                   (calls (snd (main false [example_params "New" present (-2)]
                                     example_world)))).
  { vm_compute. tauto. }
  apply Hall in Hin. simpl in Hin. lia.
Qed.

(** ** The placement of the items *)

Lemma calls_create_all (ds : list item_data) :
  forall w, calls (create_all ds w) = calls w ++ map ScreenitemCreate ds.
Proof.
  induction ds as [| d t IH]; intros w; simpl.
  - rewrite app_nil_r. reflexivity.
  - unfold create_all in *. simpl. rewrite IH. simpl. rewrite <- app_assoc. reflexivity.
Qed.

Lemma graphs_create_all (ds : list item_data) :
  forall w, graphs (remote (create_all ds w)) = graphs (remote w).
Proof.
  induction ds as [| d t IH]; intros w; simpl; [reflexivity |].
  unfold create_all in *. simpl. rewrite IH. reflexivity.
Qed.

Lemma created_items_app (l1 l2 : list call) :
  created_items (l1 ++ l2) = created_items l1 ++ created_items l2.
Proof. unfold created_items. apply flat_map_app. Qed.

Lemma created_items_creates (ds : list item_data) :
  created_items (map ScreenitemCreate ds) = ds.
Proof. induction ds as [| d t IH]; simpl; [| rewrite IH]; reflexivity. Qed.

Lemma created_items_graph_calls (names : list string) (host_id : ident) :
  created_items (map (fun n => GraphGet n host_id) names) = [].
Proof. induction names as [| n t IH]; simpl; auto. Qed.

Lemma resolved_graphs_ext (r r' : server) (names : list string) (host_id : ident) :
  graphs r = graphs r' -> resolved_graphs r names host_id = resolved_graphs r' names host_id.
Proof. intros H. unfold resolved_graphs, graph_get. rewrite H. reflexivity. Qed.

Lemma for_each_nil {A : Type} (body : A -> M unit) (w : world) :
  for_each [] body w = (Ret tt, w).
Proof. reflexivity. Qed.

Lemma for_each_cons {A : Type} (x : A) (t : list A) (body : A -> M unit) (w w' : world) :
  body x w = (Ret tt, w') -> for_each (x :: t) body w = for_each t body w'.
Proof.
  intros H. unfold for_each. rewrite for_fold_cons, bind_run, H. reflexivity.
Qed.

Lemma place_item_run (d : Z -> Z -> item_data) (i b : Z) (w : world) :
  b <> 0 ->
  (x <- modulo i b ;; q <- floordiv i b ;; ScreenItem_create (d x q)) w
  = (Ret tt, create_all [d (i mod b) (i / b)] w).
Proof.
  intros Hb. unfold modulo, floordiv.
  destruct (Z.eqb_spec b 0) as [E | _]; [congruence |]. reflexivity.
Qed.

Lemma create_all_app (ds1 ds2 : list item_data) (w : world) :
  create_all (ds1 ++ ds2) w = create_all ds2 (create_all ds1 w).
Proof. unfold create_all. apply fold_left_app. Qed.

(** The inner loop: one item per graph, at the place [d] computes. *)
Lemma place_loop_run (d : Z -> ident -> Z -> Z -> item_data) (k b : Z) (l : list ident) :
  b <> 0 ->
  forall (i : Z) (w : world),
    for_each (enumerate_from i l)
             (fun '(j, g) => x <- modulo k b ;; q <- floordiv k b ;;
                             ScreenItem_create (d j g x q)) w
    = (Ret tt,
       create_all (map (fun '(j, g) => d j g (k mod b) (k / b)) (enumerate_from i l)) w).
Proof.
  intros Hb. induction l as [| g t IH]; intros i w.
  - reflexivity.
  - simpl enumerate_from.
    erewrite for_each_cons by (apply (place_item_run (d i g)); assumption).
    rewrite IH. simpl map.
    change (d i g (k mod b) (k / b) :: ?l) with ([d i g (k mod b) (k / b)] ++ l).
    rewrite (create_all_app [d i g (k mod b) (k / b)]). reflexivity.
Qed.

Lemma single_host_loop_run (screen_id : ident) (wd ht b : Z) (l : list ident) :
  b <> 0 ->
  forall (i : Z) (w : world),
    for_each (enumerate_from i l)
             (fun '(i, g) => x <- modulo i b ;; q <- floordiv i b ;;
                             ScreenItem_create (item screen_id g wd ht x q)) w
    = (Ret tt,
       create_all (map (fun '(i, g) => item screen_id g wd ht (i mod b) (i / b))
                       (enumerate_from i l)) w).
Proof.
  intros Hb. induction l as [| g t IH]; intros i w.
  - reflexivity.
  - simpl enumerate_from.
    erewrite for_each_cons
      by (apply (place_item_run (item screen_id g wd ht)); assumption).
    rewrite IH. simpl map.
    change (item screen_id g wd ht (i mod b) (i / b) :: ?l)
      with ([item screen_id g wd ht (i mod b) (i / b)] ++ l).
    rewrite (create_all_app [item screen_id g wd ht (i mod b) (i / b)]). reflexivity.
Qed.

Lemma multi_host_loop_run (screen_id : ident) (wd ht b : Z) (names : list string) :
  b <> 0 ->
  forall (hosts : list ident) (i : Z) (w : world),
    exists w',
      for_each (enumerate_from i hosts)
               (fun '(i, host) =>
                  graph_id_list <- get_graphs_by_host_id (Some names) host ;;
                  for_each (enumerate graph_id_list) (fun '(j, graph_id) =>
                    x <- modulo i b ;;
                    q <- floordiv i b ;;
                    ScreenItem_create
                      (item screen_id graph_id wd ht x (len graph_id_list * q + j)))) w
      = (Ret tt, w')
      /\ created_items (calls w')
         = created_items (calls w)
           ++ flat_map (fun '(i, host) =>
                          host_items screen_id wd ht b i
                                     (resolved_graphs (remote w) names host))
                       (enumerate_from i hosts)
      /\ graphs (remote w') = graphs (remote w).
Proof.
  intros Hb hs. induction hs as [| host t IH]; intros i w.
  - exists w. simpl. rewrite app_nil_r. auto.
  - simpl enumerate_from.
    set (l := resolved_graphs (remote w) names host).
    set (w1 := create_all (host_items screen_id wd ht b i l)
                          (log w (map (fun n => GraphGet n host) names))).
    assert (Hbody :
      (graph_id_list <- get_graphs_by_host_id (Some names) host ;;
       for_each (enumerate graph_id_list) (fun '(j, graph_id) =>
         x <- modulo i b ;;
         q <- floordiv i b ;;
         ScreenItem_create
           (item screen_id graph_id wd ht x (len graph_id_list * q + j)))) w
      = (Ret tt, w1)).
    { rewrite bind_run, get_graphs_by_host_id_run. fold l.
      unfold enumerate.
      rewrite (place_loop_run
                 (fun j g x q => item screen_id g wd ht x (len l * q + j)) i b l Hb).
      reflexivity. }
    destruct (IH (i + 1) w1) as (w' & Hrun & Hcreated & Hgraphs).
    assert (Hg1 : graphs (remote w1) = graphs (remote w)).
    { unfold w1. rewrite graphs_create_all. reflexivity. }
    exists w'. split; [| split].
    + erewrite for_each_cons by exact Hbody. exact Hrun.
    + rewrite Hcreated. unfold w1 at 1.
      rewrite calls_create_all, calls_log, !created_items_app.
      rewrite created_items_graph_calls, created_items_creates, app_nil_r.
      simpl flat_map. rewrite <- app_assoc. f_equal. f_equal.
      apply flat_map_ext. intros [k host']. f_equal.
      apply resolved_graphs_ext. assumption.
    + rewrite Hgraphs. assumption.
Qed.

Lemma len_one {A : Type} (l : list A) : len l = 1 -> exists a, l = [a].
Proof.
  destruct l as [| a [| b t]]; unfold len; simpl; intros H; try lia.
  exists a. reflexivity.
Qed.

(** What [create_screen_items] creates, item by item. *)
Lemma create_screen_items_run (screen_id : ident) (hosts : list ident)
    (names : list string) (graph_width graph_height : option Z) (h_size b : Z)
    (w : world) :
  h_size <> 0 -> b <> 0 ->
  exists w',
    create_screen_items screen_id hosts (Some names) graph_width graph_height h_size b w
    = (Ret tt, w')
    /\ created_items (calls w')
       = created_items (calls w)
         ++ match hosts with
            | [host] =>
                single_host_items screen_id (cell_width (len hosts) graph_width)
                                  (cell_height graph_height) h_size
                                  (resolved_graphs (remote w) names host)
            | _ =>
                multi_host_items (remote w) screen_id (cell_width (len hosts) graph_width)
                                 (cell_height graph_height) b names hosts
            end.
Proof.
  intros Hh Hb. unfold create_screen_items. cbv zeta.
  rewrite or_default_width, or_default_height.
  set (wd := cell_width (len hosts) graph_width).
  set (ht := cell_height graph_height).
  destruct (Z.eqb_spec (len hosts) 1) as [H1 | H1].
  - destruct (len_one hosts H1) as (host & ->).
    rewrite bind_run, get_graphs_by_host_id_run. unfold enumerate.
    rewrite single_host_loop_run by assumption.
    eexists. split; [reflexivity |].
    rewrite calls_create_all, calls_log, !created_items_app.
    rewrite created_items_graph_calls, created_items_creates, app_nil_r.
    reflexivity.
  - destruct (multi_host_loop_run screen_id wd ht b names Hb hosts 0 w)
      as (w' & Hrun & Hcreated & _).
    exists w'. split; [exact Hrun |].
    rewrite Hcreated. f_equal.
    destruct hosts as [| a [| a' t]]; try reflexivity.
    exfalso. apply H1. reflexivity.
Qed.

Lemma map_flat_map {A B C : Type} (f : B -> C) (g : A -> list B) (l : list A) :
  map f (flat_map g l) = flat_map (fun a => map f (g a)) l.
Proof.
  induction l as [| a t IH]; simpl; [reflexivity |].
  rewrite map_app, IH. reflexivity.
Qed.

Lemma cells_of_single_host_items (screen_id : ident) (wd ht columns : Z)
    (graph_ids : list ident) :
  map cell_of (single_host_items screen_id wd ht columns graph_ids)
  = single_host_cells columns graph_ids.
Proof.
  unfold single_host_items, single_host_cells. rewrite map_map.
  apply map_ext. intros [i g]. reflexivity.
Qed.

Lemma cells_of_multi_host_items (r : server) (screen_id : ident) (wd ht b : Z)
    (names : list string) (hosts : list ident) :
  map cell_of (multi_host_items r screen_id wd ht b names hosts)
  = multi_host_cells r b names hosts.
Proof.
  unfold multi_host_items, multi_host_cells. rewrite map_flat_map.
  apply flat_map_ext. intros [i host]. unfold host_items. rewrite map_map.
  apply map_ext. intros [j g]. reflexivity.
Qed.

(** C6. [create_screen_items], given the names of the graphs, a number of
    columns and a [graphs_in_row] other than zero, returns, and the items it
    asked the server to create are, in this order: for one host, the
    resolved graphs of the host, the i-th at [x = i mod columns],
    [y = i div columns]; for several hosts, the resolved graphs of each host
    in turn, the j-th graph of host i at [x = i mod graphs_in_row],
    [y = graphCountForHost * (i div graphs_in_row) + j]; each spans one
    column and one row.  A host without graphs adds no item and still counts
    in i. *)
Theorem create_screen_items_placement (screen_id : ident) (hosts : list ident)
    (names : list string) (graph_width graph_height : option Z)
    (h_size graphs_in_row : Z) (w : world) :
  h_size <> 0 -> graphs_in_row <> 0 ->
  exists w' new_items,
    create_screen_items screen_id hosts (Some names) graph_width graph_height h_size
                        graphs_in_row w = (Ret tt, w')
    /\ created_items (calls w') = created_items (calls w) ++ new_items
    /\ map cell_of new_items
       = match hosts with
         | [host] => single_host_cells h_size (resolved_graphs (remote w) names host)
         | _ => multi_host_cells (remote w) graphs_in_row names hosts
         end.
Proof.
  intros Hh Hb.
  destruct (create_screen_items_run screen_id hosts names graph_width graph_height
              h_size graphs_in_row w Hh Hb) as (w' & Hrun & Hcreated).
  exists w'. eexists. split; [exact Hrun |]. split; [exact Hcreated |].
  destruct hosts as [| a [| a' t]].
  - apply cells_of_multi_host_items.
  - apply cells_of_single_host_items.
  - apply cells_of_multi_host_items.
Qed.

(** Three hosts, of which the second has no graph, two graphs in a row: the
    third host starts the second row of hosts in column 0. *)
Lemma create_screen_items_placement_witness :
  exists w' new_items,
    create_screen_items "9" ["10"; "11"; "13"] (Some ["cpu"; "mem"]) None None 2 2
                        example_world = (Ret tt, w')
    /\ created_items (calls w') = created_items (calls example_world) ++ new_items
    /\ map cell_of new_items
       = multi_host_cells example_server 2 ["cpu"; "mem"] ["10"; "11"; "13"].
Proof.
  apply (create_screen_items_placement "9" ["10"; "11"; "13"] ["cpu"; "mem"] None None
           2 2 example_world); discriminate.
Defined.

Example multi_host_cells_example :
  multi_host_cells example_server 2 ["cpu"; "mem"] ["10"; "11"; "13"]
  = [("100", 0, 0, 1, 1); ("101", 0, 1, 1, 1); ("102", 0, 1, 1, 1)].
Proof. reflexivity. Qed.

Example single_host_cells_example :
  single_host_cells 2 ["a"; "b"; "c"] = [("a", 0, 0, 1, 1); ("b", 1, 0, 1, 1); ("c", 0, 1, 1, 1)].
Proof. reflexivity. Qed.

(** ** Dry runs *)

Lemma emits_exit_then {A B : Type} (P : call -> Prop) (c : bool) (r : option string)
    (k : A -> M B) (w : world) :
  emits P (bind (exit_json c r) k) w.
Proof.
  apply emits_bind; [apply emits_exit_json |]. intros a w' H. discriminate.
Qed.

Lemma emits_delete_screen_items_dry (P : call -> Prop) (screen_id : ident)
    (ids : list ident) (w : world) :
  admits_reads P -> emits P (delete_screen_items true screen_id ids) w.
Proof.
  intros HP. unfold delete_screen_items.
  destruct (len ids =? 0); auto with emits.
  apply emits_bind; [apply emits_get_screen_items; assumption |].
  intros l w1 _. destruct (0 <? len l); auto with emits.
  apply emits_exit_then.
Qed.

Lemma emits_reconcile_dry (P : call -> Prop) (p : Params.t) (o : option ident)
    (hs graph_ids : list ident) (h_size v_size : Z) (acc : report) (w : world) :
  admits_reads P ->
  emits P (reconcile true p o hs graph_ids h_size v_size acc) w.
Proof.
  intros HP. unfold reconcile. destruct acc as [[created changed] deleted]. cbv zeta.
  destruct (truthy o) as [screen_id |].
  - apply emits_bind; [apply emits_get_screen_items; assumption |].
    intros items w1 _. destruct (negb _); [| apply emits_ret].
    apply emits_bind; [apply emits_delete_screen_items_dry; assumption |].
    intros [|] w2 _; [| apply emits_ret].
    unfold update_screen. apply emits_exit_then.
  - unfold create_screen. apply emits_exit_then.
Qed.

Lemma emits_process_screen_dry (P : call -> Prop) (p : Params.t) (acc : report)
    (w : world) :
  admits_reads P -> emits P (process_screen true acc p) w.
Proof.
  intros HP. unfold process_screen. destruct acc as [[created changed] deleted].
  cbv zeta.
  apply emits_bind; [apply emits_get_screen_id; assumption |].
  intros o w1 _. destruct (Params.state p).
  - destruct (truthy o) as [screen_id |]; [| apply emits_ret].
    apply emits_bind; [apply emits_get_screen_items; assumption |].
    intros items w2 _.
    apply emits_bind; [apply emits_delete_screen_items_dry; assumption |].
    intros _ w3 _. unfold delete_screen. apply emits_exit_then.
  - apply emits_bind; [apply emits_resolve; assumption |].
    intros [[[hs graph_ids] h_size] v_size] w2 _.
    apply emits_reconcile_dry; assumption.
Qed.

(** X1. In check mode [main] never writes: whatever the screens and the
    server are, and however the run ends, every call it issued is a read and
    the server is as it was. *)
Theorem dry_run_never_writes (screens : list Params.t) (w : world) :
  exists t, snd (main true screens w) = log w t /\ reads_only t.
Proof.
  apply emits_log. unfold main.
  apply emits_bind; [apply emits_read; reflexivity |].
  intros version w1 _. destruct (version_ge _ _); [apply emits_fail_json |].
  apply emits_bind.
  - apply emits_for_fold. intros acc p w2.
    apply emits_process_screen_dry. intros c Hc. exact Hc.
  - intros [[created changed] deleted] w2 _.
    destruct created, changed, deleted; apply emits_exit_json.
Qed.

(** ** Names of groups that do not resolve *)

Lemma hostgroup_get_app (r : server) (names extra : list string) :
  (forall g, In g (hostgroups r) -> ~ In (hostgroup_name g) extra) ->
  hostgroup_get r (names ++ extra) = hostgroup_get r names.
Proof.
  intros Hextra. unfold hostgroup_get. apply filter_ext_in. intros g Hg.
  destruct (mem (hostgroup_name g) names) eqn:Hn.
  - apply mem_In. apply in_or_app. left. apply mem_In. assumption.
  - destruct (mem (hostgroup_name g) (names ++ extra)) eqn:Hm; [| reflexivity].
    apply mem_In in Hm. apply in_app_or in Hm. destruct Hm as [Hm | Hm].
    + apply mem_In in Hm. congruence.
    + exfalso. exact (Hextra g Hg Hm).
Qed.

(** X2. [get_host_group_ids] fails only when none of the names resolves:
    names that belong to no group are dropped without a word as soon as
    another name resolves, and the ids returned are those of the groups
    whose names are listed. *)
Theorem get_host_group_ids_drops_unknown_names (names extra : list string) (w : world) :
  (forall g, In g (hostgroups (remote w)) -> ~ In (hostgroup_name g) extra) ->
  hostgroup_get (remote w) names <> [] ->
  fst (get_host_group_ids (Some (names ++ extra)) w)
  = Ret (map groupid (hostgroup_get (remote w) names))
  /\ forall id,
       In id (map groupid (hostgroup_get (remote w) names))
       <-> exists g, In g (hostgroups (remote w)) /\ groupid g = id
                     /\ In (hostgroup_name g) names.
Proof.
  intros Hextra Hsome. split.
  - rewrite get_host_group_ids_run; rewrite hostgroup_get_app by assumption.
    + reflexivity.
    + destruct (hostgroup_get (remote w) names); [congruence | discriminate].
  - intros id. rewrite in_map_iff. unfold hostgroup_get. split.
    + intros (g & Hid & Hin). apply filter_In in Hin. destruct Hin as [Hin Hm].
      apply mem_In in Hm. eauto.
    + intros (g & Hin & Hid & Hm). exists g. split; [assumption |].
      apply filter_In. split; [assumption | apply mem_In; assumption].
Qed.

Lemma get_host_group_ids_drops_unknown_names_witness :
  fst (get_host_group_ids (Some (["G1"] ++ ["G9"])) example_world)
  = Ret (map groupid (hostgroup_get example_server ["G1"]))
  /\ forall id,
       In id (map groupid (hostgroup_get example_server ["G1"]))
       <-> exists g, In g (hostgroups example_server) /\ groupid g = id
                     /\ In (hostgroup_name g) ["G1"].
Proof.
  apply (get_host_group_ids_drops_unknown_names ["G1"] ["G9"] example_world).
  - intros g Hg Hin. simpl in Hg, Hin.
    destruct Hg as [<- | [<- | []]]; simpl in Hin;
      destruct Hin as [Hin | []]; discriminate.
  - vm_compute. discriminate.
Defined.

(** When no name resolves, or no name is given, the run fails; without a
    name the server is not even asked. *)
Lemma get_host_group_ids_fails (names : list string) (w : world) :
  get_host_group_ids None w = (FailJson (Msg "group_name is required"), w)
  /\ get_host_group_ids (Some []) w = (FailJson (Msg "group_name is required"), w)
  /\ (names <> [] -> hostgroup_get (remote w) names = [] ->
      get_host_group_ids (Some names) w
      = (FailJson (MsgList "Host group not found: " names), log w [HostgroupGet names])).
Proof.
  repeat split. intros Hne Hnone. unfold get_host_group_ids.
  destruct names as [| n t]; [congruence |].
  rewrite bind_run, zapi_read_run, Hnone. reflexivity.
Qed.

(** ** The order of the hosts *)

Lemma ascii_compare_lt_trans (a b c : ascii) :
  Ascii.compare a b = Lt -> Ascii.compare b c = Lt -> Ascii.compare a c = Lt.
Proof.
  unfold Ascii.compare. rewrite !N.compare_lt_iff. lia.
Qed.

Lemma ascii_compare_refl (a : ascii) : Ascii.compare a a = Eq.
Proof. unfold Ascii.compare. apply N.compare_refl. Qed.

Lemma string_compare_refl (s : string) : String.compare s s = Eq.
Proof.
  induction s as [| a s IH]; simpl; [reflexivity |].
  rewrite ascii_compare_refl. exact IH.
Qed.

Lemma string_compare_lt_trans (s1 : string) :
  forall s2 s3, String.compare s1 s2 = Lt -> String.compare s2 s3 = Lt ->
                String.compare s1 s3 = Lt.
Proof.
  induction s1 as [| a s1 IH]; intros [| b s2] [| c s3]; simpl; try discriminate; auto.
  destruct (Ascii.compare a b) eqn:Hab; try discriminate;
    destruct (Ascii.compare b c) eqn:Hbc; try discriminate; intros H12 H23.
  - apply Ascii.compare_eq_iff in Hab, Hbc. subst.
    rewrite ascii_compare_refl. eauto.
  - apply Ascii.compare_eq_iff in Hab. subst. rewrite Hbc. reflexivity.
  - apply Ascii.compare_eq_iff in Hbc. subst. rewrite Hab. reflexivity.
  - rewrite (ascii_compare_lt_trans a b c Hab Hbc). reflexivity.
Qed.

Lemma string_leb_trans (s1 s2 s3 : string) :
  String.leb s1 s2 = true -> String.leb s2 s3 = true -> String.leb s1 s3 = true.
Proof.
  unfold String.leb.
  destruct (String.compare s1 s2) eqn:H12; try discriminate;
    destruct (String.compare s2 s3) eqn:H23; try discriminate; intros _ _.
  - apply String.compare_eq_iff in H12, H23. subst.
    rewrite string_compare_refl. reflexivity.
  - apply String.compare_eq_iff in H12. subst. rewrite H23. reflexivity.
  - apply String.compare_eq_iff in H23. subst. rewrite H12. reflexivity.
  - rewrite (string_compare_lt_trans s1 s2 s3 H12 H23). reflexivity.
Qed.

Lemma by_name_trans (a b c : host) : by_name a b -> by_name b c -> by_name a c.
Proof. unfold by_name. apply string_leb_trans. Qed.

Lemma insert_by_key_sorted (x : host) (l : list host) :
  StronglySorted by_name l -> StronglySorted by_name (insert_by_key host_name x l).
Proof.
  induction 1 as [| y t Ht IH Hy]; simpl.
  - constructor; constructor.
  - destruct (String.leb (host_name x) (host_name y)) eqn:Hxy.
    + constructor; [constructor; assumption |].
      constructor; [exact Hxy |].
      rewrite Forall_forall in *. intros z Hz.
      apply (by_name_trans x y z); [exact Hxy | auto].
    + constructor; [assumption |].
      rewrite Forall_forall in *. intros z Hz.
      apply In_insert_by_key in Hz. destruct Hz as [-> | Hz]; [| auto].
      destruct (String.leb_total (host_name x) (host_name y)) as [H | H];
        [congruence | exact H].
Qed.

Lemma sorted_is_sorted (l : list host) : StronglySorted by_name (sorted host_name l).
Proof.
  induction l as [| x t IH]; simpl; [constructor | apply insert_by_key_sorted; exact IH].
Qed.

Lemma insert_by_key_perm {A : Type} (key : A -> string) (x : A) (l : list A) :
  Permutation (insert_by_key key x l) (x :: l).
Proof.
  induction l as [| y t IH]; simpl; [reflexivity |].
  destruct (String.leb (key x) (key y)); [reflexivity |].
  rewrite IH. apply perm_swap.
Qed.

Lemma sorted_perm {A : Type} (key : A -> string) (l : list A) :
  Permutation (sorted key l) l.
Proof.
  induction l as [| x t IH]; simpl; [reflexivity |].
  rewrite insert_by_key_perm. constructor. exact IH.
Qed.

Lemma filter_strongly_sorted {A : Type} (R : A -> A -> Prop) (f : A -> bool) (l : list A) :
  StronglySorted R l -> StronglySorted R (filter f l).
Proof.
  induction 1 as [| x t Ht IH Hx]; simpl; [constructor |].
  destruct (f x); [| exact IH].
  constructor; [exact IH |].
  rewrite Forall_forall in *. intros y Hy. apply filter_In in Hy. apply Hx, Hy.
Qed.

Lemma filter_perm {A : Type} (f : A -> bool) (l l' : list A) :
  Permutation l l' -> Permutation (filter f l) (filter f l').
Proof.
  induction 1 as [| a l l' Hl IH | a b l | l l' l'' H1 IH1 H2 IH2]; simpl.
  - constructor.
  - destruct (f a); [constructor |]; assumption.
  - destruct (f a), (f b); try reflexivity. apply perm_swap.
  - etransitivity; eassumption.
Qed.

(** X3. With [sort] set, [get_host_ids_by_group_ids] returns the ids of the
    same hosts as without it, in ascending order of the host names (byte by
    byte, so numbers in names need their leading zeros): whenever it returns
    without [sort], it returns with [sort] the ids of a rearrangement of the
    same hosts that is sorted by name. *)
Theorem get_host_ids_by_group_ids_sorted (group_ids : list ident) (w : world) :
  host_get (remote w) group_ids <> [] ->
  exists hs,
    fst (get_host_ids_by_group_ids group_ids true w) = Ret (map hostid hs)
    /\ StronglySorted by_name hs
    /\ Permutation hs (filter (in_all_groups group_ids) (host_get (remote w) group_ids))
    /\ fst (get_host_ids_by_group_ids group_ids false w)
       = Ret (map hostid (filter (in_all_groups group_ids)
                                 (host_get (remote w) group_ids))).
Proof.
  intros Hne. rewrite !get_host_ids_by_group_ids_run.
  destruct (host_get (remote w) group_ids) as [| h0 hl] eqn:Hget; [congruence |].
  exists (filter (in_all_groups group_ids) (sorted host_name (h0 :: hl))).
  split; [reflexivity |]. split; [| split; [| reflexivity]].
  - apply filter_strongly_sorted, sorted_is_sorted.
  - apply filter_perm, sorted_perm.
Qed.

Lemma get_host_ids_by_group_ids_sorted_witness :
  exists hs,
    fst (get_host_ids_by_group_ids ["2"; "4"] true example_world) = Ret (map hostid hs)
    /\ StronglySorted by_name hs
    /\ Permutation hs (filter (in_all_groups ["2"; "4"])
                              (host_get example_server ["2"; "4"]))
    /\ fst (get_host_ids_by_group_ids ["2"; "4"] false example_world)
       = Ret (map hostid (filter (in_all_groups ["2"; "4"])
                                 (host_get example_server ["2"; "4"]))).
Proof.
  apply (get_host_ids_by_group_ids_sorted ["2"; "4"] example_world).
  vm_compute. discriminate.
Defined.

(** ** A screen of the name is found *)

Lemma prefix_refl (s : string) : String.prefix s s = true.
Proof.
  induction s as [| a s IH]; simpl; [reflexivity |].
  destruct (ascii_dec a a); [exact IH | congruence].
Qed.

Lemma contains_refl (s : string) : contains s s = true.
Proof.
  destruct s as [| a s]; [reflexivity |].
  change (contains (String a s) (String a s))
    with (String.prefix (String a s) (String a s) || contains (String a s) s)%bool.
  rewrite prefix_refl. reflexivity.
Qed.

Lemma search_refl (s : string) : search s s = true.
Proof. unfold search. apply contains_refl. Qed.

(** X4. [get_screen_id] never misses a screen of the requested name: when
    the server holds one, the lookup returns an id, and the id it returns is
    that of a screen whose name contains the requested name (upper and lower
    case taken as equal); it returns [None] only when the server holds no
    screen of that name. *)
Theorem get_screen_id_finds_the_name (name : string) (w : world) :
  name <> "" ->
  (forall s, In s (screens (remote w)) -> screen_name s = name ->
             exists s', In s' (screens (remote w))
                        /\ search name (screen_name s') = true
                        /\ fst (get_screen_id name w) = Ret (Some (screenid s')))
  /\ (fst (get_screen_id name w) = Ret None ->
      forall s, In s (screens (remote w)) -> screen_name s <> name).
Proof.
  intros Hname. rewrite get_screen_id_run by assumption. simpl fst.
  assert (Hhit : forall s, In s (screens (remote w)) -> screen_name s = name ->
                           In s (screen_get (remote w) name)).
  { intros s Hin Hs. unfold screen_get. apply filter_In. split; [assumption |].
    rewrite Hs. apply search_refl. }
  split.
  - intros s Hin Hs. specialize (Hhit s Hin Hs).
    destruct (screen_get (remote w) name) as [| s' l] eqn:Hget; [contradiction |].
    exists s'. assert (Hs' : In s' (screen_get (remote w) name)).
    { rewrite Hget. left. reflexivity. }
    unfold screen_get in Hs'. apply filter_In in Hs'. destruct Hs' as [Hin' Hm].
    repeat split; assumption.
  - intros Hnone s Hin Hs. specialize (Hhit s Hin Hs).
    destruct (screen_get (remote w) name); [contradiction | discriminate].
Qed.

Lemma get_screen_id_finds_the_name_witness :
  (forall s, In s (screens example_server) -> screen_name s = "Dash" ->
             exists s', In s' (screens example_server)
                        /\ search "Dash" (screen_name s') = true
                        /\ fst (get_screen_id "Dash" example_world)
                           = Ret (Some (screenid s')))
  /\ (fst (get_screen_id "Dash" example_world) = Ret None ->
      forall s, In s (screens example_server) -> screen_name s <> "Dash").
Proof.
  apply (get_screen_id_finds_the_name "Dash" example_world). discriminate.
Defined.

(** Without a name the lookup fails before it asks the server. *)
Lemma get_screen_id_empty_name (w : world) :
  get_screen_id "" w = (FailJson (Msg "screen_name is required"), w).
Proof. reflexivity. Qed.

(** ** The items fit the screen *)

Lemma in_enumerate_from {A : Type} (l : list A) :
  forall (k i : Z) (a : A), In (i, a) (enumerate_from k l) -> k <= i < k + len l.
Proof.
  induction l as [| b t IH]; intros k i a Hin; simpl in Hin; [contradiction |].
  unfold len in *. simpl List.length. destruct Hin as [Heq | Hin].
  - inversion Heq. subst. lia.
  - apply IH in Hin. lia.
Qed.

Lemma max_graphs_bound (r : server) (names : list string) (hs : list ident) :
  forall (v : Z) (host : ident),
    In host hs -> len (resolved_graphs r names host) <= max_graphs r names hs v.
Proof.
  induction hs as [| h t IH]; intros v host Hin; simpl in *; [contradiction |].
  destruct Hin as [-> | Hin].
  - pose proof (max_graphs_ge r names t (Z.max v (len (resolved_graphs r names host)))).
    lia.
  - apply IH. assumption.
Qed.

Lemma single_host_items_in_grid (screen_id : ident) (wd ht h v : Z) (l : list ident) :
  1 <= h -> len l <= v ->
  Forall (in_grid h ((v - 1) / h + 1)) (single_host_items screen_id wd ht h l).
Proof.
  intros Hh Hv. unfold single_host_items. rewrite Forall_forall.
  intros d Hd. apply in_map_iff in Hd. destruct Hd as ([i g] & <- & Hin).
  apply in_enumerate_from in Hin. unfold in_grid. simpl.
  split; [apply Z.mod_pos_bound; lia |].
  pose proof (Z.div_pos i h ltac:(lia) ltac:(lia)).
  pose proof (Z.div_le_mono i (v - 1) h ltac:(lia) ltac:(lia)). lia.
Qed.

Lemma host_items_in_grid (screen_id : ident) (wd ht b i columns rows : Z)
    (l : list ident) :
  0 <= i mod b < columns ->
  (forall j, 0 <= j < len l -> 0 <= len l * (i / b) + j < rows) ->
  Forall (in_grid columns rows) (host_items screen_id wd ht b i l).
Proof.
  intros Hx Hy. unfold host_items. rewrite Forall_forall.
  intros d Hd. apply in_map_iff in Hd. destruct Hd as ([j g] & <- & Hin).
  apply in_enumerate_from in Hin. unfold in_grid. simpl. split; [exact Hx |].
  apply Hy. lia.
Qed.

Lemma multi_host_items_in_grid (r : server) (screen_id : ident) (wd ht b v : Z)
    (names : list string) (hs : list ident) :
  1 <= b -> len hs <> 1 -> 1 <= v ->
  (forall host, In host hs -> len (resolved_graphs r names host) <= v) ->
  Forall (in_grid (if len hs >? b then b else len hs)
                  (if len hs >? b then (len hs / b + 1) * v else v))
         (multi_host_items r screen_id wd ht b names hs).
Proof.
  intros Hb H1 Hv Hcount. unfold multi_host_items. rewrite Forall_forall.
  intros d Hd. apply in_flat_map in Hd. destruct Hd as ([i host] & Hin & Hd).
  pose proof (in_enumerate_from hs 0 i host Hin) as Hi.
  assert (Hhost : In host hs).
  { clear - Hin. unfold enumerate in Hin. revert Hin. generalize 0.
    induction hs as [| a t IH]; intros k Hin; simpl in Hin; [contradiction |].
    destruct Hin as [Heq | Hin]; [inversion Heq; left; reflexivity | right; eauto]. }
  specialize (Hcount host Hhost).
  set (n := len (resolved_graphs r names host)) in *.
  revert d Hd. apply Forall_forall. apply host_items_in_grid.
  - destruct (Z.gtb_spec (len hs) b).
    + apply Z.mod_pos_bound. lia.
    + rewrite Z.mod_small by lia. lia.
  - intros j Hj. fold n in Hj.
    destruct (Z.gtb_spec (len hs) b).
    + pose proof (Z.div_pos i b ltac:(lia) ltac:(lia)) as Hq0.
      pose proof (Z.div_le_mono i (len hs) b ltac:(lia) ltac:(lia)) as Hq.
      split; [nia |].
      assert (n * (i / b) + j < n * (i / b + 1)) by lia.
      assert (n * (i / b + 1) <= v * (len hs / b + 1)) by nia.
      lia.
    + rewrite Z.div_small by lia. lia.
Qed.

(** X5. The items fit the screen.  For at least one host and a positive
    [graphs_in_row], the size [get_hsize_vsize] computes from the [vsize] of
    [get_graph_ids] is such that every item [create_screen_items] then
    creates (on a server with the same graphs) lies inside it:
    [0 <= x < hsize] and [0 <= y < vsize]. *)
Theorem items_fit_the_screen (screen_id : ident) (hs : list ident) (names : list string)
    (graph_width graph_height : option Z) (b : Z) (w w' : world) :
  hs <> [] -> 1 <= b -> graphs (remote w') = graphs (remote w) ->
  exists graph_ids v0 w1 h v w2 new_items,
    get_graph_ids hs (Some names) w = (Ret (graph_ids, v0), w1)
    /\ get_hsize_vsize hs v0 b w1 = (Ret (h, v), w1)
    /\ create_screen_items screen_id hs (Some names) graph_width graph_height h b w'
       = (Ret tt, w2)
    /\ created_items (calls w2) = created_items (calls w') ++ new_items
    /\ Forall (in_grid h v) new_items.
Proof.
  intros Hne Hb Hgraphs. rewrite get_graph_ids_run.
  set (v0 := max_graphs (remote w) names hs 1).
  assert (Hv0 : 1 <= v0) by apply max_graphs_ge.
  assert (Hcount : forall host, In host hs ->
                                len (resolved_graphs (remote w') names host) <= v0).
  { intros host Hin. rewrite (resolved_graphs_ext _ _ names host Hgraphs).
    apply max_graphs_bound. assumption. }
  assert (Hlen : 1 <= len hs).
  { destruct hs; [congruence | unfold len; simpl; lia]. }
  destruct (Z.eq_dec (len hs) 1) as [H1 | H1].
  - destruct (len_one hs H1) as (host & ->).
    assert (Hh : Z.min v0 b <> 0) by lia.
    destruct (create_screen_items_run screen_id [host] names graph_width graph_height
                (Z.min v0 b) b w' Hh ltac:(lia)) as (w2 & Hrun & Hcreated).
    do 7 eexists. split; [reflexivity |].
    split; [apply get_hsize_vsize_single; [reflexivity | lia | lia] |].
    unfold single_host_layout.
    split; [exact Hrun |]. split; [exact Hcreated |].
    rewrite ceil_div_pos by lia.
    apply single_host_items_in_grid; [lia |]. apply Hcount. left. reflexivity.
  - pose proof (multi_host_items_in_grid (remote w') screen_id
                  (cell_width (len hs) graph_width) (cell_height graph_height)
                  b v0 names hs Hb H1 Hv0 Hcount) as Hgrid.
    destruct (Z.gtb_spec (len hs) b) as [Hgt | Hle].
    + destruct (create_screen_items_run screen_id hs names graph_width graph_height
                  b b w' ltac:(lia) ltac:(lia)) as (w2 & Hrun & Hcreated).
      do 7 eexists. split; [reflexivity |].
      split; [apply get_hsize_vsize_many; lia |].
      split; [exact Hrun |]. split; [exact Hcreated |].
      destruct hs as [| a [| a' t]]; try exact Hgrid. exfalso. apply H1. reflexivity.
    + destruct (create_screen_items_run screen_id hs names graph_width graph_height
                  (len hs) b w' ltac:(lia) ltac:(lia)) as (w2 & Hrun & Hcreated).
      do 7 eexists. split; [reflexivity |].
      split; [apply get_hsize_vsize_few; lia |].
      split; [exact Hrun |]. split; [exact Hcreated |].
      destruct hs as [| a [| a' t]]; try exact Hgrid. exfalso. apply H1. reflexivity.
Qed.

Lemma items_fit_the_screen_witness :
  exists graph_ids v0 w1 h v w2 new_items,
    get_graph_ids ["10"; "11"; "13"] (Some ["cpu"; "mem"]) example_world
    = (Ret (graph_ids, v0), w1)
    /\ get_hsize_vsize ["10"; "11"; "13"] v0 2 w1 = (Ret (h, v), w1)
    /\ create_screen_items "9" ["10"; "11"; "13"] (Some ["cpu"; "mem"]) None None h 2
                           example_world = (Ret tt, w2)
    /\ created_items (calls w2) = created_items (calls example_world) ++ new_items
    /\ Forall (in_grid h v) new_items.
Proof.
  apply (items_fit_the_screen "9" ["10"; "11"; "13"] ["cpu"; "mem"] None None 2
           example_world example_world); [discriminate | lia | reflexivity].
Defined.

(** ** The change flag *)

Lemma delete_screen_items_dry_run (screen_id : ident) (w : world) :
  let items := screenitem_get (remote w) screen_id in
  delete_screen_items true screen_id (map screenitemid items) w
  = match items with
    | [] => (Ret true, w)
    | _ :: _ => (ExitJson true None, log w [ScreenitemGet screen_id])
    end.
Proof.
  cbv zeta. destruct (screenitem_get (remote w) screen_id) as [| i t] eqn:Hitems.
  - reflexivity.
  - unfold delete_screen_items.
    assert (Hlen : (len (map screenitemid (i :: t)) =? 0) = false).
    { apply Z.eqb_neq. unfold len. simpl. lia. }
    rewrite Hlen. unfold get_screen_items. rewrite bind_run, zapi_read_run, Hitems.
    reflexivity.
Qed.

Lemma calls_extend {A : Type} (m : M A) (w : world) :
  emits (fun _ => True) m w -> exists t, calls (snd (m w)) = calls w ++ t.
Proof. intros (t & Hc & _). exists t. exact Hc. Qed.

Lemma create_screen_items_calls (screen_id : ident) (hs : list ident)
    (graph_name_list : option (list string)) (width height : option Z)
    (h_size b : Z) (w : world) :
  exists t,
    calls (snd (create_screen_items screen_id hs graph_name_list width height h_size b w))
    = calls w ++ t.
Proof.
  apply calls_extend. apply emits_create_screen_items; [intros c _ | intros]; exact I.
Qed.

Lemma reported_app (created changed deleted : list string) (name : string) :
  reported (created ++ [name], changed, deleted) = S (reported (created, changed, deleted))
  /\ reported (created, changed ++ [name], deleted)
     = S (reported (created, changed, deleted))
  /\ reported (created, changed, deleted ++ [name])
     = S (reported (created, changed, deleted)).
Proof. unfold reported. rewrite !length_app. simpl. lia. Qed.

Lemma exists_write_middle (t1 t2 : list call) (c : call) :
  is_write c = true -> Exists (fun c => is_write c = true) (t1 ++ c :: t2).
Proof. intros Hc. apply Exists_app. right. left. exact Hc. Qed.

Lemma create_screen_real (name : string) (h v : Z) (w : world) :
  create_screen false name h v w
  = (Ret (fresh (remote w)),
     {| remote := fst (screen_create (remote w) name h v);
        calls := calls w ++ [ScreenCreate name h v] |}).
Proof. reflexivity. Qed.

Lemma create_screen_dry (name : string) (h v : Z) (w : world) :
  create_screen true name h v w = (ExitJson true None, w).
Proof. reflexivity. Qed.

(** One step of lines 434-454 that returns: either nothing was to be done,
    only reads were issued and a dry run does the same; or a screen entered
    the report, a write was issued and a dry run exits with [changed]. *)
Lemma reconcile_step (p : Params.t) (o : option ident) (hs graph_ids : list ident)
    (h_size v_size : Z) (acc acc' : report) (w w' : world) :
  reconcile false p o hs graph_ids h_size v_size acc w = (Ret acc', w') ->
  (acc' = acc
   /\ (exists t, w' = log w t /\ reads_only t)
   /\ reconcile true p o hs graph_ids h_size v_size acc w = (Ret acc, w'))
  \/ (reported acc' = S (reported acc)
      /\ (exists t, calls w' = calls w ++ t /\ Exists (fun c => is_write c = true) t)
      /\ exists w'', reconcile true p o hs graph_ids h_size v_size acc w
                     = (ExitJson true None, w'')).
Proof.
  destruct acc as [[created changed] deleted]. unfold reconcile.
  destruct (truthy o) as [screen_id |].
  - unfold get_screen_items. rewrite !bind_run, !zapi_read_run. cbv zeta.
    set (items := screenitem_get (remote w) screen_id).
    destruct (ids_eqb graph_ids (map (fun i => resourceid (data i)) items));
      cbn [negb].
    + intros H. inversion H; subst. left. split; [reflexivity |].
      split; [| reflexivity]. exists [ScreenitemGet screen_id].
      split; [reflexivity | repeat constructor].
    + pose proof (delete_screen_items_run screen_id (log w [ScreenitemGet screen_id]))
        as Hreal.
      pose proof (delete_screen_items_dry_run screen_id (log w [ScreenitemGet screen_id]))
        as Hdry.
      cbv zeta in Hreal, Hdry. rewrite remote_log in Hreal, Hdry.
      fold items in Hreal, Hdry.
      rewrite !bind_run, Hreal, Hdry.
      destruct items as [| i0 il] eqn:Hitems.
      * unfold update_screen at 1. unfold zapi_write at 1.
        rewrite bind_run. cbv beta iota zeta. rewrite bind_run.
        match goal with
        | |- context [create_screen_items ?a ?b ?c ?d ?e ?f ?g ?w0] =>
            destruct (create_screen_items_calls a b c d e f g w0) as (t4 & Ht4);
            destruct (create_screen_items a b c d e f g w0) as [[[] | ? | ? ? | ?] w4]
        end; try discriminate.
        intros H. inversion H; subst. right.
        split; [apply reported_app |]. split.
        -- exists ([ScreenitemGet screen_id] ++ ScreenUpdate screen_id h_size v_size :: t4).
           split; [| apply exists_write_middle; reflexivity].
           simpl in Ht4. rewrite Ht4. rewrite <- !app_assoc. reflexivity.
        -- eexists. reflexivity.
      * unfold update_screen at 1. unfold zapi_write at 1.
        rewrite bind_run. cbv beta iota zeta. rewrite bind_run.
        match goal with
        | |- context [create_screen_items ?a ?b ?c ?d ?e ?f ?g ?w0] =>
            destruct (create_screen_items_calls a b c d e f g w0) as (t4 & Ht4);
            destruct (create_screen_items a b c d e f g w0) as [[[] | ? | ? ? | ?] w4]
        end; try discriminate.
        intros H. inversion H; subst. right.
        split; [apply reported_app |]. split.
        -- exists ([ScreenitemGet screen_id;
                    ScreenitemGet screen_id;
                    ScreenitemDelete (map screenitemid (i0 :: il))]
                   ++ ScreenUpdate screen_id h_size v_size :: t4).
           split; [| apply exists_write_middle; reflexivity].
           simpl in Ht4. rewrite Ht4. simpl. rewrite <- !app_assoc. reflexivity.
        -- eexists. reflexivity.
  - rewrite (bind_run (create_screen false _ _ _)), create_screen_real.
    rewrite (bind_run (create_screen true _ _ _)), create_screen_dry.
    rewrite (bind_run (create_screen_items _ _ _ _ _ _ _)).
    match goal with
    | |- context [create_screen_items ?a ?b ?c ?d ?e ?f ?g ?w0] =>
        destruct (create_screen_items_calls a b c d e f g w0) as (t4 & Ht4);
        destruct (create_screen_items a b c d e f g w0) as [[[] | ? | ? ? | ?] w4]
    end; try discriminate.
    intros H. inversion H; subst. right.
    split; [apply reported_app |]. split.
    + exists ([] ++ ScreenCreate (Params.screen_name p) h_size v_size :: t4).
      split; [| apply exists_write_middle; reflexivity].
      simpl in Ht4. rewrite Ht4. rewrite <- app_assoc. reflexivity.
    + eexists. reflexivity.
Qed.

Lemma delete_screen_real (screen_id : ident) (name : string) (w : world) :
  delete_screen false screen_id name w
  = (Ret tt, {| remote := screen_delete (remote w) [screen_id];
                calls := calls w ++ [ScreenDelete [screen_id]] |}).
Proof. reflexivity. Qed.

Lemma delete_screen_dry (screen_id : ident) (name : string) (w : world) :
  delete_screen true screen_id name w = (ExitJson true None, w).
Proof. reflexivity. Qed.

(** One screen of the loop of [main], when the real run returns from it. *)
Lemma process_screen_step (p : Params.t) (acc acc' : report) (w w' : world) :
  process_screen false acc p w = (Ret acc', w') ->
  (acc' = acc
   /\ (exists t, w' = log w t /\ reads_only t)
   /\ process_screen true acc p w = (Ret acc, w'))
  \/ (reported acc' = S (reported acc)
      /\ (exists t, calls w' = calls w ++ t /\ Exists (fun c => is_write c = true) t)
      /\ exists w'', process_screen true acc p w = (ExitJson true None, w'')).
Proof.
  destruct acc as [[created changed] deleted]. unfold process_screen.
  rewrite !(bind_run (get_screen_id _)).
  destruct (get_screen_id (Params.screen_name p) w) as [[o | ? | ? ? | ?] w1] eqn:Hlookup;
    try discriminate.
  apply get_screen_id_inv in Hlookup. destruct Hlookup as (_ & -> & _).
  destruct (Params.state p).
  - destruct (truthy o) as [screen_id |].
    + unfold get_screen_items.
      rewrite !(bind_run (zapi_read _ _)), !zapi_read_run, log_log, remote_log.
      simpl app.
      pose proof (delete_screen_items_run screen_id
                    (log w [ScreenGet (Params.screen_name p); ScreenitemGet screen_id]))
        as Hreal.
      pose proof (delete_screen_items_dry_run screen_id
                    (log w [ScreenGet (Params.screen_name p); ScreenitemGet screen_id]))
        as Hdry.
      cbv zeta in Hreal, Hdry. rewrite remote_log in Hreal, Hdry.
      rewrite (bind_run (delete_screen_items false _ _)), Hreal.
      rewrite (bind_run (delete_screen_items true _ _)), Hdry.
      destruct (screenitem_get (remote w) screen_id) as [| i0 il].
      * rewrite (bind_run (delete_screen false _ _)), delete_screen_real.
        rewrite (bind_run (delete_screen true _ _)), delete_screen_dry.
        intros H. inversion H; subst. right.
        split; [apply reported_app |]. split; [| eexists; reflexivity].
        exists ([ScreenGet (Params.screen_name p); ScreenitemGet screen_id]
                ++ ScreenDelete [screen_id] :: []).
        split; [| apply exists_write_middle; reflexivity].
        simpl. rewrite <- app_assoc. reflexivity.
      * rewrite (bind_run (delete_screen false _ _)), delete_screen_real.
        intros H. inversion H; subst. right.
        split; [apply reported_app |]. split; [| eexists; reflexivity].
        exists ([ScreenGet (Params.screen_name p); ScreenitemGet screen_id;
                 ScreenitemGet screen_id;
                 ScreenitemDelete (map screenitemid (i0 :: il))]
                ++ ScreenDelete [screen_id] :: []).
        split; [| apply exists_write_middle; reflexivity].
        simpl. rewrite <- !app_assoc. reflexivity.
    + intros H. inversion H; subst. left. split; [reflexivity |].
      split; [| reflexivity]. eexists. split; [reflexivity | repeat constructor].
  - rewrite !(bind_run (resolve p)).
    destruct (emits_log (resolve p) (log w [ScreenGet (Params.screen_name p)]))
      as (t2 & Hw2 & Hreads).
    { apply emits_resolve. intros c Hc. exact Hc. }
    destruct (resolve p (log w [ScreenGet (Params.screen_name p)]))
      as [[[[[hs graph_ids] h_size] v_size] | ? | ? ? | ?] w2]; try discriminate.
    simpl in Hw2. subst w2. rewrite log_log.
    intros H. apply reconcile_step in H.
    destruct H as [(Hacc & (t & Hw & Hr) & Hdry) | (Hrep & (t & Hc & Hex) & w'' & Hdry)].
    + left. split; [assumption |]. split; [| assumption].
      exists (([ScreenGet (Params.screen_name p)] ++ t2) ++ t).
      split; [rewrite Hw, log_log; reflexivity |].
      apply Forall_app. split; [| assumption].
      apply Forall_app. split; [repeat constructor | assumption].
    + right. split; [assumption |]. split; [| exists w''; assumption].
      exists (([ScreenGet (Params.screen_name p)] ++ t2) ++ t).
      split; [rewrite Hc, calls_log, <- !app_assoc; reflexivity |].
      apply Exists_app. right. assumption.
Qed.

Lemma loop_step (screens : list Params.t) :
  forall (acc acc' : report) (w w' : world),
    for_fold screens acc (process_screen false) w = (Ret acc', w') ->
    (acc' = acc
     /\ (exists t, w' = log w t /\ reads_only t)
     /\ for_fold screens acc (process_screen true) w = (Ret acc, w'))
    \/ ((reported acc < reported acc')%nat
        /\ (exists t, calls w' = calls w ++ t /\ Exists (fun c => is_write c = true) t)
        /\ exists w'', for_fold screens acc (process_screen true) w
                       = (ExitJson true None, w'')).
Proof.
  induction screens as [| p rest IH]; intros acc acc' w w'.
  - simpl. unfold ret. intros H. inversion H; subst. left.
    split; [reflexivity |]. split; [| reflexivity].
    exists []. split; [rewrite log_nil; reflexivity | constructor].
  - rewrite !for_fold_cons, !bind_run.
    destruct (process_screen false acc p w) as [[acc1 | ? | ? ? | ?] w1] eqn:Hstep;
      try discriminate.
    intros Hrest. apply process_screen_step in Hstep. apply IH in Hrest.
    destruct Hstep as [(-> & (t1 & -> & Hr1) & Hdry1)
                      | (Hrep1 & (t1 & Hc1 & Hex1) & w1' & Hdry1)].
    + rewrite Hdry1.
      destruct Hrest as [(-> & (t2 & -> & Hr2) & Hdry2)
                        | (Hrep2 & (t2 & Hc2 & Hex2) & w2' & Hdry2)].
      * left. split; [reflexivity |]. split; [| assumption].
        exists (t1 ++ t2). split; [apply log_log | apply Forall_app; auto].
      * right. split; [assumption |]. split; [| exists w2'; assumption].
        exists (t1 ++ t2). split; [rewrite Hc2, calls_log, app_assoc; reflexivity |].
        apply Exists_app. right. assumption.
    + rewrite Hdry1. right.
      assert (Hcalls : exists t2, calls w' = calls w1 ++ t2).
      { destruct Hrest as [(_ & (t2 & -> & _) & _) | (_ & (t2 & Hc2 & _) & _)];
          exists t2; [apply calls_log | assumption]. }
      assert (Hmono : (reported acc1 <= reported acc')%nat).
      { destruct Hrest as [(-> & _) | (Hlt & _)]; lia. }
      destruct Hcalls as (t2 & Hc2).
      split; [lia |]. split; [| exists w1'; reflexivity].
      exists (t1 ++ t2). split; [rewrite Hc2, Hc1, app_assoc; reflexivity |].
      apply Exists_app. left. assumption.
Qed.

Lemma reads_have_no_write (t : list call) :
  reads_only t -> ~ Exists (fun c => is_write c = true) t.
Proof.
  intros Hr Hex. apply Exists_exists in Hex. destruct Hex as (c & Hin & Hw).
  unfold reads_only in Hr. rewrite Forall_forall in Hr. apply Hr in Hin. congruence.
Qed.

Lemma never_exits_ret {A : Type} (a : A) : never_exits (ret a).
Proof. intros w c r w'. discriminate. Qed.

Lemma never_exits_fail_json {A : Type} (msg : message) : never_exits (@fail_json A msg).
Proof. intros w c r w'. discriminate. Qed.

Lemma never_exits_raise {A : Type} (e : exn) : never_exits (@raise A e).
Proof. intros w c r w'. discriminate. Qed.

Lemma never_exits_read {A : Type} (c : call) (f : server -> A) :
  never_exits (zapi_read c f).
Proof. intros w c' r w'. discriminate. Qed.

Lemma never_exits_write {A : Type} (c : call) (f : server -> server * A) :
  never_exits (zapi_write c f).
Proof.
  intros w c' r w'. unfold zapi_write. destruct (f (remote w)). discriminate.
Qed.

Lemma never_exits_bind {A B : Type} (m : M A) (k : A -> M B) :
  never_exits m -> (forall a, never_exits (k a)) -> never_exits (bind m k).
Proof.
  intros Hm Hk w c r w'. rewrite bind_run.
  destruct (m w) as [[a | ? | c0 r0 | ?] w1] eqn:Hrun; try discriminate.
  - apply Hk.
  - exfalso. exact (Hm w c0 r0 w1 Hrun).
Qed.

Lemma never_exits_for_fold {A S : Type} (body : S -> A -> M S) (l : list A) :
  (forall acc x, never_exits (body acc x)) -> forall acc, never_exits (for_fold l acc body).
Proof.
  intros Hbody. induction l as [| x t IH]; intros acc.
  - apply never_exits_ret.
  - rewrite for_fold_cons. apply never_exits_bind; [apply Hbody | apply IH].
Qed.

Ltac never_exits_step :=
  first
    [ apply never_exits_ret | apply never_exits_fail_json | apply never_exits_raise
    | apply never_exits_read | apply never_exits_write
    | apply never_exits_for_fold; intros
    | apply never_exits_bind; [| intros]
    | match goal with
      | |- never_exits (match ?x with _ => _ end) => destruct x
      | |- never_exits ((match ?x with _ => _ end) _) => destruct x
      end ].

Lemma never_exits_get_graphs_by_host_id (graph_name_list : option (list string))
    (host_id : ident) :
  never_exits (get_graphs_by_host_id graph_name_list host_id).
Proof. unfold get_graphs_by_host_id. repeat never_exits_step. Qed.

Lemma never_exits_create_screen_items (screen_id : ident) (hs : list ident)
    (graph_name_list : option (list string)) (width height : option Z) (h_size b : Z) :
  never_exits (create_screen_items screen_id hs graph_name_list width height h_size b).
Proof.
  unfold create_screen_items, for_each, modulo, floordiv, ScreenItem_create. cbv zeta.
  repeat first [apply never_exits_get_graphs_by_host_id | never_exits_step].
Qed.

Lemma never_exits_resolve (p : Params.t) : never_exits (resolve p).
Proof.
  unfold resolve, resolve_hosts, get_host_group_ids, get_host_ids_by_group_ids,
    get_graph_ids, get_hsize_vsize, floordiv.
  cbv zeta.
  repeat first [apply never_exits_get_graphs_by_host_id | never_exits_step].
Qed.

(** Outside check mode nothing in the loop of [main] calls [exit_json]. *)
Lemma never_exits_process_screen (acc : report) (p : Params.t) :
  never_exits (process_screen false acc p).
Proof.
  unfold process_screen, reconcile, get_screen_id, get_screen_items,
    delete_screen_items, delete_screen, update_screen, create_screen, ScreenItem_delete.
  destruct acc as [[created changed] deleted]. cbv zeta.
  repeat first [apply never_exits_resolve | apply never_exits_create_screen_items
               | never_exits_step].
Qed.

(** The end of [main]: [changed] unless the report is empty. *)
Lemma exit_report (created_screens changed_screens deleted_screens : list string)
    (w : world) :
  exists result,
    match created_screens, changed_screens, deleted_screens with
    | _ :: _, _ :: _, _ =>
        exit_json true
          (Some ("Successfully created screen(s): " ++ join created_screens
                 ++ ", and updated screen(s): " ++ join changed_screens)%string)
    | _ :: _, [], _ =>
        exit_json true
          (Some ("Successfully created screen(s): " ++ join created_screens)%string)
    | [], _ :: _, _ =>
        exit_json true
          (Some ("Successfully updated screen(s): " ++ join changed_screens)%string)
    | [], [], _ :: _ =>
        exit_json true
          (Some ("Successfully deleted screen(s): " ++ join deleted_screens)%string)
    | [], [], [] => exit_json false None
    end w
    = (@ExitJson unit
         (negb (Nat.eqb (reported (created_screens, changed_screens, deleted_screens)) 0))
         result, w)
    /\ (reported (created_screens, changed_screens, deleted_screens) = 0%nat ->
        result = None).
Proof.
  destruct created_screens, changed_screens, deleted_screens;
    eexists; (split; [reflexivity | simpl; intros; try reflexivity; lia]).
Qed.

(** X6. The [changed] flag of a real run tells the truth: when [main] ends
    with [exit_json], it reports [changed=True] exactly when it issued a
    write, and when it reports [changed=False] the server is as it was. *)
Theorem changed_flag_is_truthful (screens : list Params.t) (w w' : world)
    (changed : bool) (result : option string) :
  main false screens w = (ExitJson changed result, w') ->
  exists t,
    calls w' = calls w ++ t
    /\ (changed = true <-> Exists (fun c => is_write c = true) t)
    /\ (changed = false -> remote w' = remote w).
Proof.
  unfold main, zbx_api_version. rewrite bind_run, zapi_read_run.
  destruct (version_ge _ _); [discriminate |].
  rewrite bind_run.
  destruct (for_fold screens ([], [], []) (process_screen false) (log w [ApiinfoVersion]))
    as [[[[created changed'] deleted] | ? | c0 r0 | ?] w2] eqn:Hloop; try discriminate;
    [| exfalso;
       exact (never_exits_for_fold _ screens never_exits_process_screen _ _ _ _ _ Hloop)].
  apply loop_step in Hloop.
  destruct (exit_report created changed' deleted w2) as (r & Hexit & _).
  rewrite Hexit. intros H. inversion H; subst. clear H Hexit.
  destruct Hloop as [(Hacc & (t & -> & Hr) & _) | (Hrep & (t & Hc & Hex) & _)].
  - inversion Hacc; subst. simpl.
    exists ([ApiinfoVersion] ++ t). split; [rewrite <- app_assoc; reflexivity |].
    split; [| reflexivity]. split; [discriminate |].
    intros Hex. exfalso. apply Exists_app in Hex. destruct Hex as [Hex | Hex].
    + inversion Hex as [? ? Hw | ? ? Hw]; [discriminate | inversion Hw].
    + exact (reads_have_no_write t Hr Hex).
  - unfold reported in *. simpl in Hrep.
    destruct (Nat.eqb_spec (List.length created + List.length changed'
                            + List.length deleted) 0) as [Hz | Hnz]; [lia |].
    simpl. exists ([ApiinfoVersion] ++ t).
    split; [rewrite Hc, calls_log, app_assoc; reflexivity |].
    split; [| discriminate].
    split; [intros _; apply Exists_app; right; assumption | reflexivity].
Qed.

(** X7. A dry run reports the change flag of the real run: when the real
    run of [main] ends with [exit_json(changed=c)], the run in check mode,
    started on the same server, ends with [exit_json(changed=c)] as well. *)
Theorem dry_run_reports_the_same_flag (screens : list Params.t) (w w' : world)
    (changed : bool) (result : option string) :
  main false screens w = (ExitJson changed result, w') ->
  fst (main true screens w) = ExitJson changed None.
Proof.
  unfold main, zbx_api_version. rewrite !bind_run, !zapi_read_run.
  destruct (version_ge _ _); [discriminate |].
  rewrite !(bind_run (for_fold _ _ _)).
  destruct (for_fold screens ([], [], []) (process_screen false) (log w [ApiinfoVersion]))
    as [[[[created changed'] deleted] | ? | c0 r0 | ?] w2] eqn:Hloop; try discriminate;
    [| exfalso;
       exact (never_exits_for_fold _ screens never_exits_process_screen _ _ _ _ _ Hloop)].
  apply loop_step in Hloop.
  destruct (exit_report created changed' deleted w2) as (r & Hexit & _).
  rewrite Hexit. intros H. inversion H; subst. clear H Hexit.
  destruct Hloop as [(Hacc & _ & Hdry) | (Hrep & _ & w'' & Hdry)];
    unfold report in Hdry.
  - inversion Hacc; subst. rewrite Hdry. reflexivity.
  - rewrite Hdry. unfold reported in *. simpl in Hrep.
    destruct (Nat.eqb_spec (List.length created + List.length changed'
                            + List.length deleted) 0) as [Hz | Hnz]; [lia |].
    reflexivity.
Qed.

Lemma dry_run_reports_the_same_flag_witness :
  fst (main true [example_params "Dash" absent 3; example_params "New" present 3]
            example_world)
  = ExitJson true None.
Proof.
  exact (dry_run_reports_the_same_flag
           [example_params "Dash" absent 3; example_params "New" present 3]
           example_world
           (snd (main false [example_params "Dash" absent 3;
                             example_params "New" present 3] example_world))
           true
           (Some "Successfully created screen(s): New")
           eq_refl).
Defined.

Lemma changed_flag_is_truthful_witness :
  exists t,
    calls (snd (main false [example_params "Dash" present 3] example_world))
    = calls example_world ++ t
    /\ (false = true <-> Exists (fun c => is_write c = true) t)
    /\ (false = false
        -> remote (snd (main false [example_params "Dash" present 3] example_world))
           = remote example_world).
Proof.
  exact (changed_flag_is_truthful [example_params "Dash" present 3] example_world
           (snd (main false [example_params "Dash" present 3] example_world))
           false None eq_refl).
Defined.

(** ** The screen of the items *)

Lemma owned_by_admits_reads (screen_id : ident) : admits_reads (owned_by screen_id).
Proof. intros c Hc. destruct c; simpl in *; auto; discriminate. Qed.

Lemma emits_reconcile_owned (check_mode : bool) (p : Params.t) (o : option ident)
    (hs graph_ids : list ident) (h_size v_size : Z) (acc : report) (w : world) :
  emits (owned_by match truthy o with
                  | Some screen_id => screen_id
                  | None => fresh (remote w)
                  end)
        (reconcile check_mode p o hs graph_ids h_size v_size acc) w.
Proof.
  unfold reconcile. destruct acc as [[created changed] deleted]. cbv zeta.
  destruct (truthy o) as [screen_id |].
  - pose proof (owned_by_admits_reads screen_id) as HP.
    apply emits_bind; [apply emits_get_screen_items; assumption |].
    intros items w1 _. destruct (negb _); [| apply emits_ret].
    apply emits_bind; [apply emits_delete_screen_items; [assumption | exact I] |].
    intros [|] w2 _; [| apply emits_ret].
    apply emits_bind; [apply emits_update_screen; exact I |].
    intros _ w3 _. apply emits_bind; [| intros; apply emits_ret].
    apply emits_create_screen_items; [assumption | intros; reflexivity].
  - pose proof (owned_by_admits_reads (fresh (remote w))) as HP.
    apply emits_bind; [apply emits_create_screen; exact I |].
    intros screen_id w1 Hcreate.
    assert (Hid : screen_id = fresh (remote w)).
    { destruct check_mode; [discriminate |].
      rewrite create_screen_real in Hcreate. inversion Hcreate. reflexivity. }
    subst screen_id. apply emits_bind; [| intros; apply emits_ret].
    apply emits_create_screen_items; [assumption | intros; reflexivity].
Qed.

(** X8. Every item that one turn of the loop of [main] creates is attached
    to the screen of the turn: to the screen the lookup found, or, when it
    found none, to the screen the turn has just created (whose id is the
    next id of the server). *)
Theorem items_belong_to_the_screen (check_mode : bool) (acc : report) (p : Params.t)
    (w : world) :
  exists t,
    calls (snd (process_screen check_mode acc p w)) = calls w ++ t
    /\ Forall (owned_by
                 match truthy (option_map screenid
                                 (hd_error (screen_get (remote w)
                                                       (Params.screen_name p)))) with
                 | Some screen_id => screen_id
                 | None => fresh (remote w)
                 end) t.
Proof.
  set (owner := match truthy _ with Some s => s | None => fresh (remote w) end).
  pose proof (owned_by_admits_reads owner) as HP.
  cut (emits (owned_by owner) (process_screen check_mode acc p) w).
  { intros (t & Hc & Hall & _). exists t. auto. }
  unfold process_screen. destruct acc as [[created changed] deleted]. cbv zeta.
  apply emits_bind; [apply emits_get_screen_id; assumption |].
  intros o w1 Hlookup. apply get_screen_id_inv in Hlookup.
  destruct Hlookup as (_ & -> & ->).
  destruct (Params.state p).
  - destruct (truthy _) as [screen_id |]; [| apply emits_ret].
    apply emits_bind; [apply emits_get_screen_items; assumption |].
    intros items w2 _.
    apply emits_bind; [apply emits_delete_screen_items; [assumption | exact I] |].
    intros _ w3 _.
    apply emits_bind; [apply emits_delete_screen; exact I | intros; apply emits_ret].
  - apply emits_bind; [apply emits_resolve; assumption |].
    intros [[[hs graph_ids] h_size] v_size] w2 Hresolve.
    destruct (emits_log (resolve p) (log w [ScreenGet (Params.screen_name p)]))
      as (t2 & Hw2 & _).
    { apply emits_resolve. intros c Hc. exact Hc. }
    rewrite Hresolve in Hw2. simpl in Hw2. subst w2.
    pose proof (emits_reconcile_owned check_mode p
                  (option_map screenid
                     (hd_error (screen_get (remote w) (Params.screen_name p))))
                  hs graph_ids h_size v_size (created, changed, deleted)
                  (log (log w [ScreenGet (Params.screen_name p)]) t2)) as Hrec.
    rewrite !remote_log in Hrec. exact Hrec.
Qed.

(** ** A second run *)

Lemma same_inventory_refl (r : server) : same_inventory r r.
Proof. repeat split. Qed.

Lemma same_inventory_sym (r r' : server) : same_inventory r r' -> same_inventory r' r.
Proof. intros (H1 & H2 & H3). repeat split; congruence. Qed.

Lemma same_inventory_trans (r1 r2 r3 : server) :
  same_inventory r1 r2 -> same_inventory r2 r3 -> same_inventory r1 r3.
Proof. intros (H1 & H2 & H3) (H4 & H5 & H6). repeat split; congruence. Qed.

Lemma inventory_only_ret {A : Type} (a : A) : inventory_only (ret a).
Proof. intros w w' H. split; [reflexivity | exact H]. Qed.

Lemma inventory_only_fail_json {A : Type} (msg : message) :
  inventory_only (@fail_json A msg).
Proof. intros w w' H. split; [reflexivity | exact H]. Qed.

Lemma inventory_only_raise {A : Type} (e : exn) : inventory_only (@raise A e).
Proof. intros w w' H. split; [reflexivity | exact H]. Qed.

Lemma inventory_only_read {A : Type} (c : call) (f : server -> A) :
  (forall r r', same_inventory r r' -> f r = f r') -> inventory_only (zapi_read c f).
Proof.
  intros Hf w w' H. rewrite !zapi_read_run. simpl. split; [| exact H].
  f_equal. apply Hf. exact H.
Qed.

Lemma inventory_only_bind {A B : Type} (m : M A) (k : A -> M B) :
  inventory_only m -> (forall a, inventory_only (k a)) -> inventory_only (bind m k).
Proof.
  intros Hm Hk w w' H. rewrite !bind_run. destruct (Hm w w' H) as [Hfst Hsnd].
  destruct (m w) as [[a | ? | ? ? | ?] w1], (m w') as [[a' | ? | ? ? | ?] w1'];
    simpl in Hfst, Hsnd; try discriminate; inversion Hfst; subst;
    try (split; [reflexivity | exact Hsnd]).
  apply Hk. exact Hsnd.
Qed.

Lemma inventory_only_for_fold {A S : Type} (body : S -> A -> M S) (l : list A) :
  (forall acc x, inventory_only (body acc x)) ->
  forall acc, inventory_only (for_fold l acc body).
Proof.
  intros Hbody. induction l as [| x t IH]; intros acc.
  - apply inventory_only_ret.
  - rewrite for_fold_cons. apply inventory_only_bind; [apply Hbody | apply IH].
Qed.

Lemma hostgroup_get_inventory (names : list string) (r r' : server) :
  same_inventory r r' -> hostgroup_get r names = hostgroup_get r' names.
Proof. intros (H & _). unfold hostgroup_get. rewrite H. reflexivity. Qed.

Lemma host_get_inventory (group_ids : list ident) (r r' : server) :
  same_inventory r r' -> host_get r group_ids = host_get r' group_ids.
Proof. intros (_ & H & _). unfold host_get. rewrite H. reflexivity. Qed.

Lemma graph_get_inventory (pattern : string) (host_id : ident) (r r' : server) :
  same_inventory r r' -> graph_get r pattern host_id = graph_get r' pattern host_id.
Proof. intros (_ & _ & H). unfold graph_get. rewrite H. reflexivity. Qed.

Ltac inventory_only_step :=
  first
    [ apply inventory_only_ret | apply inventory_only_fail_json
    | apply inventory_only_raise
    | apply inventory_only_read;
      first [ apply hostgroup_get_inventory | apply host_get_inventory
            | apply graph_get_inventory ]
    | apply inventory_only_for_fold; intros
    | apply inventory_only_bind; [| intros]
    | match goal with
      | |- inventory_only (match ?x with _ => _ end) => destruct x
      | |- inventory_only ((match ?x with _ => _ end) _) => destruct x
      end ].

(** What [resolve] returns depends on the groups, hosts and graphs only. *)
Lemma inventory_only_resolve (p : Params.t) : inventory_only (resolve p).
Proof.
  unfold resolve, resolve_hosts, get_host_group_ids, get_host_ids_by_group_ids,
    get_graph_ids, get_graphs_by_host_id, get_hsize_vsize, floordiv.
  cbv zeta. repeat inventory_only_step.
Qed.

Lemma grows_by_nil (r : server) : grows_by [] r r.
Proof.
  split; [apply same_inventory_refl |]. split; [reflexivity |].
  rewrite app_nil_r. reflexivity.
Qed.

Lemma grows_by_app (d1 d2 : list item_data) (r r1 r2 : server) :
  grows_by d1 r r1 -> grows_by d2 r1 r2 -> grows_by (d1 ++ d2) r r2.
Proof.
  intros (Hi1 & Hs1 & Hd1) (Hi2 & Hs2 & Hd2).
  split; [eapply same_inventory_trans; eassumption |].
  split; [congruence |]. rewrite Hd2, Hd1, app_assoc. reflexivity.
Qed.

Lemma grows_by_create_all (ds : list item_data) :
  forall w, grows_by ds (remote w) (remote (create_all ds w)).
Proof.
  induction ds as [| d t IH]; intros w.
  - apply grows_by_nil.
  - change (d :: t) with ([d] ++ t). rewrite create_all_app.
    apply grows_by_app with (r1 := remote (create_all [d] w)); [| apply IH].
    unfold grows_by, same_inventory, create_all. simpl. rewrite map_app.
    repeat split.
Qed.

Lemma multi_host_loop_effect (screen_id : ident) (wd ht b : Z) (names : list string) :
  b <> 0 ->
  forall (hs : list ident) (i : Z) (w : world),
    exists w',
      for_each (enumerate_from i hs)
               (fun '(i, host) =>
                  graph_id_list <- get_graphs_by_host_id (Some names) host ;;
                  for_each (enumerate graph_id_list) (fun '(j, graph_id) =>
                    x <- modulo i b ;;
                    q <- floordiv i b ;;
                    ScreenItem_create
                      (item screen_id graph_id wd ht x (len graph_id_list * q + j)))) w
      = (Ret tt, w')
      /\ grows_by (flat_map (fun '(i, host) =>
                               host_items screen_id wd ht b i
                                          (resolved_graphs (remote w) names host))
                            (enumerate_from i hs))
                  (remote w) (remote w').
Proof.
  intros Hb hs. induction hs as [| host t IH]; intros i w.
  - exists w. split; [reflexivity | apply grows_by_nil].
  - simpl enumerate_from.
    set (l := resolved_graphs (remote w) names host).
    set (w1 := create_all (host_items screen_id wd ht b i l)
                          (log w (map (fun n => GraphGet n host) names))).
    assert (Hbody :
      (graph_id_list <- get_graphs_by_host_id (Some names) host ;;
       for_each (enumerate graph_id_list) (fun '(j, graph_id) =>
         x <- modulo i b ;;
         q <- floordiv i b ;;
         ScreenItem_create
           (item screen_id graph_id wd ht x (len graph_id_list * q + j)))) w
      = (Ret tt, w1)).
    { rewrite bind_run, get_graphs_by_host_id_run. fold l.
      unfold enumerate.
      rewrite (place_loop_run
                 (fun j g x q => item screen_id g wd ht x (len l * q + j)) i b l Hb).
      reflexivity. }
    destruct (IH (i + 1) w1) as (w' & Hrun & Hgrow).
    assert (Hg1 : grows_by (host_items screen_id wd ht b i l) (remote w) (remote w1)).
    { unfold w1.
      pose proof (grows_by_create_all (host_items screen_id wd ht b i l)
                    (log w (map (fun n => GraphGet n host) names))) as H.
      rewrite remote_log in H. exact H. }
    exists w'. split.
    + erewrite for_each_cons by exact Hbody. exact Hrun.
    + simpl flat_map. fold l. eapply grows_by_app; [exact Hg1 |].
      assert (Hext : forall host',
                 resolved_graphs (remote w1) names host'
                 = resolved_graphs (remote w) names host').
      { intros host'. apply resolved_graphs_ext.
        destruct Hg1 as ((_ & _ & Hgr) & _). congruence. }
      erewrite flat_map_ext; [exact Hgrow |].
      intros [k host']. simpl. rewrite (Hext host'). reflexivity.
Qed.

Lemma map_snd_enumerate_from {A : Type} (l : list A) :
  forall k, map snd (enumerate_from k l) = l.
Proof. induction l as [| a t IH]; intros k; simpl; [| rewrite IH]; reflexivity. Qed.

Lemma resources_of_host_items (screen_id : ident) (wd ht b i : Z) (l : list ident) :
  map resourceid (host_items screen_id wd ht b i l) = l.
Proof.
  unfold host_items. rewrite map_map. rewrite <- (map_snd_enumerate_from l 0) at 2.
  apply map_ext. intros [j g]. reflexivity.
Qed.

Lemma resources_of_single_host_items (screen_id : ident) (wd ht h : Z) (l : list ident) :
  map resourceid (single_host_items screen_id wd ht h l) = l.
Proof.
  unfold single_host_items. rewrite map_map. rewrite <- (map_snd_enumerate_from l 0) at 2.
  apply map_ext. intros [j g]. reflexivity.
Qed.

Lemma flat_map_enumerate_from {A B : Type} (f : A -> list B) (l : list A) :
  forall k, flat_map (fun '(_, a) => f a) (enumerate_from k l) = flat_map f l.
Proof. induction l as [| a t IH]; intros k; simpl; [| rewrite IH]; reflexivity. Qed.

Lemma resources_of_multi_host_items (r : server) (screen_id : ident) (wd ht b : Z)
    (names : list string) (hs : list ident) :
  map resourceid (multi_host_items r screen_id wd ht b names hs)
  = flat_map (resolved_graphs r names) hs.
Proof.
  unfold multi_host_items. rewrite map_flat_map.
  rewrite <- (flat_map_enumerate_from (resolved_graphs r names) hs 0).
  apply flat_map_ext. intros [i host]. apply resources_of_host_items.
Qed.

Lemma owner_of_host_items (screen_id : ident) (wd ht b i : Z) (l : list ident) :
  Forall (fun d => d_screenid d = screen_id) (host_items screen_id wd ht b i l).
Proof.
  unfold host_items. rewrite Forall_forall. intros d Hd.
  apply in_map_iff in Hd. destruct Hd as ([j g] & <- & _). reflexivity.
Qed.

(** What [create_screen_items] does to the server: it adds items of the
    screen, one per resolved graph, host by host, and nothing else. *)
Lemma create_screen_items_effect (screen_id : ident) (hs : list ident)
    (names : list string) (graph_width graph_height : option Z) (h_size b : Z)
    (w : world) :
  h_size <> 0 -> b <> 0 ->
  exists w' ds,
    create_screen_items screen_id hs (Some names) graph_width graph_height h_size b w
    = (Ret tt, w')
    /\ grows_by ds (remote w) (remote w')
    /\ Forall (fun d => d_screenid d = screen_id) ds
    /\ map resourceid ds = flat_map (resolved_graphs (remote w) names) hs.
Proof.
  intros Hh Hb. unfold create_screen_items. cbv zeta.
  set (wd := if len hs <? 4 then _ else _). set (ht := or_default graph_height 100).
  destruct (Z.eqb_spec (len hs) 1) as [H1 | H1].
  - destruct (len_one hs H1) as (host & ->).
    rewrite bind_run, get_graphs_by_host_id_run. unfold enumerate.
    rewrite single_host_loop_run by assumption.
    set (l := resolved_graphs (remote w) names host).
    do 2 eexists. split; [reflexivity |]. split; [| split].
    + pose proof (grows_by_create_all
                    (map (fun '(i, g) => item screen_id g wd ht (i mod h_size) (i / h_size))
                         (enumerate_from 0 l))
                    (log w (map (fun n => GraphGet n host) names))) as H.
      rewrite remote_log in H. exact H.
    + rewrite Forall_forall. intros d Hd. apply in_map_iff in Hd.
      destruct Hd as ([j g] & <- & _). reflexivity.
    + simpl flat_map. rewrite app_nil_r.
      apply (resources_of_single_host_items screen_id wd ht h_size l).
  - destruct (multi_host_loop_effect screen_id wd ht b names Hb hs 0 w)
      as (w' & Hrun & Hgrow).
    exists w'. eexists. split; [exact Hrun |]. split; [exact Hgrow |]. split.
    + rewrite Forall_forall. intros d Hd. apply in_flat_map in Hd.
      destruct Hd as ([i host] & _ & Hd).
      pose proof (owner_of_host_items screen_id wd ht b i
                    (resolved_graphs (remote w) names host)) as Hown.
      rewrite Forall_forall in Hown. auto.
    + apply (resources_of_multi_host_items (remote w) screen_id wd ht b names hs).
Qed.

Lemma get_hsize_vsize_inv (hs : list ident) (v0 b h v : Z) (w w' : world) :
  hs <> [] -> 1 <= v0 ->
  get_hsize_vsize hs v0 b w = (Ret (h, v), w') -> w' = w /\ h <> 0 /\ b <> 0.
Proof.
  intros Hne Hv0. unfold get_hsize_vsize.
  assert (Hlen : 1 <= len hs).
  { destruct hs; [congruence | unfold len; simpl; lia]. }
  destruct (Z.eqb_spec (len hs) 1) as [H1 | H1].
  - rewrite bind_run. unfold floordiv.
    destruct (Z.leb_spec v0 b) as [Hle | Hgt].
    + destruct (Z.eqb_spec v0 0); [lia |]. unfold ret. intros H. inversion H. subst.
      repeat split; lia.
    + destruct (Z.eqb_spec b 0); [discriminate |]. unfold ret. intros H.
      inversion H. subst. auto.
  - destruct (Z.gtb_spec (len hs) b) as [Hgt | Hle].
    + rewrite bind_run. unfold floordiv.
      destruct (Z.eqb_spec b 0); [discriminate |]. unfold ret. intros H.
      inversion H. subst. auto.
    + unfold ret. intros H. inversion H. subst. repeat split; lia.
Qed.

(** What [resolve] has found when it returns. *)
Lemma resolve_inv (p : Params.t) (w w2 : world) (hs graph_ids : list ident) (h v : Z) :
  resolve p w = (Ret (hs, graph_ids, h, v), w2) ->
  exists names t,
    Params.graph_names p = Some names
    /\ graph_ids = flat_map (resolved_graphs (remote w) names) hs
    /\ h <> 0 /\ Params.graphs_in_row p <> 0
    /\ w2 = log w t /\ reads_only t.
Proof.
  intros Hres.
  destruct (emits_log (resolve p) w) as (t & Hw2 & Hreads).
  { apply emits_resolve. intros c Hc. exact Hc. }
  rewrite Hres in Hw2. simpl in Hw2.
  revert Hres. unfold resolve. cbv zeta. rewrite bind_run.
  destruct (emits_log (resolve_hosts (Params.host_group p) (Params.sort p)) w)
    as (t1 & Hw1 & _).
  { apply emits_resolve_hosts. intros c Hc. exact Hc. }
  destruct (resolve_hosts (Params.host_group p) (Params.sort p) w)
    as [[hs' | ? | ? ? | ?] w1] eqn:Hhosts; try discriminate.
  simpl in Hw1. subst w1. apply resolve_hosts_nonempty in Hhosts.
  rewrite bind_run.
  destruct (Params.graph_names p) as [names |] eqn:Hnames.
  - rewrite get_graph_ids_run, remote_log. rewrite bind_run.
    destruct (get_hsize_vsize hs' _ (Params.graphs_in_row p) _)
      as [[[h' v'] | ? | ? ? | ?] w3] eqn:Hsize; try discriminate.
    apply get_hsize_vsize_inv in Hsize; [| assumption | apply max_graphs_ge].
    destruct Hsize as (-> & Hh & Hb).
    unfold ret. intros H. inversion H. subst.
    exists names, t. auto 10.
  - destruct hs' as [| host rest]; [congruence |].
    unfold get_graph_ids. rewrite for_fold_cons, bind_run, bind_run. discriminate.
Qed.

Lemma filter_data {A : Type} (f : item_data -> bool) (g : item_data -> A)
    (l : list screenitem) :
  map (fun i => g (data i)) (filter (fun i => f (data i)) l)
  = map g (filter f (map data l)).
Proof.
  induction l as [| i t IH]; simpl; [reflexivity |].
  destruct (f (data i)); simpl; rewrite IH; reflexivity.
Qed.

Lemma filter_all {A : Type} (f : A -> bool) (l : list A) :
  Forall (fun a => f a = true) l -> filter f l = l.
Proof.
  induction 1 as [| a t Ha _ IH]; simpl; [reflexivity |]. rewrite Ha, IH. reflexivity.
Qed.

(** The resources of a screen after items of its own were added to a server
    that held none of it. *)
Lemma resources_after_growth (ds : list item_data) (r r' : server) (screen_id : ident) :
  grows_by ds r r' ->
  Forall (fun d => d_screenid d = screen_id) ds ->
  screenitem_get r screen_id = [] ->
  resources_of r' screen_id = map resourceid ds.
Proof.
  intros (_ & _ & Hitems) Hown Hnone. unfold resources_of, screenitem_get in *.
  rewrite (filter_data (fun d => String.eqb (d_screenid d) screen_id) resourceid).
  rewrite Hitems, filter_app.
  assert (Hold : filter (fun d => String.eqb (d_screenid d) screen_id)
                        (map data (screenitems r)) = []).
  { pose proof (filter_data (fun d => String.eqb (d_screenid d) screen_id)
                            (fun d => d) (screenitems r)) as H.
    cbv beta in H. rewrite Hnone in H. simpl in H. rewrite map_id in H.
    symmetry. exact H. }
  rewrite Hold. simpl. f_equal. apply filter_all.
  eapply Forall_impl; [| exact Hown]. intros d Hd. simpl in Hd. subst.
  apply String.eqb_refl.
Qed.

Lemma items_gone_after_delete (r : server) (screen_id : ident) :
  screenitem_get (screenitem_delete r (map screenitemid (screenitem_get r screen_id)))
                 screen_id = [].
Proof.
  unfold screenitem_get, screenitem_delete. simpl.
  set (ids := map screenitemid _).
  assert (Hids : forall i, In i (screenitems r) ->
                           String.eqb (d_screenid (data i)) screen_id = true ->
                           mem (screenitemid i) ids = true).
  { intros i Hin Hs. apply mem_In. unfold ids. apply in_map. apply filter_In. auto. }
  clearbody ids. induction (screenitems r) as [| i t IH]; simpl; [reflexivity |].
  destruct (mem (screenitemid i) ids) eqn:Hm; simpl.
  - apply IH. intros j Hj. apply Hids. right. assumption.
  - destruct (String.eqb (d_screenid (data i)) screen_id) eqn:Hs.
    + rewrite (Hids i (or_introl eq_refl) Hs) in Hm. discriminate.
    + apply IH. intros j Hj. apply Hids. right. assumption.
Qed.

Lemma screenitem_get_after_update (r : server) (screen_id id : ident) (h v : Z) :
  screenitem_get (screen_update r id h v) screen_id = screenitem_get r screen_id.
Proof. reflexivity. Qed.

Lemma flat_map_resolved_ext (r r' : server) (names : list string) (hs : list ident) :
  graphs r = graphs r' ->
  flat_map (resolved_graphs r names) hs = flat_map (resolved_graphs r' names) hs.
Proof.
  intros H. apply flat_map_ext. intros host. apply resolved_graphs_ext. exact H.
Qed.

(** The update of a screen that holds no item any more, and the creation of
    its items. *)
Lemma update_then_create (screen_id name : ident) (hs : list ident)
    (names : list string) (graph_width graph_height : option Z) (h v b : Z)
    (out acc' : report) (w w' : world) :
  h <> 0 -> b <> 0 -> screenitem_get (remote w) screen_id = [] ->
  (update_screen false screen_id name h v ;;
   create_screen_items screen_id hs (Some names) graph_width graph_height h b ;;
   ret out) w = (Ret acc', w') ->
  same_inventory (remote w) (remote w')
  /\ resources_of (remote w') screen_id = flat_map (resolved_graphs (remote w) names) hs
  /\ screens (remote w') = screens (screen_update (remote w) screen_id h v).
Proof.
  intros Hh Hb Hnone.
  rewrite (bind_run (update_screen false _ _ _ _)).
  change (update_screen false screen_id name h v w)
    with (Ret tt, {| remote := screen_update (remote w) screen_id h v;
                     calls := calls w ++ [ScreenUpdate screen_id h v] |}).
  cbv iota beta.
  set (w4 := {| remote := screen_update (remote w) screen_id h v;
                calls := calls w ++ [ScreenUpdate screen_id h v] |}).
  destruct (create_screen_items_effect screen_id hs names graph_width graph_height
              h b w4 Hh Hb) as (w5 & ds & Hrun & Hgrow & Hown & Hres).
  rewrite (bind_run (create_screen_items _ _ _ _ _ _ _)), Hrun.
  unfold ret. intros H. inversion H. subst w'. clear H.
  split; [| split].
  - destruct Hgrow as (Hinv & _). exact Hinv.
  - rewrite (resources_after_growth ds (remote w4) (remote w5) screen_id Hgrow Hown).
    + exact Hres.
    + exact Hnone.
  - destruct Hgrow as (_ & Hs & _). exact Hs.
Qed.

Lemma screen_update_keeps (screen_id : ident) (h v : Z) (s : screen) :
  let s' := if String.eqb (screenid s) screen_id
            then {| screenid := screen_id; screen_name := screen_name s;
                    hsize := h; vsize := v |}
            else s in
  screenid s' = screenid s /\ screen_name s' = screen_name s.
Proof.
  cbv zeta. destruct (String.eqb_spec (screenid s) screen_id); simpl; auto.
Qed.

(** After a turn of lines 434-454 that returns, the items of the screen
    show the resolved graphs, in order. *)
Lemma reconcile_converges (p : Params.t) (o : option ident) (hs graph_ids : list ident)
    (h v : Z) (acc acc' : report) (w w' : world) (names : list string) :
  Params.graph_names p = Some names ->
  graph_ids = flat_map (resolved_graphs (remote w) names) hs ->
  h <> 0 -> Params.graphs_in_row p <> 0 ->
  (truthy o = None -> screenitem_get (remote w) (fresh (remote w)) = []) ->
  reconcile false p o hs graph_ids h v acc w = (Ret acc', w') ->
  same_inventory (remote w) (remote w')
  /\ resources_of (remote w') match truthy o with
                              | Some screen_id => screen_id
                              | None => fresh (remote w)
                              end = graph_ids
  /\ match truthy o with
     | Some _ =>
         exists f, screens (remote w') = map f (screens (remote w))
                   /\ forall s, screenid (f s) = screenid s
                                /\ screen_name (f s) = screen_name s
     | None =>
         screens (remote w')
         = screens (remote w)
           ++ [{| screenid := fresh (remote w); screen_name := Params.screen_name p;
                  hsize := h; vsize := v |}]
     end.
Proof.
  intros Hnames Hids Hh Hb Hfresh. destruct acc as [[created changed] deleted].
  unfold reconcile. rewrite Hnames.
  destruct (truthy o) as [screen_id |].
  - unfold get_screen_items. rewrite bind_run, zapi_read_run. cbv zeta.
    destruct (ids_eqb graph_ids _) eqn:Heq; cbn [negb].
    + unfold ret. intros H. inversion H. subst w'. clear H.
      apply ids_eqb_eq in Heq. rewrite remote_log.
      split; [apply same_inventory_refl |]. split; [symmetry; exact Heq |].
      exists (fun s => s). rewrite map_id. auto.
    + pose proof (delete_screen_items_run screen_id (log w [ScreenitemGet screen_id]))
        as Hdel.
      cbv zeta in Hdel. rewrite remote_log in Hdel.
      rewrite ?remote_log. rewrite bind_run, Hdel. clear Hdel.
      destruct (screenitem_get (remote w) screen_id) as [| i0 il] eqn:Hitems.
      * intros H.
        apply update_then_create in H; [| assumption | assumption
                                        | rewrite remote_log; exact Hitems].
        rewrite remote_log in H. destruct H as (Hinv & Hres & Hscreens).
        split; [exact Hinv |]. split; [rewrite Hres; symmetry; exact Hids |].
        eexists. split; [exact Hscreens |]. intros s. apply screen_update_keeps.
      * intros H.
        apply update_then_create in H;
          [| assumption | assumption
           | cbn [remote]; rewrite <- Hitems; apply items_gone_after_delete].
        cbn [remote] in H. destruct H as (Hinv & Hres & Hscreens).
        split; [exact Hinv |]. split.
        -- rewrite Hres, Hids. apply flat_map_resolved_ext. reflexivity.
        -- eexists. split; [exact Hscreens |]. intros s. apply screen_update_keeps.
  - rewrite bind_run, create_screen_real.
    set (w3 := {| remote := fst (screen_create (remote w) (Params.screen_name p) h v);
                  calls := calls w ++ [ScreenCreate (Params.screen_name p) h v] |}).
    destruct (create_screen_items_effect (fresh (remote w)) hs names
                (Params.graph_width p) (Params.graph_height p) h
                (Params.graphs_in_row p) w3 Hh Hb)
      as (w5 & ds & Hrun & Hgrow & Hown & Hres).
    rewrite bind_run, Hrun. unfold ret. intros H. inversion H. subst w'. clear H.
    split; [| split].
    + destruct Hgrow as (Hinv & _). exact Hinv.
    + rewrite (resources_after_growth ds (remote w3) (remote w5) _ Hgrow Hown).
      * rewrite Hres, Hids. apply flat_map_resolved_ext. reflexivity.
      * apply Hfresh. reflexivity.
    + destruct Hgrow as (_ & Hs & _). exact Hs.
Qed.

Lemma fresh_nonempty (r : server) : fresh r <> "".
Proof.
  unfold fresh.
  assert (Hnil : N.to_uint (next_id r) <> Decimal.Nil).
  { destruct (next_id r) as [| q]; [discriminate | apply Unsigned.to_uint_nonnil]. }
  destruct (N.to_uint (next_id r)); [congruence | | | | | | | | | |]; discriminate.
Qed.

Lemma screen_get_map (f : screen -> screen) (name : string) (l : list screen) :
  (forall s, screen_name (f s) = screen_name s) ->
  filter (fun s => search name (screen_name s)) (map f l)
  = map f (filter (fun s => search name (screen_name s)) l).
Proof.
  intros Hf. induction l as [| s t IH]; simpl; [reflexivity |].
  rewrite Hf. destruct (search name (screen_name s)); simpl; rewrite IH; reflexivity.
Qed.

Lemma lookup_after_update (r r' : server) (name : string) (f : screen -> screen) :
  screens r' = map f (screens r) ->
  (forall s, screenid (f s) = screenid s /\ screen_name (f s) = screen_name s) ->
  option_map screenid (hd_error (screen_get r' name))
  = option_map screenid (hd_error (screen_get r name)).
Proof.
  intros Hs Hf. unfold screen_get. rewrite Hs, screen_get_map by apply Hf.
  destruct (filter _ (screens r)) as [| s t]; simpl; [reflexivity |].
  f_equal. apply Hf.
Qed.

Lemma lookup_after_create (r r' : server) (s : screen) :
  screen_get r (screen_name s) = [] ->
  screens r' = screens r ++ [s] ->
  screen_get r' (screen_name s) = [s].
Proof.
  intros Hnone Hs. unfold screen_get in *. rewrite Hs, filter_app, Hnone. simpl.
  rewrite search_refl. reflexivity.
Qed.

(** A turn of the loop on a screen whose items already show the resolved
    graphs only reads. *)
Lemma process_screen_quiet (check_mode : bool) (p : Params.t) (acc : report) (w : world)
    (screen_id : ident) (hs graph_ids : list ident) (h v : Z) :
  Params.state p = present ->
  Params.screen_name p <> "" ->
  option_map screenid (hd_error (screen_get (remote w) (Params.screen_name p)))
  = Some screen_id ->
  screen_id <> "" ->
  fst (resolve p (log w [ScreenGet (Params.screen_name p)]))
  = Ret (hs, graph_ids, h, v) ->
  resources_of (remote w) screen_id = graph_ids ->
  exists t, process_screen check_mode acc p w = (Ret acc, log w t) /\ reads_only t.
Proof.
  intros Hstate Hname Hlookup Hid Hres Hitems.
  destruct (emits_log (resolve p) (log w [ScreenGet (Params.screen_name p)]))
    as (t2 & Hw2 & Hreads).
  { apply emits_resolve. intros c Hc. exact Hc. }
  assert (Hrun : resolve p (log w [ScreenGet (Params.screen_name p)])
                 = (Ret (hs, graph_ids, h, v),
                    log (log w [ScreenGet (Params.screen_name p)]) t2)).
  { rewrite <- Hres, <- Hw2. apply surjective_pairing. }
  exists ([ScreenGet (Params.screen_name p)] ++ t2 ++ [ScreenitemGet screen_id]).
  split.
  - unfold process_screen. destruct acc as [[created changed] deleted].
    rewrite bind_run, get_screen_id_run by assumption. rewrite Hlookup, Hstate.
    rewrite bind_run, Hrun. unfold reconcile.
    assert (Htruthy : truthy (Some screen_id) = Some screen_id).
    { unfold truthy. destruct (String.eqb_spec screen_id ""); congruence. }
    rewrite Htruthy. unfold get_screen_items. rewrite bind_run, zapi_read_run.
    cbv zeta. rewrite !remote_log. unfold resources_of in Hitems.
    rewrite Hitems, ids_eqb_refl. cbn [negb]. rewrite !log_log. reflexivity.
  - apply Forall_app. split; [repeat constructor |].
    apply Forall_app. split; [assumption | repeat constructor].
Qed.

(** X9. A present-state screen is reconciled in one run: when a real turn of
    the loop of [main] returns for a screen, the same turn run again on the
    server it left only reads, changes nothing and reports nothing more.
    The server is assumed to give every screen an id that is not empty and
    to hold no item under the id it will issue next. *)
Theorem present_run_is_idempotent (p : Params.t) (acc acc1 : report) (w w1 : world) :
  Params.state p = present ->
  (forall s, In s (screens (remote w)) -> screenid s <> "") ->
  screenitem_get (remote w) (fresh (remote w)) = [] ->
  process_screen false acc p w = (Ret acc1, w1) ->
  exists t, process_screen false acc1 p w1 = (Ret acc1, log w1 t) /\ reads_only t.
Proof.
  intros Hstate Hids Hfresh. destruct acc as [[created changed] deleted].
  unfold process_screen at 1. rewrite bind_run.
  destruct (get_screen_id (Params.screen_name p) w) as [[o | ? | ? ? | ?] w0] eqn:Hlookup;
    try discriminate.
  apply get_screen_id_inv in Hlookup. destruct Hlookup as (Hname & -> & Ho).
  rewrite Hstate, bind_run.
  destruct (resolve p (log w [ScreenGet (Params.screen_name p)]))
    as [[[[[hs graph_ids] h] v] | ? | ? ? | ?] w2] eqn:Hres; try discriminate.
  pose proof (resolve_inv _ _ _ _ _ _ _ Hres)
    as (names & t & Hnames & Hgraphs & Hh & Hb & -> & _).
  rewrite remote_log in Hgraphs.
  intros Hrec.
  apply (reconcile_converges p o hs graph_ids h v _ acc1 _ w1 names) in Hrec;
    try assumption; rewrite ?remote_log; try assumption; [| intros _; exact Hfresh].
  rewrite !remote_log in Hrec. destruct Hrec as (Hinv & Hresources & Hscreens).
  assert (Hvalue : fst (resolve p (log w1 [ScreenGet (Params.screen_name p)]))
                   = Ret (hs, graph_ids, h, v)).
  { destruct (inventory_only_resolve p
                (log w [ScreenGet (Params.screen_name p)])
                (log w1 [ScreenGet (Params.screen_name p)])) as [Hfst _].
    - rewrite !remote_log. exact Hinv.
    - rewrite <- Hfst, Hres. reflexivity. }
  destruct (truthy o) as [screen_id |] eqn:Htruthy.
  - apply truthy_Some in Htruthy. destruct Htruthy as (-> & Hsid).
    destruct Hscreens as (f & Hmap & Hf).
    apply (process_screen_quiet false p acc1 w1 screen_id hs graph_ids h v);
      try assumption.
    rewrite (lookup_after_update (remote w) (remote w1) _ f Hmap Hf). symmetry. exact Ho.
  - assert (Hnone : screen_get (remote w) (Params.screen_name p) = []).
    { destruct (screen_get (remote w) (Params.screen_name p)) as [| s l] eqn:Hget;
        [reflexivity |].
      exfalso. subst o. simpl in Htruthy.
      assert (Hin : In s (screens (remote w))).
      { assert (H : In s (screen_get (remote w) (Params.screen_name p)))
          by (rewrite Hget; left; reflexivity).
        unfold screen_get in H. apply filter_In in H. tauto. }
      apply Hids in Hin. destruct (String.eqb_spec (screenid s) ""); congruence. }
    apply (process_screen_quiet false p acc1 w1 (fresh (remote w)) hs graph_ids h v);
      try assumption; [| apply fresh_nonempty].
    pose proof (lookup_after_create (remote w) (remote w1)
                  {| screenid := fresh (remote w); screen_name := Params.screen_name p;
                     hsize := h; vsize := v |} Hnone Hscreens) as Hget.
    simpl in Hget. rewrite Hget. reflexivity.
Qed.

Lemma present_run_is_idempotent_witness :
  exists t,
    process_screen false (["New"], [], ["Old"]) (example_params "New" present 3)
      (snd (process_screen false ([], [], ["Old"]) (example_params "New" present 3)
                           example_world))
    = (Ret (["New"], [], ["Old"]),
       log (snd (process_screen false ([], [], ["Old"]) (example_params "New" present 3)
                                example_world)) t)
    /\ reads_only t.
Proof.
  apply (present_run_is_idempotent (example_params "New" present 3)
           ([], [], ["Old"]) (["New"], [], ["Old"]) example_world
           (snd (process_screen false ([], [], ["Old"]) (example_params "New" present 3)
                                example_world))).
  - reflexivity.
  - intros s Hs. simpl in Hs.
    destruct Hs as [<- | [<- | [<- | []]]]; discriminate.
  - reflexivity.
  - reflexivity.
Defined.

(** ** A failed run *)

Lemma update_then_create_returns (screen_id name : ident) (hs : list ident)
    (names : list string) (graph_width graph_height : option Z) (h v b : Z)
    (out : report) (w : world) :
  h <> 0 -> b <> 0 ->
  exists w',
    (update_screen false screen_id name h v ;;
     create_screen_items screen_id hs (Some names) graph_width graph_height h b ;;
     ret out) w = (Ret out, w').
Proof.
  intros Hh Hb.
  rewrite (bind_run (update_screen false _ _ _ _)).
  change (update_screen false screen_id name h v w)
    with (Ret tt, {| remote := screen_update (remote w) screen_id h v;
                     calls := calls w ++ [ScreenUpdate screen_id h v] |}).
  cbv iota beta.
  set (w4 := {| remote := screen_update (remote w) screen_id h v;
                calls := calls w ++ [ScreenUpdate screen_id h v] |}).
  destruct (create_screen_items_run screen_id hs names graph_width graph_height
              h b w4 Hh Hb) as (w5 & Hrun & _).
  rewrite (bind_run (create_screen_items _ _ _ _ _ _ _)), Hrun.
  exists w5. reflexivity.
Qed.

(** Once the sizes are computed lines 434-454 run to their end. *)
Lemma reconcile_returns (p : Params.t) (o : option ident) (hs graph_ids : list ident)
    (h v : Z) (acc : report) (w : world) (names : list string) :
  Params.graph_names p = Some names ->
  h <> 0 -> Params.graphs_in_row p <> 0 ->
  exists acc' w', reconcile false p o hs graph_ids h v acc w = (Ret acc', w').
Proof.
  intros Hnames Hh Hb. destruct acc as [[created changed] deleted].
  unfold reconcile. rewrite Hnames.
  destruct (truthy o) as [screen_id |].
  - unfold get_screen_items. rewrite bind_run, zapi_read_run. cbv zeta.
    destruct (ids_eqb graph_ids _); cbn [negb].
    + do 2 eexists. reflexivity.
    + pose proof (delete_screen_items_run screen_id (log w [ScreenitemGet screen_id]))
        as Hdel.
      cbv zeta in Hdel. rewrite remote_log in Hdel.
      rewrite ?remote_log. rewrite bind_run, Hdel. clear Hdel.
      destruct (screenitem_get (remote w) screen_id) as [| i0 il];
        eexists; apply update_then_create_returns; assumption.
  - rewrite bind_run, create_screen_real.
    set (w3 := {| remote := fst (screen_create (remote w) (Params.screen_name p) h v);
                  calls := calls w ++ [ScreenCreate (Params.screen_name p) h v] |}).
    destruct (create_screen_items_run (fresh (remote w)) hs names
                (Params.graph_width p) (Params.graph_height p) h
                (Params.graphs_in_row p) w3 Hh Hb) as (w5 & Hrun & _).
    rewrite bind_run, Hrun. do 2 eexists. reflexivity.
Qed.

(** A turn of the loop that does not return has only read. *)
Lemma process_screen_fails_early (acc : report) (p : Params.t) (w w' : world)
    (out : outcome report) :
  process_screen false acc p w = (out, w') ->
  (forall acc', out <> Ret acc') ->
  exists t, w' = log w t /\ reads_only t.
Proof.
  destruct acc as [[created changed] deleted]. unfold process_screen.
  rewrite bind_run.
  destruct (emits_log (get_screen_id (Params.screen_name p)) w) as (t0 & Hw0 & Hreads0).
  { apply emits_get_screen_id. intros c Hc. exact Hc. }
  destruct (get_screen_id (Params.screen_name p) w) as [[o | ? | ? ? | ?] w0] eqn:Hlookup;
    simpl in Hw0; subst w0;
    try (intros H _; inversion H; subst; exists t0; split; [reflexivity | assumption]).
  destruct (Params.state p).
  - destruct (truthy o) as [screen_id |].
    + unfold get_screen_items. rewrite bind_run, zapi_read_run. cbv zeta.
      pose proof (delete_screen_items_run screen_id
                    (log (log w t0) [ScreenitemGet screen_id])) as Hdel.
      cbv zeta in Hdel. rewrite !remote_log in Hdel.
      rewrite ?remote_log. rewrite bind_run, Hdel. clear Hdel.
      destruct (screenitem_get (remote w) screen_id) as [| i0 il];
        rewrite bind_run, delete_screen_real; intros H Hout; inversion H; subst;
        exfalso; eapply Hout; reflexivity.
    + intros H Hout. inversion H; subst. exfalso. eapply Hout. reflexivity.
  - rewrite bind_run.
    destruct (emits_log (resolve p) (log w t0)) as (t1 & Hw1 & Hreads1).
    { apply emits_resolve. intros c Hc. exact Hc. }
    destruct (resolve p (log w t0)) as [[[[[hs graph_ids] h] v] | ? | ? ? | ?] w1] eqn:Hres;
      simpl in Hw1; subst w1;
      try (intros H _; inversion H; subst; exists (t0 ++ t1); rewrite log_log;
           split; [reflexivity | apply Forall_app; split; assumption]).
    pose proof (resolve_inv _ _ _ _ _ _ _ Hres) as (names & t & Hnames & _ & Hh & Hb & _).
    destruct (reconcile_returns p o hs graph_ids h v (created, changed, deleted)
                (log (log w t0) t1) names Hnames Hh Hb) as (acc' & w2 & Hrun).
    rewrite Hrun. intros H Hout. inversion H; subst. exfalso. eapply Hout. reflexivity.
Qed.

Lemma loop_fails_early (screens : list Params.t) :
  forall (acc : report) (w w' : world) (out : outcome report),
    for_fold screens acc (process_screen false) w = (out, w') ->
    (forall acc', out <> Ret acc') ->
    exists done rest acc1 w1 t,
      screens = done ++ rest
      /\ for_fold done acc (process_screen false) w = (Ret acc1, w1)
      /\ w' = log w1 t /\ reads_only t.
Proof.
  induction screens as [| p rest IH]; intros acc w w' out.
  - intros H Hout. inversion H; subst. exfalso. eapply Hout. reflexivity.
  - rewrite for_fold_cons, bind_run.
    destruct (process_screen false acc p w) as [o1 w1] eqn:Hturn.
    destruct o1 as [acc1 | msg | c r | e].
    + intros Hrest Hout.
      destruct (IH acc1 w1 w' out Hrest Hout)
        as (done' & rest' & acc2 & w2 & t & -> & Hdone & -> & Hreads).
      exists (p :: done'), rest', acc2, w2, t. split; [reflexivity |].
      split; [| split; [reflexivity | assumption]].
      rewrite for_fold_cons, bind_run, Hturn. exact Hdone.
    + intros H _. inversion H; subst.
      destruct (process_screen_fails_early acc p w w' (FailJson msg) Hturn)
        as (t & -> & Hreads); [discriminate |].
      exists [], (p :: rest), acc, w, t. auto.
    + intros H _. inversion H; subst.
      destruct (process_screen_fails_early acc p w w' (ExitJson c r) Hturn)
        as (t & -> & Hreads); [discriminate |].
      exists [], (p :: rest), acc, w, t. auto.
    + intros H _. inversion H; subst.
      destruct (process_screen_fails_early acc p w w' (Raise e) Hturn)
        as (t & -> & Hreads); [discriminate |].
      exists [], (p :: rest), acc, w, t. auto.
Qed.

(** X10. A run of [main] that does not end in [exit_json] (it failed with
    [fail_json] or an exception escaped) has left every screen of the list
    either processed to the end or untouched: the server is as the loop left
    it after some first screens of the list, and since then only reads were
    issued.  The screen that failed and the screens after it received no
    write, the changes to the screens before it stay.  (The server of the
    model answers every call.) *)
Theorem failed_run_writes_whole_screens (screens : list Params.t) (w w' : world)
    (out : outcome unit) :
  main false screens w = (out, w') ->
  (forall changed result, out <> ExitJson changed result) ->
  exists done rest acc1 w1 t,
    screens = done ++ rest
    /\ for_fold done ([], [], []) (process_screen false) (log w [ApiinfoVersion])
       = (Ret acc1, w1)
    /\ w' = log w1 t /\ reads_only t.
Proof.
  unfold main, zbx_api_version. rewrite bind_run, zapi_read_run.
  destruct (version_ge _ _).
  - intros H _. inversion H; subst.
    exists [], screens, ([], [], []), (log w [ApiinfoVersion]), [].
    rewrite log_nil. repeat split. constructor.
  - rewrite bind_run.
    destruct (for_fold screens ([], [], []) (process_screen false) (log w [ApiinfoVersion]))
      as [o1 w1] eqn:Hloop.
    unfold report in *.
    destruct o1 as [[[created changed] deleted] | msg | c r | e].
    + intros H Hout. exfalso.
      destruct (exit_report created changed deleted w1) as (result & Hexit).
      destruct created, changed, deleted; inversion H; subst; eapply Hout; reflexivity.
    + intros H _. inversion H; subst.
      apply (loop_fails_early screens _ _ _ _ Hloop). discriminate.
    + intros H _. inversion H; subst.
      apply (loop_fails_early screens _ _ _ _ Hloop). discriminate.
    + intros H _. inversion H; subst.
      apply (loop_fails_early screens _ _ _ _ Hloop). discriminate.
Qed.

Lemma failed_run_writes_whole_screens_witness :
  exists done rest acc1 w1 t,
    [example_params "New" present 3; example_params "Other" present 0] = done ++ rest
    /\ for_fold done ([], [], []) (process_screen false) (log example_world [ApiinfoVersion])
       = (Ret acc1, w1)
    /\ snd (main false [example_params "New" present 3; example_params "Other" present 0]
                 example_world) = log w1 t
    /\ reads_only t.
Proof.
  apply (failed_run_writes_whole_screens
           [example_params "New" present 3; example_params "Other" present 0]
           example_world _ (Raise ZeroDivisionError)).
  - reflexivity.
  - intros changed result. discriminate.
Defined.

(** ** The graphs of a screen *)

Lemma reads_only_graph_calls (names : list string) (hs : list ident) :
  reads_only (graph_calls names hs).
Proof.
  unfold reads_only, graph_calls. rewrite Forall_forall. intros c Hc.
  apply in_flat_map in Hc. destruct Hc as (host & _ & Hc).
  apply in_map_iff in Hc. destruct Hc as (n & <- & _). reflexivity.
Qed.

Lemma in_resolved_graphs (r : server) (names : list string) (host_id g : ident) :
  In g (resolved_graphs r names host_id)
  <-> exists name, In name names /\ matches r name host_id g.
Proof.
  unfold resolved_graphs, matches, graph_get. rewrite in_flat_map. split.
  - intros (name & Hname & Hg). apply in_map_iff in Hg. destruct Hg as (gr & Hid & Hgr).
    apply filter_In in Hgr. destruct Hgr as (Hin & Hb).
    apply andb_true_iff in Hb. destruct Hb as (Hs & Hh). apply String.eqb_eq in Hh.
    exists name. split; [assumption |]. exists gr. auto.
  - intros (name & Hname & gr & Hin & Hid & Hh & Hs). exists name.
    split; [assumption |]. apply in_map_iff. exists gr. split; [assumption |].
    apply filter_In. split; [assumption |]. apply andb_true_iff.
    split; [assumption |]. apply String.eqb_eq. assumption.
Qed.

(** X11. [get_graph_ids] loses and invents nothing: it returns, after reads
    only, and a graph id is in the list it returns exactly when the server
    holds a graph with this id on one of the hosts whose name contains one
    of the graph names, whatever the case of the letters.  The [vsize] it
    returns is the largest number of ids a host contributes, and 1 at
    least. *)
Theorem get_graph_ids_finds_matching_graphs (hs : list ident) (names : list string)
    (w : world) :
  exists ids v t,
    get_graph_ids hs (Some names) w = (Ret (ids, v), log w t)
    /\ reads_only t
    /\ (forall g, In g ids
                  <-> exists host name, In host hs /\ In name names
                                        /\ matches (remote w) name host g)
    /\ 1 <= v
    /\ (forall host, In host hs -> len (resolved_graphs (remote w) names host) <= v).
Proof.
  rewrite get_graph_ids_run. do 3 eexists. split; [reflexivity |].
  split; [apply reads_only_graph_calls |]. split; [| split].
  - intros g. rewrite in_flat_map. split.
    + intros (host & Hhost & Hg). apply in_resolved_graphs in Hg.
      destruct Hg as (name & Hname & Hm). exists host, name. auto.
    + intros (host & name & Hhost & Hname & Hm). exists host.
      split; [assumption |]. apply in_resolved_graphs. exists name. auto.
  - apply max_graphs_ge.
  - intros host Hin. apply max_graphs_bound. assumption.
Qed.

(** ** No two items in one cell *)

Lemma in_enumerate_from_snd {A : Type} (l : list A) :
  forall (k i : Z) (a : A), In (i, a) (enumerate_from k l) -> In a l.
Proof.
  induction l as [| b t IH]; intros k i a Hin; simpl in Hin; [contradiction |].
  destruct Hin as [Heq | Hin]; [inversion Heq; left; reflexivity | right; eauto].
Qed.

Lemma nodup_enumerate {A B : Type} (f : Z * A -> B) (l : list A) :
  (forall i a i' a', f (i, a) = f (i', a') -> i = i') ->
  forall k, NoDup (map f (enumerate_from k l)).
Proof.
  intros Hinj. induction l as [| a t IH]; intros k; simpl; constructor.
  - intros Hin. apply in_map_iff in Hin. destruct Hin as ([i a'] & Heq & Hin).
    apply Hinj in Heq. apply in_enumerate_from in Hin. lia.
  - apply IH.
Qed.

Lemma nodup_flat_enumerate {A B : Type} (F : Z * A -> list B) (key : B -> Z)
    (l : list A) :
  (forall i a b, In a l -> In b (F (i, a)) -> key b = i) ->
  (forall i a, In a l -> NoDup (F (i, a))) ->
  forall k, NoDup (flat_map F (enumerate_from k l)).
Proof.
  induction l as [| a t IH]; intros Hkey Hnodup k; simpl; [constructor |].
  apply NoDup_app.
  - apply Hnodup. left. reflexivity.
  - apply IH.
    + intros i a' b Hin. apply Hkey. right. assumption.
    + intros i a' Hin. apply Hnodup. right. assumption.
  - intros b Hb Hb'. apply in_flat_map in Hb'. destruct Hb' as ([i a'] & Hin & Hb').
    apply Hkey in Hb; [| left; reflexivity].
    apply Hkey in Hb'; [| right; eapply in_enumerate_from_snd; eassumption].
    apply in_enumerate_from in Hin. lia.
Qed.

Lemma single_host_positions (screen_id : ident) (wd ht h : Z) (l : list ident) :
  h <> 0 -> NoDup (map position (single_host_items screen_id wd ht h l)).
Proof.
  intros Hh. unfold single_host_items, enumerate. rewrite map_map.
  apply nodup_enumerate. intros i a i' a' Heq. unfold position in Heq. simpl in Heq.
  inversion Heq as [[Hx Hy]].
  rewrite (Z.div_mod i h Hh), (Z.div_mod i' h Hh). congruence.
Qed.

Lemma host_positions (screen_id : ident) (wd ht b i : Z) (l : list ident) :
  NoDup (map position (host_items screen_id wd ht b i l)).
Proof.
  unfold host_items, enumerate. rewrite map_map.
  apply nodup_enumerate. intros j a j' a' Heq. unfold position in Heq. simpl in Heq.
  inversion Heq. lia.
Qed.

Lemma host_position_key (screen_id : ident) (wd ht b i : Z) (l : list ident) (c : Z * Z) :
  b <> 0 ->
  In c (map position (host_items screen_id wd ht b i l)) ->
  b * (snd c / len l) + fst c = i.
Proof.
  intros Hb Hin. apply in_map_iff in Hin. destruct Hin as (d & <- & Hd).
  unfold host_items in Hd. apply in_map_iff in Hd. destruct Hd as ([j g] & <- & Hj).
  apply in_enumerate_from in Hj. unfold position. simpl.
  assert (Hq : (len l * (i / b) + j) / len l = i / b).
  { symmetry. apply (Z.div_unique_pos _ (len l) (i / b) j); lia. }
  rewrite Hq. symmetry. apply Z.div_mod. assumption.
Qed.

Lemma multi_host_positions (r : server) (screen_id : ident) (wd ht b n : Z)
    (names : list string) (hs : list ident) :
  b <> 0 ->
  (forall host, In host hs -> len (resolved_graphs r names host) = n) ->
  NoDup (map position (multi_host_items r screen_id wd ht b names hs)).
Proof.
  intros Hb Hn. unfold multi_host_items, enumerate. rewrite map_flat_map.
  apply (nodup_flat_enumerate
           (fun ia => map position
                          (let '(i, host) := ia in
                           host_items screen_id wd ht b i (resolved_graphs r names host)))
           (fun c => b * (snd c / n) + fst c)).
  - intros i host c Hin Hc. rewrite <- (Hn host Hin).
    apply (host_position_key screen_id wd ht b i _ c Hb Hc).
  - intros i host _. apply host_positions.
Qed.

(** X12. No two graphs in one cell.  When every host resolves the same
    number of graphs (with one host this says nothing) and neither the
    number of columns nor [graphs_in_row] is zero, [create_screen_items]
    returns and the items it has created lie in cells [(x, y)] that are all
    different. *)
Theorem created_cells_are_distinct (screen_id : ident) (hs : list ident)
    (names : list string) (graph_width graph_height : option Z) (h_size b n : Z)
    (w : world) :
  h_size <> 0 -> b <> 0 ->
  (forall host, In host hs -> len (resolved_graphs (remote w) names host) = n) ->
  exists w' new_items,
    create_screen_items screen_id hs (Some names) graph_width graph_height h_size b w
    = (Ret tt, w')
    /\ created_items (calls w') = created_items (calls w) ++ new_items
    /\ NoDup (map position new_items).
Proof.
  intros Hh Hb Hn.
  destruct (create_screen_items_run screen_id hs names graph_width graph_height
              h_size b w Hh Hb) as (w' & Hrun & Hcreated).
  exists w'. eexists. split; [exact Hrun |]. split; [exact Hcreated |].
  destruct hs as [| host [| host' t]].
  - apply (multi_host_positions _ _ _ _ b n names []); assumption.
  - apply single_host_positions. assumption.
  - apply (multi_host_positions _ _ _ _ b n names (host :: host' :: t)); assumption.
Qed.

Lemma created_cells_are_distinct_witness :
  exists w' new_items,
    create_screen_items "9" ["10"; "13"] (Some ["cpu"]) None None 2 3 example_world
    = (Ret tt, w')
    /\ created_items (calls w') = created_items (calls example_world) ++ new_items
    /\ NoDup (map position new_items).
Proof.
  apply (created_cells_are_distinct "9" ["10"; "13"] ["cpu"] None None 2 3 1 example_world).
  - lia.
  - lia.
  - intros host [<- | [<- | []]]; reflexivity.
Defined.

(** ** The diff check, from the state of the server *)

Lemma filter_none {A : Type} (f : A -> bool) (l : list A) :
  (forall a, In a l -> f a = false) -> filter f l = [].
Proof.
  intros Hf. induction l as [| a t IH]; simpl; [reflexivity |].
  rewrite (Hf a (or_introl eq_refl)). apply IH. intros b Hb. apply Hf. right. assumption.
Qed.

(** The lookup returns the first screen whose name contains the name. *)
Lemma first_hit (r : server) (name : string) (s : screen) (before after : list screen) :
  screens r = before ++ s :: after ->
  (forall s', In s' before -> search name (screen_name s') = false) ->
  search name (screen_name s) = true ->
  hd_error (screen_get r name) = Some s.
Proof.
  intros Hs Hbefore Hhit. unfold screen_get.
  rewrite Hs, filter_app, (filter_none _ _ Hbefore). simpl. rewrite Hhit. reflexivity.
Qed.

Lemma inventory_only_resolve_hosts (host_group : option (list string)) (sort : bool) :
  inventory_only (resolve_hosts host_group sort).
Proof.
  unfold resolve_hosts, get_host_group_ids, get_host_ids_by_group_ids.
  repeat inventory_only_step.
Qed.

Lemma inventory_only_get_graph_ids (hs : list ident)
    (graph_name_list : option (list string)) :
  inventory_only (get_graph_ids hs graph_name_list).
Proof.
  unfold get_graph_ids, get_graphs_by_host_id. repeat inventory_only_step.
Qed.

(** With a host, a [vsize] of 1 at least and [graphs_in_row] other than 0,
    [get_hsize_vsize] divides by no zero. *)
Lemma get_hsize_vsize_returns (hs : list ident) (v0 b : Z) (w : world) :
  hs <> [] -> 1 <= v0 -> b <> 0 ->
  exists h v, get_hsize_vsize hs v0 b w = (Ret (h, v), w).
Proof.
  intros Hne Hv0 Hb. unfold get_hsize_vsize.
  destruct (Z.eqb_spec (len hs) 1) as [H1 | H1].
  - rewrite bind_run. unfold floordiv.
    destruct (Z.leb_spec v0 b).
    + destruct (Z.eqb_spec v0 0); [lia |]. do 2 eexists. reflexivity.
    + destruct (Z.eqb_spec b 0); [lia |]. do 2 eexists. reflexivity.
  - destruct (Z.gtb_spec (len hs) b).
    + rewrite bind_run. unfold floordiv.
      destruct (Z.eqb_spec b 0); [lia |]. do 2 eexists. reflexivity.
    + do 2 eexists. reflexivity.
Qed.

(** Lines 419-432 return once the hosts and the graphs resolve and
    [graphs_in_row] is not 0, whatever was asked of the server before. *)
Lemma resolve_returns (p : Params.t) (w w' : world) (hs graph_ids : list ident) (v0 : Z) :
  remote w' = remote w ->
  Params.graphs_in_row p <> 0 ->
  fst (resolve_hosts (Params.host_group p) (Params.sort p) w) = Ret hs ->
  fst (get_graph_ids hs (Params.graph_names p) w) = Ret (graph_ids, v0) ->
  exists h v, fst (resolve p w') = Ret (hs, graph_ids, h, v).
Proof.
  intros Hremote Hb Hhosts Hgraphs. unfold resolve. cbv zeta. rewrite bind_run.
  assert (Hsame : same_inventory (remote w) (remote w'))
    by (rewrite Hremote; apply same_inventory_refl).
  destruct (inventory_only_resolve_hosts (Params.host_group p) (Params.sort p) w w' Hsame)
    as [Hfst _].
  destruct (emits_log (resolve_hosts (Params.host_group p) (Params.sort p)) w')
    as (t1 & Hw1 & _).
  { apply emits_resolve_hosts. intros c Hc. exact Hc. }
  destruct (resolve_hosts (Params.host_group p) (Params.sort p) w') as [o1 w1] eqn:Hrun.
  simpl in Hfst, Hw1. rewrite Hhosts in Hfst. subst o1 w1.
  pose proof (resolve_hosts_nonempty _ _ _ _ _ Hrun) as Hne.
  assert (Hsame1 : same_inventory (remote w) (remote (log w' t1)))
    by (rewrite remote_log, Hremote; apply same_inventory_refl).
  destruct (inventory_only_get_graph_ids hs (Params.graph_names p) w (log w' t1) Hsame1)
    as [Hfst _].
  rewrite bind_run.
  destruct (get_graph_ids hs (Params.graph_names p) (log w' t1)) as [o2 w2] eqn:Hids.
  simpl in Hfst. rewrite Hgraphs in Hfst. subst o2.
  pose proof (get_graph_ids_positive _ _ _ _ _ _ Hids) as Hv0.
  destruct (get_hsize_vsize_returns hs v0 (Params.graphs_in_row p) w2 Hne Hv0 Hb)
    as (h & v & Hsize).
  rewrite bind_run, Hsize. exists h, v. reflexivity.
Qed.

(** C2. The diff check of the present path, with [graphs_in_row] other than
    0.  Let the screen of the requested name be the first screen of the
    server whose name contains that name, so that the lookup returns it,
    and let the hosts and the graphs resolve.  When the graph ids that
    [get_graph_ids] returns are, in order, the resource ids of the items of
    the screen, [main] issues no write for the screen: all it asks of the
    server are reads, the server is as it was, and the screen enters none
    of the lists of created, changed or deleted screens.  Neither the cell
    size nor [graphs_in_row] plays a part in the test. *)
Theorem unchanged_when_ids_equal (check_mode : bool) (p : Params.t) (acc : report)
    (w : world) (s : screen) (before after : list screen) (hs : list ident) (v0 : Z) :
  Params.state p = present ->
  Params.graphs_in_row p <> 0 ->
  screens (remote w) = before ++ s :: after ->
  (forall s', In s' before -> search (Params.screen_name p) (screen_name s') = false) ->
  screen_name s = Params.screen_name p ->
  screen_name s <> "" ->
  screenid s <> "" ->
  fst (resolve_hosts (Params.host_group p) (Params.sort p) w) = Ret hs ->
  fst (get_graph_ids hs (Params.graph_names p) w)
  = Ret (resources_of (remote w) (screenid s), v0) ->
  exists t, process_screen check_mode acc p w = (Ret acc, log w t) /\ reads_only t.
Proof.
  intros Hstate Hb Hscreens Hbefore Hname Hne Hid Hhosts Hgraphs.
  destruct (resolve_returns p w (log w [ScreenGet (Params.screen_name p)]) hs _ v0
              (remote_log _ _) Hb Hhosts Hgraphs) as (h & v & Hres).
  apply (process_screen_quiet check_mode p acc w (screenid s) hs
           (resources_of (remote w) (screenid s)) h v); try assumption.
  - rewrite <- Hname. assumption.
  - rewrite (first_hit (remote w) _ s before after Hscreens Hbefore).
    + reflexivity.
    + rewrite <- Hname. apply search_refl.
  - reflexivity.
Qed.

Lemma unchanged_when_ids_equal_witness :
  exists t,
    process_screen false ([], [], []) (example_params "Dash" present 7) example_world
    = (Ret ([], [], []), log example_world t)
    /\ reads_only t.
Proof.
  apply (unchanged_when_ids_equal false (example_params "Dash" present 7) ([], [], [])
           example_world
           {| screenid := "9"; screen_name := "Dash"; hsize := 2; vsize := 2 |}
           [ {| screenid := "7"; screen_name := "ExampleScreen10"; hsize := 1; vsize := 1 |};
             {| screenid := "8"; screen_name := "ExampleScreen1"; hsize := 1; vsize := 1 |} ]
           [] ["13"; "10"] 2).
  - reflexivity.
  - discriminate.
  - reflexivity.
  - intros s' [<- | [<- | []]]; reflexivity.
  - reflexivity.
  - discriminate.
  - discriminate.
  - reflexivity.
  - reflexivity.
Defined.

(** Without these two conditions the turn does not end this way.  With
    [graphs_in_row = 0] the graph ids resolved for Dash are the resource ids
    of its items, yet the turn ends in ZeroDivisionError and reports
    nothing.  And for the name ExampleScreen1 with graph names that match no
    graph, the screen of that name (id 8) has no item, as resolved, yet the
    lookup returns ExampleScreen10 (id 7): the turn deletes its item,
    updates it and reports ExampleScreen1 as updated. *)
Lemma unchanged_needs_nonzero_row_and_first_hit :
  (fst (get_graph_ids ["13"; "10"] (Some ["cpu"; "mem"]) example_world)
   = Ret (resources_of example_server "9", 2)
   /\ fst (process_screen false ([], [], []) (example_params "Dash" present 0)
                          example_world)
      = Raise ZeroDivisionError)
  /\ (fst (get_graph_ids ["13"; "10"] (Params.graph_names disk_params) example_world)
      = Ret (resources_of example_server "8", 1)
      /\ fst (process_screen false ([], [], []) disk_params example_world)
         = Ret ([], ["ExampleScreen1"], [])
      /\ calls (snd (process_screen false ([], [], []) disk_params example_world))
         = [ScreenGet "ExampleScreen1"; HostgroupGet ["G1"; "G2"]; HostGet ["2"; "4"];
            GraphGet "disk" "13"; GraphGet "disk" "10"; ScreenitemGet "7";
            ScreenitemGet "7"; ScreenitemDelete ["40"]; ScreenUpdate "7" 2 1;
            GraphGet "disk" "13"; GraphGet "disk" "10"]).
Proof. repeat split; reflexivity. Qed.
